(** * buildenv: acquisition, unpacking and installation of a software package

    A shallow embedding of the Go package [buildenv] and of the two versions
    of its source file that the repository carries:

    - [Part000]: the version with package-named subdirectories of [BuildDir]
      (src/unnamed/part_000);
    - [Buildenv]: the version working directly in [BuildDir]
      (src/pkg/buildenv/buildenv.go).

    [IsInstalled], [lookPath], [Install] and [Init] have the same text in
    both files and are embedded once.

    The methods run in a state monad over the receiver [*Info], the package
    descriptor [*app.Info], a file system and a trace of the calls that leave
    the process (file-system calls, binary look-ups, spawned commands).  A
    Go [error] is an [option string]; a run-time panic is an outcome of its
    own.  Calls to [log] and [fmt.Printf] are not modelled. *)

From Stdlib Require Import String Ascii List ZArith Bool Lia.
From stdpp Require Import base option list gmap strings pretty sorting.

Import ListNotations.
Local Open Scope string_scope.
Local Open Scope list_scope.

(** ** Go strings: package [strings] *)

Module GoStrings.

Fixpoint HasPrefix (s p : string) : bool :=
  match p, s with
  | EmptyString, _ => true
  | String c p', String d s' => Ascii.eqb c d && HasPrefix s' p'
  | String _ _, EmptyString => false
  end.

Fixpoint drop (n : nat) (s : string) : string :=
  match n, s with
  | O, _ => s
  | S k, String _ r => drop k r
  | S _, EmptyString => EmptyString
  end.

Definition HasSuffix (s p : string) : bool :=
  (String.length p <=? String.length s)%nat
  && String.eqb (drop (String.length s - String.length p) s) p.

(** The head of the list under construction grows by one byte. *)
Definition push (c : ascii) (l : list string) : list string :=
  match l with
  | h :: t => String c h :: t
  | [] => [String c EmptyString]
  end.

(** [skip] counts the bytes of a separator still to be consumed. *)
Fixpoint split_go (sep : string) (skip : nat) (s : string) : list string :=
  match s with
  | EmptyString => [EmptyString]
  | String c r =>
      match skip with
      | S k => split_go sep k r
      | O =>
          if HasPrefix s sep
          then EmptyString :: split_go sep (String.length sep - 1) r
          else push c (split_go sep 0 r)
      end
  end.

Fixpoint explode (s : string) : list string :=
  match s with
  | EmptyString => []
  | String c r => String c EmptyString :: explode r
  end.

(** [strings.Split(s, sep)]: all substrings of [s] between occurrences of
    [sep]; at least one element when [sep] is not empty. *)
Definition Split (s sep : string) : list string :=
  if String.eqb sep EmptyString then explode s else split_go sep 0 s.

Fixpoint Join (l : list string) (sep : string) : string :=
  match l with
  | [] => EmptyString
  | [x] => x
  | x :: t => x +:+ sep +:+ Join t sep
  end.

(** [strings.Replace(s, old, new, n)] for a non-empty [old]: the first [n]
    occurrences, all of them when [n < 0]. *)
Fixpoint replace_go (old new : string) (skip : nat) (n : Z) (s : string)
  : string :=
  match s with
  | EmptyString => EmptyString
  | String c r =>
      match skip with
      | S k => replace_go old new k n r
      | O =>
          if (n =? 0)%Z then s
          else if HasPrefix s old
               then new +:+ replace_go old new (String.length old - 1) (n - 1) r
               else String c (replace_go old new 0 n r)
      end
  end.

Definition Replace (s old new : string) (n : Z) : string :=
  replace_go old new 0 n s.

End GoStrings.

(** ** Go paths: packages [path] and [path/filepath] on a Unix host *)

Module GoPath.

Definition slash : string := "/".

Definition components (p : string) : list string := GoStrings.Split p slash.

Definition rooted (p : string) : bool := GoStrings.HasPrefix p slash.

Definition is_empty (s : string) : bool := String.eqb s EmptyString.

(** One element of the path against the elements kept so far (innermost
    first). *)
Definition clean_step (abs : bool) (kept : list string) (c : string)
  : list string :=
  if is_empty c || String.eqb c "." then kept
  else if String.eqb c ".." then
    match kept with
    | top :: rest => if String.eqb top ".." then c :: kept else rest
    | [] => if abs then [] else [c]
    end
  else c :: kept.

(** [filepath.Clean]: the shortest path name equivalent to [p] by purely
    lexical processing. *)
Definition Clean (p : string) : string :=
  if is_empty p then "."
  else
    let kept := rev (fold_left (clean_step (rooted p)) (components p) []) in
    let body := GoStrings.Join kept slash in
    if rooted p then slash +:+ body
    else if is_empty body then "." else body.

(** [filepath.Join]: the elements from the first non-empty one on, joined
    by slashes and cleaned; the empty string when there is none. *)
Fixpoint Join (elem : list string) : string :=
  match elem with
  | [] => EmptyString
  | e :: rest =>
      if is_empty e then Join rest else Clean (GoStrings.Join elem slash)
  end.

Fixpoint drop_trailing_empty (l : list string) : list string :=
  match l with
  | [] => []
  | c :: t =>
      match drop_trailing_empty t with
      | [] => if is_empty c then [] else [c]
      | t' => c :: t'
      end
  end.

(** [path.Base] and, on Unix, [filepath.Base]: the last element of the
    path, trailing slashes removed. *)
Definition Base (p : string) : string :=
  if is_empty p then "."
  else match List.last (map Some (drop_trailing_empty (components p))) None with
       | Some c => c
       | None => slash
       end.

(** [filepath.Dir]: all but the last element, cleaned. *)
Definition Dir (p : string) : string :=
  Clean (String.concat EmptyString
           (map (fun c : string => c +:+ slash) (removelast (components p)))).

End GoPath.

(** ** The file system

    Paths are resolved lexically ([filepath.Clean]); the root and the working
    directory always exist, every other path is what the map holds.  Only the
    structural failures of the calls are modelled (missing parent, wrong kind
    of node), not permissions or quotas. *)

Definition error : Type := option string.

Inductive node : Type :=
| File (content : string)
| Directory.

Module Fs.

Definition lookup_clean (fs : gmap string node) (q : string) : option node :=
  if String.eqb q "/" || String.eqb q "." then Some Directory else fs !! q.

(** [os.Stat]: the empty path names nothing. *)
Definition stat (fs : gmap string node) (p : string) : option node :=
  if GoPath.is_empty p then None else lookup_clean fs (GoPath.Clean p).

(** What [util.PathExists], [util.IsDir] and [util.FileExists] of go_util
    answer: something, a directory, a regular file is found at the path.
    Where [util.FileExists] does not return is said by [stat_ENOTDIR] below
    and by [util_FileExists]. *)
Definition PathExists (fs : gmap string node) (p : string) : bool :=
  match stat fs p with Some _ => true | None => false end.

Definition IsDir (fs : gmap string node) (p : string) : bool :=
  match stat fs p with Some Directory => true | _ => false end.

Definition FileExists (fs : gmap string node) (p : string) : bool :=
  match stat fs p with Some (File _) => true | _ => false end.

(** [os.Mkdir]: the path must be free and its parent a directory. *)
Definition Mkdir (fs : gmap string node) (p : string)
  : gmap string node * error :=
  if GoPath.is_empty p then (fs, Some "mkdir : no such file or directory")
  else
    let q := GoPath.Clean p in
    match lookup_clean fs q with
    | Some _ => (fs, Some ("mkdir " +:+ p +:+ ": file exists"))
    | None =>
        match lookup_clean fs (GoPath.Dir q) with
        | Some Directory => (<[q := Directory]> fs, None)
        | Some (File _) => (fs, Some ("mkdir " +:+ p +:+ ": not a directory"))
        | None => (fs, Some ("mkdir " +:+ p +:+ ": no such file or directory"))
        end
    end.

(** The proper ancestors of a clean path, outermost first. *)
Fixpoint ancestors_go (fuel : nat) (q : string) (acc : list string)
  : list string :=
  match fuel with
  | O => acc
  | S k =>
      let d := GoPath.Dir q in
      if String.eqb d q then acc else ancestors_go k d (d :: acc)
  end.

Definition ancestors (q : string) : list string :=
  ancestors_go (String.length q) q [].

Definition is_file (o : option node) : bool :=
  match o with Some (File _) => true | _ => false end.

(** [os.Stat] fails with ENOTDIR, not with ENOENT: the path names nothing
    and one of its proper ancestors is a regular file. *)
Definition stat_ENOTDIR (fs : gmap string node) (p : string) : bool :=
  negb (GoPath.is_empty p)
  && negb (PathExists fs p)
  && existsb (fun a => is_file (lookup_clean fs a)) (ancestors (GoPath.Clean p)).

(** The text of the error of [os.Stat] on a path that names nothing. *)
Definition stat_error (fs : gmap string node) (p : string) : string :=
  "stat " +:+ p +:+ (if stat_ENOTDIR fs p then ": not a directory"
                     else ": no such file or directory").

(** Make sure every path of the chain is a directory. *)
Fixpoint mkdir_chain (fs : gmap string node) (chain : list string)
  : gmap string node * error :=
  match chain with
  | [] => (fs, None)
  | q :: rest =>
      match lookup_clean fs q with
      | Some Directory => mkdir_chain fs rest
      | Some (File _) => (fs, Some ("mkdir " +:+ q +:+ ": not a directory"))
      | None => mkdir_chain (<[q := Directory]> fs) rest
      end
  end.

(** [os.MkdirAll]: the directory and every missing parent. *)
Definition MkdirAll (fs : gmap string node) (p : string)
  : gmap string node * error :=
  if GoPath.is_empty p then (fs, Some "mkdir : no such file or directory")
  else
    let q := GoPath.Clean p in
    mkdir_chain fs (ancestors q ++ [q]).

(** The paths held directly under the directory [q]. *)
Definition children (fs : gmap string node) (q : string) : list string :=
  filter (fun k : string => GoPath.Dir k = q ∧ k ≠ q) (map fst (map_to_list fs)).

Definition str_le (a b : string) : Prop := String.leb a b = true.

#[global] Instance str_le_dec (a b : string) : Decision (str_le a b).
Proof. unfold str_le. apply _. Defined.

(** [ioutil.ReadDir]: the names of the entries, sorted. *)
Definition ReadDir (fs : gmap string node) (p : string)
  : list string * error :=
  match stat fs p with
  | Some Directory =>
      let names : gset string :=
        list_to_set (map GoPath.Base (children fs (GoPath.Clean p))) in
      (merge_sort str_le (elements names), None)
  | Some (File _) => ([], Some ("open " +:+ p +:+ ": not a directory"))
  | None => ([], Some ("open " +:+ p +:+ ": no such file or directory"))
  end.

(** [os.Remove]: a file, or a directory without entries. *)
Definition Remove (fs : gmap string node) (p : string)
  : gmap string node * error :=
  match stat fs p with
  | None => (fs, Some ("remove " +:+ p +:+ ": no such file or directory"))
  | Some (File _) => (delete (GoPath.Clean p) fs, None)
  | Some Directory =>
      match children fs (GoPath.Clean p) with
      | [] => (delete (GoPath.Clean p) fs, None)
      | _ :: _ => (fs, Some ("remove " +:+ p +:+ ": directory not empty"))
      end
  end.

(** [util.CopyFile] of go_util: nothing is done, and nothing looked at, when
    the two paths are the same string; otherwise the source is a regular
    file, the destination a file name in an existing directory.  The error
    for a source that is no regular file is formatted with the nil error of
    [os.Stat]. *)
Definition CopyFile (fs : gmap string node) (src dst : string)
  : gmap string node * error :=
  if String.eqb src dst then (fs, None)
  else
    match stat fs src with
    | Some (File c) =>
        if GoPath.is_empty dst then (fs, Some "open : no such file or directory")
        else
          let d := GoPath.Clean dst in
          match lookup_clean fs d, lookup_clean fs (GoPath.Dir d) with
          | Some Directory, _ => (fs, Some ("open " +:+ dst +:+ ": is a directory"))
          | _, Some Directory => (<[d := File c]> fs, None)
          | _, _ => (fs, Some ("open " +:+ dst +:+ ": no such file or directory"))
          end
    | Some Directory => (fs, Some ("invalid source file " +:+ src +:+ ": %!s(<nil>)"))
    | None => (fs, Some ("cannot access file " +:+ src +:+ ": " +:+ stat_error fs src))
    end.

End Fs.

(** ** Data *)

(** [buildenv.Info], the build environment. *)
Record Info : Type := {
  SrcPath : string;
  SrcDir : string;
  ScratchDir : string;
  InstallDir : string;
  BuildDir : string;
  Env : list string
}.

(** Modelled from the spec: the package descriptor [app.Info] (package
    pkg/app is not among the sources), with the four fields the build
    environment reads or writes: the name, the source locator, the cached
    file name and the install command. *)
Record app_Info : Type := {
  Name : string;
  URL : string;
  Tarball : string;
  InstallCmd : string
}.

(** [exec.Cmd] as [exec.Command(name, arg...)] fills it, with [Dir]. *)
Record Cmd : Type := {
  cmd_Path : string;
  cmd_Args : list string;
  cmd_Dir : string
}.

Definition exec_Command (name : string) (arg : list string) (dir : string) : Cmd :=
  {| cmd_Path := name; cmd_Args := name :: arg; cmd_Dir := dir |}.

(** What a finished command hands back: [cmd.Run()]'s error and the two
    captured buffers; the same three fields are [advexec.Result]. *)
Record Result : Type := {
  Err : error;
  Stdout : string;
  Stderr : string
}.

(** [advexec.Advcmd] of go_exec. *)
Record Advcmd : Type := {
  BinPath : string;
  CmdArgs : list string;
  ExecDir : string;
  ManifestName : string;
  ManifestDir : string;
  CmdEnv : list string
}.

(** The collaborators outside the repository: the URL and archive
    classifiers of go_util with their constants, [exec.LookPath], and the
    effect of a spawned command on the file system.  [URLType] is what
    [util.DetectURLType] answers for a URL of seven bytes or more. *)
Class Host : Type := {
  FileURL : string;
  HttpURL : string;
  GitURL : string;
  URLType : string -> string;
  DetectTarballFormat : string -> string;
  GetTarArgs : string -> string;
  LookPath : gmap string node -> string -> string * error;
  spawn : Cmd -> gmap string node -> gmap string node * Result;
  spawn_adv : Advcmd -> gmap string node -> gmap string node * Result
}.

(** The three kinds a URL can be classified as. *)
Definition url_kinds `{Host} : list string := [FileURL; HttpURL; GitURL].

(** The constants are pairwise distinct case labels, none of them the empty
    string that stands for "not classified". *)
Definition kinds_distinct `{Host} : Prop := NoDup (EmptyString :: url_kinds).

(** ** Calls that leave the process *)

Inductive event : Type :=
| EvStat (path : string)
| EvMkdir (path : string)
| EvMkdirAll (path : string)
| EvRemove (path : string)
| EvReadDir (path : string)
| EvCopyFile (src dst : string)
| EvLookPath (file : string)
| EvRun (c : Cmd)
| EvAdvRun (c : Advcmd).

(** The commands spawned in a trace. *)
Definition is_spawn (e : event) : bool :=
  match e with EvRun _ | EvAdvRun _ => true | _ => false end.

(** The calls that change the file system, or may. *)
Definition is_write (e : event) : bool :=
  match e with
  | EvMkdir _ | EvMkdirAll _ | EvRemove _ | EvCopyFile _ _ | EvRun _ | EvAdvRun _ => true
  | _ => false
  end.

(** ** The monad *)

Record state : Type := {
  st_env : Info;
  st_pkg : app_Info;
  st_fs : gmap string node;
  st_trace : list event
}.

Inductive outcome (A : Type) : Type :=
| Ret (a : A)
| Panic (msg : string).
Arguments Ret {A} a.
Arguments Panic {A} msg.

Definition M (A : Type) : Type := state -> outcome A * state.

Definition ret {A} (a : A) : M A := fun s => (Ret a, s).

Definition bind {A B} (m : M A) (k : A -> M B) : M B :=
  fun s =>
    match m s with
    | (Ret a, s') => k a s'
    | (Panic msg, s') => (Panic msg, s')
    end.

Definition panic {A} (msg : string) : M A := fun s => (Panic msg, s).

Notation "'do' x <- m ; k" := (bind m (fun x => k))
  (at level 10, x name, m at level 100, k at level 200).
Notation "m ;; k" := (bind m (fun _ => k))
  (at level 100, k at level 200, right associativity).

Definition nil_error : error := None.
Definition Errorf (msg : string) : error := Some msg.

(** [util.DetectURLType] of go_util takes the first seven bytes of the URL
    before it looks at anything else: a run-time panic on a shorter URL, the
    empty one included. *)
Definition DetectURLType `{Host} (url : string) : outcome string :=
  if (String.length url <? 7)%nat
  then Panic ("slice bounds out of range [:7] with length "
              +:+ pretty (String.length url))
  else Ret (URLType url).

Section Primitives.
Context `{Host}.

Definition getEnv : M Info := fun s => (Ret (st_env s), s).
Definition getPkg : M app_Info := fun s => (Ret (st_pkg s), s).

Definition putEnv (e : Info) : M unit := fun s =>
  (Ret tt, {| st_env := e; st_pkg := st_pkg s; st_fs := st_fs s; st_trace := st_trace s |}).
Definition putPkg (p : app_Info) : M unit := fun s =>
  (Ret tt, {| st_env := st_env s; st_pkg := p; st_fs := st_fs s; st_trace := st_trace s |}).

Definition with_SrcPath (v : string) (e : Info) : Info :=
  {| SrcPath := v; SrcDir := SrcDir e; ScratchDir := ScratchDir e;
     InstallDir := InstallDir e; BuildDir := BuildDir e; Env := Env e |}.
Definition with_SrcDir (v : string) (e : Info) : Info :=
  {| SrcPath := SrcPath e; SrcDir := v; ScratchDir := ScratchDir e;
     InstallDir := InstallDir e; BuildDir := BuildDir e; Env := Env e |}.
Definition with_Tarball (v : string) (p : app_Info) : app_Info :=
  {| Name := Name p; URL := URL p; Tarball := v; InstallCmd := InstallCmd p |}.

Definition setSrcPath (v : string) : M unit := do e <- getEnv; putEnv (with_SrcPath v e).
Definition setSrcDir (v : string) : M unit := do e <- getEnv; putEnv (with_SrcDir v e).
Definition setTarball (v : string) : M unit := do p <- getPkg; putPkg (with_Tarball v p).

(** A call that reads the file system. *)
Definition probe {A} (ev : event) (f : gmap string node -> A) : M A := fun s =>
  (Ret (f (st_fs s)),
   {| st_env := st_env s; st_pkg := st_pkg s; st_fs := st_fs s;
      st_trace := st_trace s ++ [ev] |}).

(** A call that may change it. *)
Definition action {A} (ev : event) (f : gmap string node -> gmap string node * A)
  : M A := fun s =>
  (Ret (snd (f (st_fs s))),
   {| st_env := st_env s; st_pkg := st_pkg s; st_fs := fst (f (st_fs s));
      st_trace := st_trace s ++ [ev] |}).

Definition util_PathExists (p : string) : M bool := probe (EvStat p) (fun fs => Fs.PathExists fs p).
Definition util_IsDir (p : string) : M bool := probe (EvStat p) (fun fs => Fs.IsDir fs p).

(** [util.FileExists] of go_util returns false only for ENOENT and reads the
    file information otherwise: a nil dereference when [os.Stat] failed with
    another error. *)
Definition util_FileExists (p : string) : M bool := fun s =>
  (if Fs.stat_ENOTDIR (st_fs s) p
   then Panic "invalid memory address or nil pointer dereference"
   else Ret (Fs.FileExists (st_fs s) p),
   {| st_env := st_env s; st_pkg := st_pkg s; st_fs := st_fs s;
      st_trace := st_trace s ++ [EvStat p] |}).

Definition util_DetectURLType (url : string) : M string := fun s => (DetectURLType url, s).

Definition ioutil_ReadDir (p : string) : M (list string * error) :=
  probe (EvReadDir p) (fun fs => Fs.ReadDir fs p).
Definition exec_LookPath (file : string) : M (string * error) :=
  probe (EvLookPath file) (fun fs => LookPath fs file).

Definition os_Mkdir (p : string) : M error := action (EvMkdir p) (fun fs => Fs.Mkdir fs p).
Definition os_MkdirAll (p : string) : M error := action (EvMkdirAll p) (fun fs => Fs.MkdirAll fs p).
Definition os_Remove (p : string) : M error := action (EvRemove p) (fun fs => Fs.Remove fs p).
Definition util_CopyFile (src dst : string) : M error :=
  action (EvCopyFile src dst) (fun fs => Fs.CopyFile fs src dst).
Definition cmd_Run (c : Cmd) : M Result := action (EvRun c) (spawn c).
Definition advcmd_Run (c : Advcmd) : M Result := action (EvAdvRun c) (spawn_adv c).

(** [s[n:]] on a string: a run-time panic when [n] exceeds the length. *)
Definition slice_from (n : nat) (s : string) : M string :=
  if (n <=? String.length s)%nat then ret (GoStrings.drop n s)
  else panic ("slice bounds out of range [" +:+ pretty n +:+ ":"
              +:+ pretty (String.length s) +:+ "]").

(** [l[i]] on a slice: a run-time panic when [i] is not an index. *)
Definition index (l : list string) (i : nat) : M string :=
  match l !! i with
  | Some x => ret x
  | None => panic ("index out of range [" +:+ pretty i +:+ "] with length "
                   +:+ pretty (length l))
  end.

(** The text of the error of a command that failed. *)
Definition command_failed (r : Result) (msg : string) : string :=
  "command failed: " +:+ msg +:+ " - stdout: " +:+ Stdout r
  +:+ " - stderr: " +:+ Stderr r.

End Primitives.

(** ** The source file of src/unnamed/part_000 *)

Module Part000.
Section Code.
Context `{Host}.

(** The loop that closes [Unpack]: the first entry that is not the tarball
    becomes the source directory. *)
Fixpoint Unpack_pick (entries : list string) : M unit :=
  match entries with
  | [] => ret tt
  | name :: rest =>
      do env <- getEnv;
      if negb (String.eqb name (GoPath.Base (SrcPath env)))
      then setSrcDir (GoPath.Join [SrcDir env; name])
      else Unpack_pick rest
  end.

(** The loop over the entries in the error branch leaves the last name,
    followed by a comma. *)
Definition Unpack_listDirs (entries : list string) : string :=
  fold_left (fun (_ : string) (name : string) => name +:+ ",") entries EmptyString.

Definition Unpack_inconsistent (dir : string) (entries : list string) : string :=
  "inconsistent temporary " +:+ dir +:+ " directory, "
  +:+ pretty (length entries) +:+ " files instead of 1: "
  +:+ Unpack_listDirs entries.

Definition Unpack : M error :=
  do env <- getEnv;
  if GoPath.is_empty (SrcPath env) || GoPath.is_empty (BuildDir env)
  then ret (Errorf "invalid parameter(s)")
  else
    do isDir <- util_IsDir (SrcPath env);
    if isDir then ret nil_error
    else
      let format := DetectTarballFormat (SrcPath env) in
      if GoPath.is_empty format then
        setSrcDir (BuildDir env);; ret nil_error
      else
        do found <- exec_LookPath "tar";
        match snd found with
        | Some msg => ret (Errorf ("tar is not available: " +:+ msg))
        | None =>
            let tarPath := fst found in
            let tarArg := GetTarArgs format in
            if GoPath.is_empty tarArg
            then ret (Errorf ("unsupported format: " +:+ format))
            else
              do res <- cmd_Run (exec_Command tarPath [tarArg; SrcPath env] (SrcDir env));
              match Err res with
              | Some msg => ret (Errorf (command_failed res msg))
              | None =>
                  do listing <- ioutil_ReadDir (SrcDir env);
                  match snd listing with
                  | Some msg =>
                      ret (Errorf ("failed to read directory " +:+ BuildDir env
                                   +:+ ": " +:+ msg))
                  | None =>
                      let entries := fst listing in
                      if negb (length entries =? 2)%nat
                      then ret (Errorf (Unpack_inconsistent (SrcDir env) entries))
                      else Unpack_pick entries;; ret nil_error
                  end
              end
        end.

Definition copyTarball : M error :=
  do p <- getPkg;
  if GoPath.is_empty (URL p)
  then ret (Errorf "invalid copyTarball() parameter(s)")
  else
    (if GoPath.is_empty (Tarball p) then setTarball (GoPath.Base (URL p)) else ret tt);;
    do p <- getPkg;
    do env <- getEnv;
    let targetTarballPath := GoPath.Join [BuildDir env; Name p; Tarball p] in
    do src <- slice_from 7 (URL p);
    do err <- util_CopyFile src targetTarballPath;
    match err with
    | Some msg =>
        ret (Errorf ("cannot copy file " +:+ URL p +:+ " to " +:+ targetTarballPath
                     +:+ ": " +:+ msg))
    | None => setSrcPath targetTarballPath;; ret nil_error
    end.

Definition gitCheckout : M error :=
  do p <- getPkg;
  do env <- getEnv;
  do found <- exec_LookPath "git";
  match snd found with
  | Some msg => ret (Errorf ("failed to find git: " +:+ msg))
  | None =>
      let gitBin := fst found in
      let repoName := GoStrings.Replace (GoPath.Base (URL p)) ".git" "" 1 in
      let targetDir := GoPath.Join [BuildDir env; Name p] in
      do present <- util_PathExists targetDir;
      do err <- (if negb present then os_Mkdir targetDir else ret nil_error);
      match err with
      | Some msg => ret (Errorf msg)
      | None =>
          let checkoutPath := GoPath.Join [targetDir; repoName] in
          do cloned <- util_PathExists checkoutPath;
          do res <- (if cloned
                     then cmd_Run (exec_Command gitBin ["pull"] checkoutPath)
                     else cmd_Run (exec_Command gitBin ["clone"; URL p] targetDir));
          match Err res with
          | Some msg => ret (Errorf (command_failed res msg))
          | None =>
              setSrcPath checkoutPath;;
              setSrcDir checkoutPath;;
              ret nil_error
          end
      end
  end.

Definition download : M error :=
  do p <- getPkg;
  do env <- getEnv;
  if GoPath.is_empty (URL p) || GoPath.is_empty (BuildDir env)
  then ret (Errorf "invalid download() parameter(s)")
  else
    setSrcDir (GoPath.Join [BuildDir env; Name p]);;
    do env <- getEnv;
    do present <- util_PathExists (SrcDir env);
    do err <- (if negb present then os_Mkdir (SrcDir env) else ret nil_error);
    match err with
    | Some msg => ret (Errorf msg)
    | None =>
        let targetFile := GoPath.Join [SrcDir env; GoPath.Base (URL p)] in
        do have <- util_FileExists targetFile;
        do err <-
          (if have then ret nil_error
           else
             do found <- exec_LookPath "wget";
             match snd found with
             | Some msg => ret (Errorf ("cannot find wget: " +:+ msg))
             | None =>
                 do res <- cmd_Run (exec_Command (fst found) [URL p] (SrcDir env));
                 match Err res with
                 | Some msg => ret (Errorf (command_failed res msg))
                 | None => ret nil_error
                 end
             end);
        match err with
        | Some msg => ret (Errorf msg)
        | None =>
            setTarball (GoPath.Base targetFile);;
            setSrcPath targetFile;;
            ret nil_error
        end
    end.

(** The branch of [Get] for a [file://] URL that names a directory. *)
Definition Get_copyDir (path : string) : M error :=
  do p <- getPkg;
  do env <- getEnv;
  let targetDir := GoPath.Join [BuildDir env; Name p] in
  do present <- util_PathExists targetDir;
  do err <- (if negb present then os_MkdirAll targetDir else ret nil_error);
  match err with
  | Some msg => ret (Errorf msg)
  | None =>
      do found <- exec_LookPath "cp";
      match snd found with
      | Some _ => ret (Errorf "cp command not available")
      | None =>
          let cmd := {| BinPath := fst found; CmdArgs := ["-rf"; path; targetDir];
                        ExecDir := EmptyString; ManifestName := EmptyString;
                        ManifestDir := EmptyString; CmdEnv := [] |} in
          do res <- advcmd_Run cmd;
          match Err res with
          | Some msg =>
              ret (Errorf ("unable to copy " +:+ path +:+ " into " +:+ targetDir
                           +:+ ": " +:+ msg +:+ ", stdout: " +:+ Stdout res
                           +:+ ", stderr: " +:+ Stderr res))
          | None =>
              setSrcPath (GoPath.Join [targetDir; GoPath.Base (URL p)]);;
              do env <- getEnv;
              setSrcDir (SrcPath env);;
              ret nil_error
          end
      end
  end.

Definition Get : M error :=
  do p <- getPkg;
  if GoPath.is_empty (URL p)
  then ret (Errorf "invalid Get() parameter(s)")
  else
    do urlFormat <- util_DetectURLType (URL p);
    if GoPath.is_empty urlFormat
    then ret (Errorf ("impossible to detect type from URL " +:+ URL p))
    else if String.eqb urlFormat FileURL then
      do path <- slice_from 7 (URL p);
      do isDir <- util_IsDir path;
      if negb isDir then
        do err <- copyTarball;
        match err with
        | Some msg => ret (Errorf ("impossible to copy the tarball: " +:+ msg))
        | None => ret nil_error
        end
      else
        do err <- Get_copyDir path;
        match err with
        | Some msg => ret (Errorf msg)
        | None => ret nil_error
        end
    else if String.eqb urlFormat HttpURL then
      do err <- download;
      match err with
      | Some msg => ret (Errorf ("impossible to download " +:+ Name p +:+ ": " +:+ msg))
      | None => ret nil_error
      end
    else if String.eqb urlFormat GitURL then
      do err <- gitCheckout;
      match err with
      | Some msg =>
          ret (Errorf ("impossible to get Git repository " +:+ URL p +:+ ": " +:+ msg))
      | None => ret nil_error
      end
    else ret (Errorf ("impossible to detect URL type: " +:+ URL p)).

(** The tail of [RunMake]: the command is filled in and run. *)
Definition RunMake_run (binPath manifestName execDir : string) (args : list string)
  : M error :=
  do env <- getEnv;
  let makeCmd := {| BinPath := binPath; CmdArgs := args; ExecDir := execDir;
                    ManifestName := manifestName; ManifestDir := EmptyString;
                    CmdEnv := if (0 <? length (Env env))%nat then Env env else [] |} in
  do res <- advcmd_Run makeCmd;
  match Err res with
  | Some msg => ret (Errorf (command_failed res msg))
  | None => ret nil_error
  end.

Definition RunMake (sudo : bool) (stage makefilePath : string) (args : list string)
  : M error :=
  do env <- getEnv;
  if GoPath.is_empty (SrcDir env) then ret (Errorf "invalid parameter(s)")
  else
    let staged := if negb (GoPath.is_empty stage) then args ++ [stage] else args in
    let manifestName :=
      if negb (GoPath.is_empty stage) then GoStrings.Join staged "_" else "make" in
    let args := "-j" :: staged in
    if negb sudo then
      RunMake_run "make" manifestName (GoPath.Dir makefilePath) args
    else
      do found <- exec_LookPath "sudo";
      match snd found with
      | Some msg => ret (Errorf ("failed to find the sudo binary: " +:+ msg))
      | None =>
          RunMake_run (fst found) manifestName (GoPath.Dir makefilePath) ("make" :: args)
      end.

End Code.
End Part000.

(** ** The source file of src/pkg/buildenv/buildenv.go *)

Module Buildenv.
Section Code.
Context `{Host}.

Definition Unpack_inconsistent (dir : string) (entries : list string) : string :=
  "inconsistent temporary " +:+ dir +:+ " directory, "
  +:+ pretty (length entries) +:+ " files instead of 1".

Definition Unpack : M error :=
  do env <- getEnv;
  if GoPath.is_empty (SrcPath env) || GoPath.is_empty (BuildDir env)
  then ret (Errorf "invalid parameter(s)")
  else
    do isDir <- util_IsDir (SrcPath env);
    if isDir then ret nil_error
    else
      let format := DetectTarballFormat (SrcPath env) in
      if GoPath.is_empty format then
        setSrcDir (BuildDir env);; ret nil_error
      else
        do found <- exec_LookPath "tar";
        match snd found with
        | Some msg => ret (Errorf ("tar is not available: " +:+ msg))
        | None =>
            let tarPath := fst found in
            let tarArg := GetTarArgs format in
            if GoPath.is_empty tarArg
            then ret (Errorf ("unsupported format: " +:+ format))
            else
              do res <- cmd_Run (exec_Command tarPath [tarArg; SrcPath env] (BuildDir env));
              match Err res with
              | Some msg => ret (Errorf (command_failed res msg))
              | None =>
                  do err <- os_Remove (SrcPath env);
                  match err with
                  | Some msg =>
                      ret (Errorf ("failed to delete " +:+ SrcPath env +:+ ": " +:+ msg))
                  | None =>
                      do listing <- ioutil_ReadDir (BuildDir env);
                      match snd listing with
                      | Some msg =>
                          ret (Errorf ("failed to read directory " +:+ BuildDir env
                                       +:+ ": " +:+ msg))
                      | None =>
                          let entries := fst listing in
                          if negb (length entries =? 1)%nat
                          then ret (Errorf (Unpack_inconsistent (BuildDir env) entries))
                          else
                            do name <- index entries 0;
                            setSrcDir (GoPath.Join [BuildDir env; name]);;
                            ret nil_error
                      end
                  end
              end
        end.

Definition copyTarball : M error :=
  do p <- getPkg;
  if GoPath.is_empty (URL p)
  then ret (Errorf "invalid parameter(s)")
  else
    (if GoPath.is_empty (Tarball p) then setTarball (GoPath.Base (URL p)) else ret tt);;
    do p <- getPkg;
    do env <- getEnv;
    let targetTarballPath := GoPath.Join [BuildDir env; Tarball p] in
    do src <- slice_from 7 (URL p);
    do err <- util_CopyFile src targetTarballPath;
    match err with
    | Some msg =>
        ret (Errorf ("cannot copy file " +:+ URL p +:+ " to " +:+ targetTarballPath
                     +:+ ": " +:+ msg))
    | None => setSrcPath (GoPath.Join [BuildDir env; Tarball p]);; ret nil_error
    end.

Definition gitCheckout : M error :=
  do p <- getPkg;
  do env <- getEnv;
  do found <- exec_LookPath "git";
  match snd found with
  | Some msg => ret (Errorf ("failed to find git: " +:+ msg))
  | None =>
      let gitBin := fst found in
      let repoName := GoStrings.Replace (GoPath.Base (URL p)) ".git" "" 1 in
      let checkoutPath := GoPath.Join [BuildDir env; repoName] in
      do cloned <- util_PathExists checkoutPath;
      do res <- (if cloned
                 then cmd_Run (exec_Command gitBin ["pull"] checkoutPath)
                 else cmd_Run (exec_Command gitBin ["clone"; URL p] (BuildDir env)));
      match Err res with
      | Some msg => ret (Errorf (command_failed res msg))
      | None =>
          setSrcPath checkoutPath;;
          setSrcDir checkoutPath;;
          ret nil_error
      end
  end.

Definition download_inconsistent (dir : string) (files : list string) : string :=
  "inconsistent temporary " +:+ dir +:+ " directory, "
  +:+ pretty (length files) +:+ " files instead of 1".

Definition download : M error :=
  do p <- getPkg;
  do env <- getEnv;
  if GoPath.is_empty (URL p) || GoPath.is_empty (BuildDir env)
  then ret (Errorf "invalid parameter(s)")
  else
    do found <- exec_LookPath "wget";
    match snd found with
    | Some msg => ret (Errorf ("cannot find wget: " +:+ msg))
    | None =>
        do res <- cmd_Run (exec_Command (fst found) [URL p] (BuildDir env));
        match Err res with
        | Some msg => ret (Errorf (command_failed res msg))
        | None =>
            do listing <- ioutil_ReadDir (BuildDir env);
            match snd listing with
            | Some msg =>
                ret (Errorf ("failed to read directory " +:+ BuildDir env
                             +:+ ": " +:+ msg))
            | None =>
                let files := fst listing in
                if negb (length files =? 1)%nat
                then ret (Errorf (download_inconsistent (BuildDir env) files))
                else
                  do name <- index files 0;
                  setTarball name;;
                  setSrcPath (GoPath.Join [BuildDir env; name]);;
                  ret nil_error
            end
        end
    end.

Definition Get : M error :=
  do p <- getPkg;
  if GoPath.is_empty (URL p)
  then ret (Errorf "invalid parameter(s)")
  else
    do urlFormat <- util_DetectURLType (URL p);
    if GoPath.is_empty urlFormat
    then ret (Errorf ("impossible to detect type from URL " +:+ URL p))
    else if String.eqb urlFormat FileURL then
      do err <- copyTarball;
      match err with
      | Some msg => ret (Errorf ("impossible to copy the tarball: " +:+ msg))
      | None => ret nil_error
      end
    else if String.eqb urlFormat HttpURL then
      do err <- download;
      match err with
      | Some msg => ret (Errorf ("impossible to download " +:+ Name p +:+ ": " +:+ msg))
      | None => ret nil_error
      end
    else if String.eqb urlFormat GitURL then
      do err <- gitCheckout;
      match err with
      | Some msg =>
          ret (Errorf ("impossible to get Git repository " +:+ URL p +:+ ": " +:+ msg))
      | None => ret nil_error
      end
    else ret (Errorf ("impossible to detect URL type: " +:+ URL p)).

(** The tail of [RunMake]: the command is filled in and run. *)
Definition RunMake_run (binPath manifestName : string) (args : list string)
  : M error :=
  do env <- getEnv;
  let makeCmd := {| BinPath := binPath; CmdArgs := args; ExecDir := SrcDir env;
                    ManifestName := manifestName; ManifestDir := EmptyString;
                    CmdEnv := if (0 <? length (Env env))%nat then Env env else [] |} in
  do res <- advcmd_Run makeCmd;
  match Err res with
  | Some msg => ret (Errorf (command_failed res msg))
  | None => ret nil_error
  end.

Definition RunMake (sudo : bool) (args : list string) (stage : string) : M error :=
  do env <- getEnv;
  if GoPath.is_empty (SrcDir env) then ret (Errorf "invalid parameter(s)")
  else
    let staged := if negb (GoPath.is_empty stage) then args ++ [stage] else args in
    let manifestName :=
      if negb (GoPath.is_empty stage) then GoStrings.Join staged "_" else "make" in
    let args := "-j" :: staged in
    if negb sudo then RunMake_run "make" manifestName args
    else
      do found <- exec_LookPath "sudo";
      match snd found with
      | Some msg => ret (Errorf ("failed to find the sudo binary: " +:+ msg))
      | None => RunMake_run (fst found) manifestName ("make" :: args)
      end.

End Code.
End Buildenv.

(** ** The functions both files share *)

Section Shared.
Context `{Host}.

Definition IsInstalled : M bool :=
  do p <- getPkg;
  do env <- getEnv;
  do kind <- util_DetectURLType (URL p);
  if String.eqb kind FileURL then
    let filename := GoPath.Base (URL p) in
    let filePathInBuildDir := GoPath.Join [BuildDir env; filename] in
    let filePathInInstallDir := GoPath.Join [InstallDir env; filename] in
    do inBuild <- util_FileExists filePathInBuildDir;
    if inBuild then ret true else util_FileExists filePathInInstallDir
  else if String.eqb kind HttpURL then
    let filename := GoPath.Base (URL p) in
    let filePath := GoPath.Join [BuildDir env; filename] in
    util_FileExists filePath
  else if String.eqb kind GitURL then
    let dirname := GoStrings.Replace (GoPath.Base (URL p)) ".git" "" (-1) in
    let path := GoPath.Join [BuildDir env; dirname] in
    util_PathExists path
  else ret false.

(** The inner loop of [lookPath]: the first directory of the [PATH] value
    that holds the binary. *)
Fixpoint lookPath_tokens (bin : string) (tokens : list string) : M (option string) :=
  match tokens with
  | [] => ret None
  | t :: rest =>
      let fullPath := GoPath.Join [t; bin] in
      do have <- util_FileExists fullPath;
      if have then ret (Some fullPath) else lookPath_tokens bin rest
  end.

(** The outer loop, over the entries of [Env]. *)
Fixpoint lookPath_entries (bin : string) (entries : list string) : M (option string) :=
  match entries with
  | [] => ret None
  | e :: rest =>
      let envEntry := GoStrings.Split e "=" in
      do key <- index envEntry 0;
      if String.eqb key "PATH" then
        do value <- index envEntry 1;
        do hit <- lookPath_tokens bin (GoStrings.Split value ":");
        match hit with
        | Some fullPath => ret (Some fullPath)
        | None => lookPath_entries bin rest
        end
      else lookPath_entries bin rest
  end.

Definition lookPath (bin : string) : M string :=
  do env <- getEnv;
  do hit <- lookPath_entries bin (Env env);
  match hit with
  | Some fullPath => ret fullPath
  | None => ret bin
  end.

Definition Install : M error :=
  do p <- getPkg;
  if GoPath.is_empty (InstallCmd p) then ret nil_error
  else
    let cmdElts := GoStrings.Split (InstallCmd p) " " in
    do name <- index cmdElts 0;
    do binPath <- lookPath name;
    do env <- getEnv;
    let cmd := {| BinPath := binPath; CmdArgs := tail cmdElts;
                  ExecDir := SrcDir env; ManifestName := "install";
                  ManifestDir := InstallDir env; CmdEnv := Env env |} in
    do res <- advcmd_Run cmd;
    match Err res with
    | Some msg =>
        ret (Errorf ("failed to install " +:+ Name p +:+ ": " +:+ msg
                     +:+ "; stdout: " +:+ Stdout res +:+ "; stderr: " +:+ Stderr res))
    | None => ret nil_error
    end.

(** One of the three steps of [Init]. *)
Definition Init_ensure (what dir : string) : M error :=
  do present <- util_PathExists dir;
  if negb present then
    do err <- os_MkdirAll dir;
    match err with
    | Some msg =>
        ret (Errorf ("failed to create " +:+ what +:+ " directory " +:+ dir
                     +:+ ": " +:+ msg))
    | None => ret nil_error
    end
  else ret nil_error.

Definition Init : M error :=
  do env <- getEnv;
  do err <- Init_ensure "scratch" (ScratchDir env);
  match err with
  | Some msg => ret (Errorf msg)
  | None =>
      do err <- Init_ensure "build" (BuildDir env);
      match err with
      | Some msg => ret (Errorf msg)
      | None =>
          do err <- Init_ensure "build" (InstallDir env);
          match err with
          | Some msg => ret (Errorf msg)
          | None => ret nil_error
          end
      end
  end.

End Shared.

(** ** The process and the host environment *)

(** What the process itself provides: its environment variables, the
    default directory for temporary files ([os.TempDir]) and the random
    string [ioutil.TempDir] draws at its [i]-th try. *)
Class Process : Type := {
  Getenv : string -> string;
  TempRoot : string;
  nextRandom : gmap string node -> nat -> N
}.

Section HostEnv.
Context `{Process}.

Definition getFs : M (gmap string node) := fun s => (Ret (st_fs s), s).

Definition with_ScratchDir (v : string) (e : Info) : Info :=
  {| SrcPath := SrcPath e; SrcDir := SrcDir e; ScratchDir := v;
     InstallDir := InstallDir e; BuildDir := BuildDir e; Env := Env e |}.
Definition with_InstallDir (v : string) (e : Info) : Info :=
  {| SrcPath := SrcPath e; SrcDir := SrcDir e; ScratchDir := ScratchDir e;
     InstallDir := v; BuildDir := BuildDir e; Env := Env e |}.
Definition with_BuildDir (v : string) (e : Info) : Info :=
  {| SrcPath := SrcPath e; SrcDir := SrcDir e; ScratchDir := ScratchDir e;
     InstallDir := InstallDir e; BuildDir := v; Env := Env e |}.

(** [joinPath] of package os: the name behind the directory, with a
    separator between them unless the directory ends in one. *)
Definition joinPath (dir name : string) : string :=
  if GoStrings.HasSuffix dir "/" then dir +:+ name else dir +:+ "/" +:+ name.

(** The loop of [os.MkdirTemp], which [ioutil.TempDir] calls: a number is
    drawn, written in decimal behind the prefix, and the directory made; a
    name that is taken is drawn again, [fuel] tries in all; any other
    failure ends the loop, after a look at [dir] when the parent was
    missing.  [prefix] is the prefix joined to [dir] already. *)
Fixpoint TempDir_loop (dir prefix : string) (i fuel : nat) : M (string * error) :=
  match fuel with
  | O => ret (EmptyString,
              Some ("mkdirtemp " +:+ dir +:+ "/" +:+ prefix +:+ "*: file exists"))
  | S k =>
      do fs <- getFs;
      let name := prefix +:+ pretty (nextRandom fs i) in
      do err <- os_Mkdir name;
      match err with
      | None => ret (name, nil_error)
      | Some msg =>
          if Fs.PathExists fs name then TempDir_loop dir prefix (S i) k
          else
            match Fs.lookup_clean fs (GoPath.Dir (GoPath.Clean name)) with
            | None =>
                do present <- util_PathExists dir;
                if negb present
                then ret (EmptyString,
                          Some ("stat " +:+ dir +:+ ": no such file or directory"))
                else ret (EmptyString, Some msg)
            | Some _ => ret (EmptyString, Some msg)
            end
      end
  end.

(** [ioutil.TempDir(dir, pattern)] for a pattern without wildcard and
    without separator. *)
Definition TempDir_tries : nat := 100 * 100.

Definition ioutil_TempDir (dir pattern : string) : M (string * error) :=
  let dir := if GoPath.is_empty dir then TempRoot else dir in
  TempDir_loop dir (joinPath dir pattern) 0 TempDir_tries.

Definition createHostEnvCfg : M error :=
  do env <- getEnv;
  do made <- ioutil_TempDir (ScratchDir env) "build";
  putEnv (with_BuildDir (fst made) env);;
  match snd made with
  | Some msg => ret (Errorf ("failed to create scratch directory: " +:+ msg))
  | None =>
      do env <- getEnv;
      do made <- ioutil_TempDir (ScratchDir env) "install";
      putEnv (with_InstallDir (fst made) env);;
      match snd made with
      | Some msg => ret (Errorf ("failed to get installation directory: " +:+ msg))
      | None =>
          do env <- getEnv;
          do made <- ioutil_TempDir (ScratchDir env) "scratch";
          putEnv (with_ScratchDir (fst made) env);;
          match snd made with
          | Some msg =>
              do env <- getEnv;
              ret (Errorf ("failed to initialize directory " +:+ ScratchDir env
                           +:+ ": " +:+ msg))
          | None => ret nil_error
          end
      end
  end.

Definition GetEnvPath : M string :=
  do env <- getEnv;
  ret (GoPath.Join [InstallDir env; "bin"] +:+ ":" +:+ Getenv "PATH").

Definition GetEnvLDPath : M string :=
  do env <- getEnv;
  ret (GoPath.Join [InstallDir env; "lib"] +:+ ":" +:+ Getenv "LD_LIBRARY_PATH").

End HostEnv.

(** ** Running a method *)

Definition result_of {A} (r : outcome A * state) : outcome A := fst r.
Definition state_of {A} (r : outcome A * state) : state := snd r.

(** The trace with further calls appended. *)
Definition extend (s : state) (calls : list event) : state :=
  {| st_env := st_env s; st_pkg := st_pkg s; st_fs := st_fs s;
     st_trace := st_trace s ++ calls |}.

(** The commands a list of calls spawns. *)
Definition spawned (calls : list event) : list event := List.filter is_spawn calls.

(** No call of the list can change the file system. *)
Definition read_only (calls : list event) : Prop :=
  forallb (fun e => negb (is_write e)) calls = true.

(** The state after a method has run: a build environment, a file system
    and further calls; the descriptor is the one of [s]. *)
Definition after (s : state) (e : Info) (fs : gmap string node)
    (calls : list event) : state :=
  {| st_env := e; st_pkg := st_pkg s; st_fs := fs; st_trace := st_trace s ++ calls |}.

(** The package-named subdirectory of [BuildDir], and the file a download
    leaves there. *)
Definition package_dir (s : state) : string :=
  GoPath.Join [BuildDir (st_env s); Name (st_pkg s)].

Definition target_file (s : state) : string :=
  GoPath.Join [package_dir s; GoPath.Base (URL (st_pkg s))].

(** The state [Get] leaves when the file was there already: two looks at
    the file system, and the three fields set. *)
Definition acquired (s : state) : state :=
  {| st_env := with_SrcPath (target_file s) (with_SrcDir (package_dir s) (st_env s));
     st_pkg := with_Tarball (GoPath.Base (target_file s)) (st_pkg s);
     st_fs := st_fs s;
     st_trace := st_trace s ++ [EvStat (package_dir s); EvStat (target_file s)] |}.

(** The command [Unpack] extracts the tarball with, run in [dir]. *)
Definition extraction `{Host} (tarPath : string) (e : Info) (dir : string) : Cmd :=
  exec_Command tarPath [GetTarArgs (DetectTarballFormat (SrcPath e)); SrcPath e] dir.

(** The entries of a listing that are not the tarball of [e]. *)
Definition not_tarball (e : Info) (name : string) : bool :=
  negb (String.eqb name (GoPath.Base (SrcPath e))).

(** The URL is empty, or [util.DetectURLType] returns and its answer is none
    of the three kinds. *)
Definition unclassified `{Host} (url : string) : Prop :=
  url = EmptyString \/ exists k, DetectURLType url = Ret k /\ k ∉ url_kinds.

(** The three errors of the classification step of [Get]; the first one has
    a text of its own in each source file. *)
Definition classification_error (own url msg : string) : Prop :=
  msg = own
  \/ msg = "impossible to detect type from URL " +:+ url
  \/ msg = "impossible to detect URL type: " +:+ url.

(** ** A host to run the examples on *)

Module Sample.

Definition classify (url : string) : string :=
  if GoStrings.HasPrefix url "file://" then "file"
  else if GoStrings.HasSuffix url ".git" then "git"
  else if GoStrings.HasPrefix url "http" then "http"
  else EmptyString.

Definition tarball_format (path : string) : string :=
  if GoStrings.HasSuffix path ".tar.gz" then "gz"
  else if GoStrings.HasSuffix path ".tar.bz2" then "bz2"
  else if GoStrings.HasSuffix path ".tar" then "tar"
  else EmptyString.

Definition tar_args (format : string) : string :=
  if String.eqb format "gz" then "-xzf"
  else if String.eqb format "bz2" then "-xjf"
  else if String.eqb format "tar" then "-xf"
  else EmptyString.

Definition ok : Result := {| Err := None; Stdout := EmptyString; Stderr := EmptyString |}.

(** [tar] unpacks [name.tar.gz] into a directory [name] of its working
    directory, [git clone] creates the checkout; every other command leaves
    the file system alone. *)
Definition run (c : Cmd) (fs : gmap string node) : gmap string node * Result :=
  match cmd_Args c with
  | [_; flag; archive] =>
      if String.eqb flag "-xzf" then
        let stem := GoStrings.Replace (GoPath.Base archive) ".tar.gz" "" 1 in
        (<[GoPath.Join [cmd_Dir c; stem] := Directory]> fs, ok)
      else if String.eqb flag "clone" then
        let repo := GoStrings.Replace (GoPath.Base archive) ".git" "" 1 in
        (<[GoPath.Join [cmd_Dir c; repo] := Directory]> fs, ok)
      else (fs, ok)
  | _ => (fs, ok)
  end.

Definition host : Host := {|
  FileURL := "file";
  HttpURL := "http";
  GitURL := "git";
  URLType := classify;
  DetectTarballFormat := tarball_format;
  GetTarArgs := tar_args;
  LookPath := fun _ file => ("/usr/bin/" +:+ file, None);
  spawn := run;
  spawn_adv := fun _ fs => (fs, ok)
|}.

Definition env0 : Info := {|
  SrcPath := EmptyString; SrcDir := EmptyString; ScratchDir := "/scratch";
  InstallDir := "/scratch/install"; BuildDir := "/scratch/build"; Env := []
|}.

Definition mk (e : Info) (p : app_Info) (fs : gmap string node) : state :=
  {| st_env := e; st_pkg := p; st_fs := fs; st_trace := [] |}.

Definition pkg (name url cmd : string) : app_Info :=
  {| Name := name; URL := url; Tarball := EmptyString; InstallCmd := cmd |}.

Definition dirs (paths : list string) : gmap string node :=
  list_to_map (map (fun p : string => (p, Directory)) paths).

(** A second run of [Get] on an HTTP package: the file is there. *)
Definition http_pkg : app_Info := pkg "foo" "http://example.com/foo-1.0.tar.gz" "make install".
Definition http_fs : gmap string node :=
  <["/scratch/build/foo/foo-1.0.tar.gz" := File "archive"]>
    (dirs ["/scratch"; "/scratch/build"; "/scratch/build/foo"]).
Definition http_again : state := mk env0 http_pkg http_fs.

(** The same with an empty [BuildDir]: the paths are relative. *)
Definition env_no_build : Info := {|
  SrcPath := EmptyString; SrcDir := EmptyString; ScratchDir := "/scratch";
  InstallDir := "/scratch/install"; BuildDir := EmptyString; Env := []
|}.
Definition relative_fs : gmap string node :=
  <["foo/foo-1.0.tar.gz" := File "archive"]> (dirs ["foo"]).
Definition http_no_build : state := mk env_no_build http_pkg relative_fs.

(** A tarball on the local disk. *)
Definition file_pkg : app_Info := pkg "foo" "file:///tmp/pkgs/foo-1.0.tar.gz" "make install".
Definition file_fs : gmap string node :=
  <["/tmp/pkgs/foo-1.0.tar.gz" := File "archive"]>
    (dirs ["/tmp"; "/tmp/pkgs"; "/scratch"; "/scratch/build"; "/scratch/build/foo"]).
Definition file_first : state := mk env0 file_pkg file_fs.

(** A git repository, not cloned yet. *)
Definition git_pkg : app_Info := pkg "bar" "https://example.com/org/bar.git" EmptyString.
Definition git_first : state := mk env0 git_pkg (dirs ["/scratch"; "/scratch/build"]).

(** A URL of no known kind. *)
Definition ftp_first : state :=
  mk env0 (pkg "baz" "ftp://host/file" EmptyString) (dirs ["/scratch"; "/scratch/build"]).

(** After a checkout: [SrcPath] is a directory. *)
Definition env_checkout (build : string) : Info := {|
  SrcPath := "/scratch/build/bar/bar"; SrcDir := "/scratch/build/bar/bar";
  ScratchDir := "/scratch"; InstallDir := "/scratch/install"; BuildDir := build;
  Env := []
|}.
Definition checkout_fs : gmap string node :=
  dirs ["/scratch"; "/scratch/build"; "/scratch/build/bar"; "/scratch/build/bar/bar"].
Definition checked_out : state := mk (env_checkout "/scratch/build") git_pkg checkout_fs.
Definition checked_out_no_build : state := mk (env_checkout EmptyString) git_pkg checkout_fs.

(** A tarball ready to be unpacked where it lies. *)
Definition env_tarball : Info := {|
  SrcPath := "/scratch/build/foo/foo-1.0.tar.gz"; SrcDir := "/scratch/build/foo";
  ScratchDir := "/scratch"; InstallDir := "/scratch/install";
  BuildDir := "/scratch/build/foo"; Env := []
|}.
Definition downloaded : state := mk env_tarball http_pkg http_fs.

(** A tarball taken from elsewhere, and a source directory that holds an
    older directory. *)
Definition env_stale : Info := {|
  SrcPath := "/tmp/pkgs/foo-1.0.tar.gz"; SrcDir := "/scratch/build/foo";
  ScratchDir := "/scratch"; InstallDir := "/scratch/install";
  BuildDir := "/scratch/build"; Env := []
|}.
Definition stale_fs : gmap string node :=
  <["/tmp/pkgs/foo-1.0.tar.gz" := File "archive"]>
    (dirs ["/tmp"; "/tmp/pkgs"; "/scratch"; "/scratch/build"; "/scratch/build/foo";
           "/scratch/build/foo/a-old"]).
Definition stale : state := mk env_stale file_pkg stale_fs.

(** Before [Init]: nothing but the root. *)
Definition fresh : state := mk env0 http_pkg ∅.

(** An environment with the bare word PATH among its entries. *)
Definition env_bare_PATH : Info := {|
  SrcPath := EmptyString; SrcDir := "/scratch/build/foo/foo-1.0";
  ScratchDir := "/scratch"; InstallDir := "/scratch/install";
  BuildDir := "/scratch/build"; Env := ["HOME=/root"; "PATH"; "LANG=C"]
|}.
Definition bare_PATH : state := mk env_bare_PATH http_pkg http_fs.

End Sample.

(** ** Vocabulary for the rest of the code *)

(** The arguments [RunMake] hands to make: -j, the caller's arguments, the
    stage when there is one. *)
Definition make_args (args : list string) (stage : string) : list string :=
  "-j" :: args ++ (if GoPath.is_empty stage then [] else [stage]).

(** The name of the manifest [RunMake] asks for. *)
Definition make_manifest (args : list string) (stage : string) : string :=
  if GoPath.is_empty stage then "make" else GoStrings.Join (args ++ [stage]) "_".

(** The command of [RunMake]: make itself, or make behind sudo. *)
Definition make_command (e : Info) (sudoBin : option string) (execDir : string)
    (args : list string) (stage : string) : Advcmd :=
  {| BinPath := match sudoBin with Some b => b | None => "make" end;
     CmdArgs := match sudoBin with
                | Some _ => "make" :: make_args args stage
                | None => make_args args stage
                end;
     ExecDir := execDir;
     ManifestName := make_manifest args stage;
     ManifestDir := EmptyString;
     CmdEnv := Env e |}.

(** The name under which [copyTarball] stores the file: the one the
    descriptor carries, or by default the base name of the URL. *)
Definition tarball_name (p : app_Info) : string :=
  if GoPath.is_empty (Tarball p) then GoPath.Base (URL p) else Tarball p.

(** The name of the checkout of a git URL: the base name of the URL without
    its first ".git". *)
Definition repo_name (p : app_Info) : string :=
  GoStrings.Replace (GoPath.Base (URL p)) ".git" "" 1.

(** The command that copies a source directory into the package directory. *)
Definition copy_command (cp : string) (s : state) : Advcmd :=
  {| BinPath := cp;
     CmdArgs := ["-rf"; GoStrings.drop 7 (URL (st_pkg s)); package_dir s];
     ExecDir := EmptyString; ManifestName := EmptyString;
     ManifestDir := EmptyString; CmdEnv := [] |}.

(** The file system once [Get] has made sure of the package directory. *)
Definition with_package_dir (s : state) : gmap string node :=
  if Fs.PathExists (st_fs s) (package_dir s) then st_fs s
  else fst (Fs.MkdirAll (st_fs s) (package_dir s)).

(** The byte [c] occurs in [s]. *)
Fixpoint has_byte (c : ascii) (s : string) : bool :=
  match s with
  | EmptyString => false
  | String d r => Ascii.eqb c d || has_byte c r
  end.






(** Every path that names something in [fs] names the same thing in [fs']. *)
Definition kept (fs fs' : gmap string node) : Prop :=
  forall (p : string) (n : node), Fs.stat fs p = Some n -> Fs.stat fs' p = Some n.

(** Whatever a path names in [fs'] it named in [fs], unless it is a
    directory. *)
Definition only_directories_added (fs fs' : gmap string node) : Prop :=
  forall (p : string) (n : node),
    Fs.stat fs' p = Some n -> Fs.stat fs p = Some n \/ n = Directory.

(** [fs'] is [fs] with one more directory, at the path [d], which named
    nothing in [fs]. *)
Definition fresh_directory (fs fs' : gmap string node) (d : string) : Prop :=
  GoPath.is_empty d = false
  /\ Fs.PathExists fs d = false
  /\ fs' = <[GoPath.Clean d := Directory]> fs.

(** The local path a file URL names. *)
Definition local_path (p : app_Info) : string := GoStrings.drop 7 (URL p).

(** The error a method returns for a finished command. *)
Definition error_of (r : Result) : error :=
  match Err r with
  | Some msg => Some (command_failed r msg)
  | None => None
  end.

(** ** Further states for the examples *)

Module Demo.

Definition process : Process := {|
  Getenv := fun name => if String.eqb name "PATH" then "/usr/bin:/bin" else EmptyString;
  TempRoot := "/tmp";
  nextRandom := fun fs i => N.of_nat (size fs + i)
|}.

(** An unpacked source tree, ready for make. *)
Definition env_built : Info := {|
  SrcPath := "/scratch/build/foo/foo-1.0.tar.gz"; SrcDir := "/scratch/build/foo/foo-1.0";
  ScratchDir := "/scratch"; InstallDir := "/scratch/install";
  BuildDir := "/scratch/build"; Env := ["CC=gcc"]
|}.
Definition built : state := Sample.mk env_built Sample.http_pkg Sample.http_fs.

(** The same before [Unpack] has set [SrcDir]. *)
Definition not_unpacked : state :=
  Sample.mk (with_SrcDir EmptyString env_built) Sample.http_pkg Sample.http_fs.

(** A host without sudo. *)
Definition host_no_sudo : Host := {|
  FileURL := "file"; HttpURL := "http"; GitURL := "git";
  URLType := Sample.classify;
  DetectTarballFormat := Sample.tarball_format;
  GetTarArgs := Sample.tar_args;
  LookPath := fun _ file =>
    if String.eqb file "sudo" || String.eqb file "tar"
    then (EmptyString, Some ("exec: " +:+ file +:+ ": executable file not found in $PATH"))
    else ("/usr/bin/" +:+ file, None);
  spawn := fun _ fs =>
    (fs, {| Err := Some "exit status 2"; Stdout := EmptyString; Stderr := "broken" |});
  spawn_adv := fun _ fs => (fs, Sample.ok)
|}.

(** A single source file, of no archive format. *)
Definition env_single : Info := {|
  SrcPath := "/scratch/build/hello.c"; SrcDir := EmptyString;
  ScratchDir := "/scratch"; InstallDir := "/scratch/install";
  BuildDir := "/scratch/build"; Env := []
|}.
Definition single : state :=
  Sample.mk env_single Sample.http_pkg
    (<["/scratch/build/hello.c" := File "int main(){}"]>
       (Sample.dirs ["/scratch"; "/scratch/build"])).

(** A host on which every binary is found and every command fails. *)
Definition failed : Result :=
  {| Err := Some "exit status 2"; Stdout := EmptyString; Stderr := "broken" |}.

Definition host_failing : Host := {|
  FileURL := "file"; HttpURL := "http"; GitURL := "git";
  URLType := Sample.classify;
  DetectTarballFormat := Sample.tarball_format;
  GetTarArgs := Sample.tar_args;
  LookPath := fun _ file => ("/usr/bin/" +:+ file, None);
  spawn := fun _ fs => (fs, failed);
  spawn_adv := fun _ fs => (fs, failed)
|}.

(** A URL of fewer than seven bytes, and a descriptor without URL. *)
Definition short_url : state :=
  Sample.mk Sample.env0 (Sample.pkg "baz" "ftp:x" EmptyString)
    (Sample.dirs ["/scratch"; "/scratch/build"]).

Definition no_url : state :=
  Sample.mk Sample.env0 (Sample.pkg "baz" EmptyString EmptyString)
    (Sample.dirs ["/scratch"; "/scratch/build"]).

(** A file URL that names the very path the copy would go to, where no
    file lies. *)
Definition ghost : state :=
  Sample.mk Sample.env0 (Sample.pkg "foo" "file:///scratch/build/ghost.tar.gz" EmptyString)
    (Sample.dirs ["/scratch"; "/scratch/build"]).

(** A regular file where the package directory should be. *)
Definition pkgdir_is_file : state :=
  Sample.mk Sample.env0 Sample.http_pkg
    (<["/scratch/build/foo" := File "notes"]> (Sample.dirs ["/scratch"; "/scratch/build"])).

(** A PATH that leads through a regular file. *)
Definition env_PATH_file : Info := {|
  SrcPath := EmptyString; SrcDir := "/scratch/build/foo/foo-1.0";
  ScratchDir := "/scratch"; InstallDir := "/scratch/install";
  BuildDir := "/scratch/build"; Env := ["PATH=/scratch.txt"]
|}.
Definition PATH_through_file : state :=
  Sample.mk env_PATH_file Sample.http_pkg
    (<["/scratch.txt" := File "notes"]> (Sample.dirs ["/scratch"])).

(** A first download: the package directory is there, the file is not. *)
Definition http_first : state :=
  Sample.mk Sample.env0 Sample.http_pkg
    (Sample.dirs ["/scratch"; "/scratch/build"; "/scratch/build/foo"]).

(** A source directory on the local disk. *)
Definition dir_first : state :=
  Sample.mk Sample.env0 (Sample.pkg "foo" "file:///src/foo" EmptyString)
    (Sample.dirs ["/src"; "/src/foo"; "/scratch"; "/scratch/build"]).

(** An environment whose PATH is the one [GetEnvPath] composes, and a make
    of its own in the bin directory of [InstallDir]. *)
Definition env_PATH : Info := {|
  SrcPath := EmptyString; SrcDir := "/scratch/build/foo/foo-1.0";
  ScratchDir := "/scratch"; InstallDir := "/scratch/install";
  BuildDir := "/scratch/build";
  Env := ["PATH=/scratch/install/bin:/usr/bin:/bin"; "HOME=/root"]
|}.
Definition installed : state :=
  Sample.mk env_PATH Sample.http_pkg
    (<["/scratch/install/bin/make" := File "elf"]>
       (<["/usr/bin/make" := File "elf"]>
          (Sample.dirs ["/usr"; "/usr/bin"; "/scratch"; "/scratch/install";
                        "/scratch/install/bin"]))).

(** A regular file where the scratch directory should be. *)
Definition env_odd : Info := {|
  SrcPath := EmptyString; SrcDir := EmptyString; ScratchDir := "/scratch.txt";
  InstallDir := "/scratch/install"; BuildDir := "/scratch/build"; Env := []
|}.
Definition odd : state :=
  Sample.mk env_odd Sample.http_pkg
    (<["/scratch.txt" := File "notes"]>
       (Sample.dirs ["/scratch"; "/scratch/build"; "/scratch/install"])).

(** An [InstallDir] below a regular file. *)
Definition env_blocked : Info := {|
  SrcPath := EmptyString; SrcDir := EmptyString; ScratchDir := "/scratch";
  InstallDir := "/scratch.txt/install"; BuildDir := "/scratch/build"; Env := []
|}.
Definition blocked : state :=
  Sample.mk env_blocked Sample.http_pkg
    (<["/scratch.txt" := File "notes"]> (Sample.dirs ["/scratch"; "/scratch/build"])).

(** Nothing but the scratch directory. *)
Definition scratch_only : state :=
  Sample.mk Sample.env0 Sample.http_pkg (Sample.dirs ["/scratch"]).

End Demo.

(** ** Properties *)

(** One step of symbolic execution: the monad and the record projections
    unfold, the path and string functions stay folded. *)
Ltac run :=
  cbv beta iota zeta delta
    [bind ret panic getEnv getPkg putEnv putPkg setSrcPath setSrcDir setTarball
     probe action util_PathExists util_IsDir util_FileExists util_DetectURLType
     ioutil_ReadDir
     exec_LookPath os_Mkdir os_MkdirAll os_Remove util_CopyFile cmd_Run
     advcmd_Run nil_error Errorf st_env st_pkg st_fs st_trace
     with_SrcPath with_SrcDir with_Tarball
     SrcPath SrcDir ScratchDir InstallDir BuildDir Env
     Name URL Tarball InstallCmd Err Stdout Stderr];
  cbn [fst snd negb orb andb].

(** The state in its components, so that every projection computes. *)
Ltac open_state s :=
  destruct s as [[srcPath srcDir scratchDir installDir buildDir envs]
                 [name url tarball installCmd] fs tr];
  cbn [st_env st_pkg st_fs st_trace SrcPath SrcDir ScratchDir InstallDir
       BuildDir Env Name URL Tarball InstallCmd] in *.

Section Properties.
Context `{Host}.

Lemma is_empty_false (x : string) : GoPath.is_empty x = false <-> x <> EmptyString.
Proof. unfold GoPath.is_empty. apply String.eqb_neq. Qed.

Lemma kind_not_file (k : string) : k ∉ url_kinds -> String.eqb k FileURL = false.
Proof. intros Hk. apply String.eqb_neq. intros ->. apply Hk. unfold url_kinds. set_solver. Qed.

Lemma kind_not_http (k : string) : k ∉ url_kinds -> String.eqb k HttpURL = false.
Proof. intros Hk. apply String.eqb_neq. intros ->. apply Hk. unfold url_kinds. set_solver. Qed.

Lemma kind_not_git (k : string) : k ∉ url_kinds -> String.eqb k GitURL = false.
Proof. intros Hk. apply String.eqb_neq. intros ->. apply Hk. unfold url_kinds. set_solver. Qed.

Lemma Get_unclassified_part000 (s : state) :
  unclassified (URL (st_pkg s)) ->
  exists msg, Part000.Get s = (Ret (Some msg), s)
              /\ classification_error "invalid Get() parameter(s)" (URL (st_pkg s)) msg.
Proof.
  intros Hu.
  unfold Part000.Get, bind, getPkg, ret, classification_error, util_DetectURLType.
  destruct (GoPath.is_empty (URL (st_pkg s))) eqn:Hurl; [eauto|].
  destruct Hu as [Hu|(k & Hk & Hu)]; [apply is_empty_false in Hurl; contradiction|].
  rewrite Hk. destruct (GoPath.is_empty k); [eauto 6|].
  rewrite (kind_not_file _ Hu), (kind_not_http _ Hu), (kind_not_git _ Hu). eauto 6.
Qed.

Lemma Get_unclassified_buildenv (s : state) :
  unclassified (URL (st_pkg s)) ->
  exists msg, Buildenv.Get s = (Ret (Some msg), s)
              /\ classification_error "invalid parameter(s)" (URL (st_pkg s)) msg.
Proof.
  intros Hu.
  unfold Buildenv.Get, bind, getPkg, ret, classification_error, util_DetectURLType.
  destruct (GoPath.is_empty (URL (st_pkg s))) eqn:Hurl; [eauto|].
  destruct Hu as [Hu|(k & Hk & Hu)]; [apply is_empty_false in Hurl; contradiction|].
  rewrite Hk. destruct (GoPath.is_empty k); [eauto 6|].
  rewrite (kind_not_file _ Hu), (kind_not_http _ Hu), (kind_not_git _ Hu). eauto 6.
Qed.

(** What [util.DetectURLType] does with a short URL, and with the others. *)
Lemma DetectURLType_short (url : string) :
  String.length url < 7 ->
  DetectURLType url
  = Panic ("slice bounds out of range [:7] with length " +:+ pretty (String.length url)).
Proof.
  intros Hlen. unfold DetectURLType.
  destruct (Nat.ltb_spec (String.length url) 7); [reflexivity | lia].
Qed.

Lemma DetectURLType_returns (url k : string) :
  DetectURLType url = Ret k -> 7 <= String.length url /\ URLType url = k.
Proof.
  unfold DetectURLType.
  destruct (Nat.ltb_spec (String.length url) 7); [discriminate|].
  intros [= <-]. split; [lia | reflexivity].
Qed.

(** When the URL of the descriptor is empty, or [util.DetectURLType] returns
    for it and answers none of the three kinds, [Get] (in both source files)
    returns one of the errors of its classification step, and the state it
    returns is the state it was given. *)
Lemma Get_unclassified_returns_error (s : state) :
  unclassified (URL (st_pkg s)) ->
  (exists msg, Part000.Get s = (Ret (Some msg), s)
     /\ classification_error "invalid Get() parameter(s)" (URL (st_pkg s)) msg)
  /\ (exists msg, Buildenv.Get s = (Ret (Some msg), s)
     /\ classification_error "invalid parameter(s)" (URL (st_pkg s)) msg).
Proof.
  intros Hu. split.
  - exact (Get_unclassified_part000 s Hu).
  - exact (Get_unclassified_buildenv s Hu).
Qed.

(** C4 (the code departs from the claim). [Get] guards the empty URL only
    and hands every other URL to [util.DetectURLType], which takes its first
    seven bytes before it looks at anything.  A URL of one to six bytes,
    which is of none of the three kinds, does not make [Get] return a
    classification error: [Get] panics, in both source files, in the state
    it was given. *)
Theorem Get_short_URL_panics (s : state) :
  URL (st_pkg s) <> EmptyString ->
  String.length (URL (st_pkg s)) < 7 ->
  let crash : outcome error :=
    Panic ("slice bounds out of range [:7] with length "
           +:+ pretty (String.length (URL (st_pkg s)))) in
  Part000.Get s = (crash, s) /\ Buildenv.Get s = (crash, s).
Proof.
  intros Hurl Hlen crash. subst crash. apply is_empty_false in Hurl.
  unfold Part000.Get, Buildenv.Get, bind, getPkg, util_DetectURLType.
  rewrite Hurl, (DetectURLType_short _ Hlen). split; reflexivity.
Qed.

(** C9. With an empty install command [Install] returns nil and the state
    it was given: no command is spawned, no call leaves the process, and
    neither the build environment nor the descriptor changes. *)
Theorem Install_empty_command_noop (s : state) :
  InstallCmd (st_pkg s) = EmptyString ->
  Install s = (Ret nil_error, s).
Proof.
  intros Hc. unfold Install, bind, getPkg. rewrite Hc. reflexivity.
Qed.

Lemma split_go_nonempty (sep s : string) :
  forall skip : nat, GoStrings.split_go sep skip s <> [].
Proof.
  induction s as [|c r IH]; intros skip; cbn [GoStrings.split_go]; [discriminate|].
  destruct skip; [|apply IH].
  destruct (GoStrings.HasPrefix (String c r) sep); [discriminate|].
  unfold GoStrings.push. destruct (GoStrings.split_go sep 0 r); discriminate.
Qed.

(** Entries whose first component is not PATH are passed over. *)
Lemma lookPath_entries_skip (bin : string) (pre rest : list string) (s : state) :
  Forall (fun e => hd EmptyString (GoStrings.Split e "=") <> "PATH") pre ->
  lookPath_entries bin (pre ++ rest) s = lookPath_entries bin rest s.
Proof.
  induction 1 as [|e pre Hkey _ IH]; [reflexivity|].
  cbn [app lookPath_entries]. unfold bind at 1.
  change (GoStrings.Split e "=") with (GoStrings.split_go "=" 0 e) in *.
  pose proof (split_go_nonempty "=" e 0) as Hne.
  destruct (GoStrings.split_go "=" 0 e) as [|key tl]; [contradiction|].
  cbn [hd] in Hkey. apply String.eqb_neq in Hkey.
  cbn [index lookup list_lookup ret]. rewrite Hkey. exact IH.
Qed.

(** C10 (the code departs from the claim). When an entry of [Env] is the
    bare word PATH, without an equal sign, and no entry before it has PATH
    as its first component, [lookPath] does not return a string: splitting
    the entry yields one element, the element equals PATH, and reading the
    second element panics. *)
Theorem lookPath_bare_PATH_panics (bin : string) (pre rest : list string) (s : state) :
  Env (st_env s) = pre ++ "PATH" :: rest ->
  Forall (fun e => hd EmptyString (GoStrings.Split e "=") <> "PATH") pre ->
  lookPath bin s = (Panic "index out of range [1] with length 1", s).
Proof.
  intros He Hpre. unfold lookPath, bind at 1, getEnv. rewrite He.
  unfold bind at 1. rewrite (lookPath_entries_skip bin pre _ s Hpre). reflexivity.
Qed.

(** The panic reaches the caller of [Install]. *)
Lemma Install_bare_PATH_panics (s : state) :
  InstallCmd (st_pkg s) = "make install" ->
  Env (st_env s) = ["PATH"] ->
  Install s = (Panic "index out of range [1] with length 1", s).
Proof.
  intros Hc He. unfold Install, bind, getPkg. rewrite Hc. cbn.
  unfold lookPath, bind, getEnv. rewrite He. reflexivity.
Qed.

(** A regular file is found without error. *)
Lemma FileExists_found (fs : gmap string node) (p : string) :
  Fs.FileExists fs p = true -> Fs.stat_ENOTDIR fs p = false.
Proof.
  unfold Fs.FileExists, Fs.stat_ENOTDIR, Fs.PathExists.
  destruct (Fs.stat fs p) as [[c|]|]; try discriminate. intros _.
  destruct (GoPath.is_empty p); reflexivity.
Qed.

(** [util.FileExists] where [os.Stat] succeeds or fails with ENOENT, and
    where it fails with ENOTDIR. *)
Lemma util_FileExists_returns (p : string) (s : state) :
  Fs.stat_ENOTDIR (st_fs s) p = false ->
  util_FileExists p s = (Ret (Fs.FileExists (st_fs s) p), extend s [EvStat p]).
Proof. intros Hp. unfold util_FileExists. rewrite Hp. reflexivity. Qed.

Lemma util_FileExists_panics (p : string) (s : state) :
  Fs.stat_ENOTDIR (st_fs s) p = true ->
  util_FileExists p s
  = (Panic "invalid memory address or nil pointer dereference", extend s [EvStat p]).
Proof. intros Hp. unfold util_FileExists. rewrite Hp. reflexivity. Qed.

(** What remains of the claim: whatever [IsInstalled] does, it only looks.
    The build environment, the descriptor and the file system are those it
    was given, also when it panics. *)
Lemma IsInstalled_reads_only (s : state) :
  exists (o : outcome bool) (calls : list event),
    IsInstalled s = (o, extend s calls) /\ read_only calls.
Proof.
  unfold IsInstalled, bind, getPkg, getEnv, util_DetectURLType.
  destruct (DetectURLType (URL (st_pkg s))) as [k|msg].
  2:{ exists (Panic msg), []. unfold extend. rewrite app_nil_r. destruct s. split; reflexivity. }
  destruct (String.eqb k FileURL).
  { unfold util_FileExists, ret.
    destruct (Fs.stat_ENOTDIR (st_fs s) _); [eexists _, [_]; split; reflexivity|].
    destruct (Fs.FileExists (st_fs s) _); [eexists _, [_]; split; reflexivity|].
    cbn [st_fs st_env st_pkg st_trace].
    destruct (Fs.stat_ENOTDIR (st_fs s) _);
      eexists _, [_; _]; unfold extend; rewrite <- app_assoc; split; reflexivity. }
  destruct (String.eqb k HttpURL).
  { unfold util_FileExists.
    destruct (Fs.stat_ENOTDIR (st_fs s) _); eexists _, [_]; split; reflexivity. }
  destruct (String.eqb k GitURL).
  { eexists _, [_]. split; reflexivity. }
  exists (Ret false), []. unfold extend, ret. rewrite app_nil_r.
  destruct s. split; reflexivity.
Qed.

(** C8 (the code departs from the claim). [IsInstalled] hands the URL to
    [util.DetectURLType] without a look at it.  For a descriptor whose URL
    is empty, or shorter than seven bytes, it returns no boolean: it
    panics. *)
Theorem IsInstalled_short_URL_panics (s : state) :
  String.length (URL (st_pkg s)) < 7 ->
  IsInstalled s
  = (Panic ("slice bounds out of range [:7] with length "
            +:+ pretty (String.length (URL (st_pkg s)))), s).
Proof.
  intros Hlen. unfold IsInstalled, bind, getPkg, getEnv, util_DetectURLType.
  rewrite (DetectURLType_short _ Hlen). reflexivity.
Qed.

(** The same happens on a HTTP(S) URL when [os.Stat] on the probed path
    fails with ENOTDIR, as it does when [BuildDir] is a regular file. *)
Lemma IsInstalled_ENOTDIR_panics (s : state) :
  DetectURLType (URL (st_pkg s)) = Ret HttpURL ->
  kinds_distinct ->
  let probed := GoPath.Join [BuildDir (st_env s); GoPath.Base (URL (st_pkg s))] in
  Fs.stat_ENOTDIR (st_fs s) probed = true ->
  IsInstalled s
  = (Panic "invalid memory address or nil pointer dereference",
     extend s [EvStat probed]).
Proof.
  intros Hk Hkinds probed Hp.
  unfold IsInstalled, bind, getPkg, getEnv, util_DetectURLType. rewrite Hk.
  assert (Hne : String.eqb HttpURL FileURL = false).
  { apply String.eqb_neq. intros Heq. unfold kinds_distinct, url_kinds in Hkinds.
    rewrite !NoDup_cons in Hkinds. destruct Hkinds as (_ & Hf & _).
    apply Hf. rewrite <- Heq. left. }
  rewrite Hne, String.eqb_refl. apply util_FileExists_panics. exact Hp.
Qed.

Lemma IsDir_nonempty (fs : gmap string node) (p : string) :
  Fs.IsDir fs p = true -> GoPath.is_empty p = false.
Proof.
  unfold Fs.IsDir, Fs.stat. destruct (GoPath.is_empty p); [discriminate|reflexivity].
Qed.

Lemma Unpack_directory_part000 (s : state) :
  BuildDir (st_env s) <> EmptyString ->
  Fs.IsDir (st_fs s) (SrcPath (st_env s)) = true ->
  Part000.Unpack s = (Ret nil_error, extend s [EvStat (SrcPath (st_env s))]).
Proof.
  intros Hb Hd. unfold Part000.Unpack, bind, getEnv.
  rewrite (IsDir_nonempty _ _ Hd). apply is_empty_false in Hb. rewrite Hb. cbn.
  rewrite Hd. reflexivity.
Qed.

Lemma Unpack_directory_buildenv (s : state) :
  BuildDir (st_env s) <> EmptyString ->
  Fs.IsDir (st_fs s) (SrcPath (st_env s)) = true ->
  Buildenv.Unpack s = (Ret nil_error, extend s [EvStat (SrcPath (st_env s))]).
Proof.
  intros Hb Hd. unfold Buildenv.Unpack, bind, getEnv.
  rewrite (IsDir_nonempty _ _ Hd). apply is_empty_false in Hb. rewrite Hb. cbn.
  rewrite Hd. reflexivity.
Qed.

(** C5, with the guard on [BuildDir] made explicit.  When [BuildDir] is
    not empty and [SrcPath] is an existing directory, [Unpack] (in both
    source files) returns nil after one look at [SrcPath]: it spawns nothing
    and changes neither the build environment, nor the descriptor, nor the
    file system.  A second call does the same, so the fields after two calls
    are those after one. *)
Theorem Unpack_directory_noop (s : state) :
  BuildDir (st_env s) <> EmptyString ->
  Fs.IsDir (st_fs s) (SrcPath (st_env s)) = true ->
  let look := [EvStat (SrcPath (st_env s))] in
  (Part000.Unpack s = (Ret nil_error, extend s look)
   /\ Part000.Unpack (extend s look) = (Ret nil_error, extend (extend s look) look))
  /\ (Buildenv.Unpack s = (Ret nil_error, extend s look)
   /\ Buildenv.Unpack (extend s look) = (Ret nil_error, extend (extend s look) look)).
Proof.
  intros Hb Hd look. repeat split.
  - apply Unpack_directory_part000; assumption.
  - apply (Unpack_directory_part000 (extend s look)); assumption.
  - apply Unpack_directory_buildenv; assumption.
  - apply (Unpack_directory_buildenv (extend s look)); assumption.
Qed.

Lemma kinds_nonempty (k : string) :
  kinds_distinct -> k ∈ url_kinds -> GoPath.is_empty k = false.
Proof.
  unfold kinds_distinct. intros Hd Hk. apply is_empty_false. intros ->.
  apply NoDup_cons in Hd as [Hd _]. contradiction.
Qed.

Lemma http_not_file : kinds_distinct -> String.eqb HttpURL FileURL = false.
Proof.
  unfold kinds_distinct, url_kinds. intros Hd. apply String.eqb_neq. intros Heq.
  apply NoDup_cons in Hd as [_ Hd]. apply NoDup_cons in Hd as [Hd _].
  apply Hd. rewrite <- Heq. set_solver.
Qed.

Lemma git_not_file : kinds_distinct -> String.eqb GitURL FileURL = false.
Proof.
  unfold kinds_distinct, url_kinds. intros Hd. apply String.eqb_neq. intros Heq.
  apply NoDup_cons in Hd as [_ Hd]. apply NoDup_cons in Hd as [Hd _].
  apply Hd. rewrite <- Heq. set_solver.
Qed.

Lemma git_not_http : kinds_distinct -> String.eqb GitURL HttpURL = false.
Proof.
  unfold kinds_distinct, url_kinds. intros Hd. apply String.eqb_neq. intros Heq.
  apply NoDup_cons in Hd as [_ Hd]. apply NoDup_cons in Hd as [_ Hd].
  apply NoDup_cons in Hd as [Hd _]. apply Hd. rewrite <- Heq. set_solver.
Qed.

Lemma IsDir_PathExists (fs : gmap string node) (p : string) :
  Fs.IsDir fs p = true -> Fs.PathExists fs p = true.
Proof.
  unfold Fs.IsDir, Fs.PathExists. destruct (Fs.stat fs p) as [[]|]; congruence.
Qed.

Lemma Get_http_skips_download (s : state) :
  kinds_distinct ->
  URL (st_pkg s) <> EmptyString ->
  DetectURLType (URL (st_pkg s)) = Ret HttpURL ->
  BuildDir (st_env s) <> EmptyString ->
  Fs.IsDir (st_fs s) (package_dir s) = true ->
  Fs.FileExists (st_fs s) (target_file s) = true ->
  Part000.Get s = (Ret nil_error, acquired s).
Proof.
  intros Hk Hurl Hhttp Hbuild Hsub Htarget.
  unfold acquired, target_file, package_dir in *.
  assert (Hne : GoPath.is_empty HttpURL = false).
  { apply kinds_nonempty; [assumption|]. unfold url_kinds. set_solver. }
  apply is_empty_false in Hurl. apply is_empty_false in Hbuild.
  apply IsDir_PathExists in Hsub.
  open_state s. unfold Part000.Get. run. rewrite Hurl, Hhttp, Hne.
  rewrite (http_not_file Hk), String.eqb_refl.
  unfold Part000.download. run. rewrite Hurl, Hbuild. run.
  rewrite Hsub. run. rewrite (FileExists_found _ _ Htarget), Htarget.
  rewrite <- app_assoc. reflexivity.
Qed.

(** C1, with the guard on [BuildDir] made explicit.  For a descriptor with
    an HTTP(S) URL and a build environment whose [BuildDir] is not empty:
    when the package-named subdirectory of [BuildDir] exists and holds the
    target file, [Get] returns nil after two looks at the file system, one
    at the subdirectory and one at the file.  It looks up no binary and
    spawns no command, the file system it returns is the one it was given,
    [SrcDir] is the subdirectory, [SrcPath] the target file and [Tarball] its
    base name.  Run again on the state it left, [Get] does the same and
    changes no field. *)
Theorem Get_http_existing_target (s : state) :
  kinds_distinct ->
  URL (st_pkg s) <> EmptyString ->
  DetectURLType (URL (st_pkg s)) = Ret HttpURL ->
  BuildDir (st_env s) <> EmptyString ->
  Fs.IsDir (st_fs s) (package_dir s) = true ->
  Fs.FileExists (st_fs s) (target_file s) = true ->
  Part000.Get s = (Ret nil_error, acquired s)
  /\ Part000.Get (acquired s)
     = (Ret nil_error,
        extend (acquired s) [EvStat (package_dir s); EvStat (target_file s)]).
Proof.
  intros Hk Hurl Hhttp Hbuild Hsub Htarget. split.
  - apply Get_http_skips_download; assumption.
  - rewrite (Get_http_skips_download (acquired s)); try assumption.
    destruct s as [[] [] fs tr]. reflexivity.
Qed.

Lemma CopyFile_ok (fs fs' : gmap string node) (src dst : string) :
  src <> dst ->
  Fs.CopyFile fs src dst = (fs', None) ->
  exists c, Fs.stat fs src = Some (File c) /\ fs' = <[GoPath.Clean dst := File c]> fs.
Proof.
  unfold Fs.CopyFile. intros Hne. apply String.eqb_neq in Hne. rewrite Hne.
  destruct (Fs.stat fs src) as [[c|]|]; try discriminate.
  destruct (GoPath.is_empty dst); [discriminate|].
  destruct (Fs.lookup_clean fs (GoPath.Clean dst)) as [[|]|];
    destruct (Fs.lookup_clean fs (GoPath.Dir (GoPath.Clean dst))) as [[|]|];
    try discriminate; intros [= <-]; eauto.
Qed.

(** C2. The descriptor is named foo, its URL is
    file:///tmp/pkgs/foo-1.0.tar.gz, its [Tarball] is empty, [BuildDir] is
    /scratch/build and /tmp/pkgs/foo-1.0.tar.gz is a regular file.  When
    [Get] returns nil, it has looked at the source path and copied the file:
    /scratch/build/foo/foo-1.0.tar.gz now holds the content of the source,
    [SrcPath] is that path, [Tarball] is foo-1.0.tar.gz, and [SrcDir], like
    every other field of the build environment, is what it was. *)
Theorem Get_local_file_scenario (s : state) (content : string) :
  kinds_distinct ->
  Name (st_pkg s) = "foo" ->
  URL (st_pkg s) = "file:///tmp/pkgs/foo-1.0.tar.gz" ->
  Tarball (st_pkg s) = EmptyString ->
  BuildDir (st_env s) = "/scratch/build" ->
  DetectURLType (URL (st_pkg s)) = Ret FileURL ->
  Fs.stat (st_fs s) "/tmp/pkgs/foo-1.0.tar.gz" = Some (File content) ->
  result_of (Part000.Get s) = Ret nil_error ->
  let s' := state_of (Part000.Get s) in
  s' = {| st_env := with_SrcPath "/scratch/build/foo/foo-1.0.tar.gz" (st_env s);
          st_pkg := with_Tarball "foo-1.0.tar.gz" (st_pkg s);
          st_fs := <["/scratch/build/foo/foo-1.0.tar.gz" := File content]> (st_fs s);
          st_trace := st_trace s
                      ++ [EvStat "/tmp/pkgs/foo-1.0.tar.gz";
                          EvCopyFile "/tmp/pkgs/foo-1.0.tar.gz"
                                     "/scratch/build/foo/foo-1.0.tar.gz"] |}
  /\ SrcPath (st_env s') = "/scratch/build/foo/foo-1.0.tar.gz"
  /\ Tarball (st_pkg s') = "foo-1.0.tar.gz"
  /\ SrcDir (st_env s') = SrcDir (st_env s).
Proof.
  intros Hk Hname Hurl Htar Hbuild Hfile Hsrc.
  assert (Hne : GoPath.is_empty FileURL = false).
  { apply kinds_nonempty; [assumption|]. unfold url_kinds. set_solver. }
  open_state s. subst name url tarball buildDir.
  unfold Part000.Get. run. rewrite Hfile, Hne, String.eqb_refl.
  change (GoPath.is_empty "file:///tmp/pkgs/foo-1.0.tar.gz") with false.
  change (slice_from 7 "file:///tmp/pkgs/foo-1.0.tar.gz")
    with (@ret string "/tmp/pkgs/foo-1.0.tar.gz").
  run. unfold Fs.IsDir. rewrite Hsrc. run.
  unfold Part000.copyTarball. run. 
  change (GoPath.is_empty "file:///tmp/pkgs/foo-1.0.tar.gz") with false.
  change (GoPath.is_empty EmptyString) with true.
  run. 
  change (slice_from 7 "file:///tmp/pkgs/foo-1.0.tar.gz")
    with (@ret string "/tmp/pkgs/foo-1.0.tar.gz").
  change (GoPath.Base "file:///tmp/pkgs/foo-1.0.tar.gz") with "foo-1.0.tar.gz".
  change (GoPath.Join ["/scratch/build"; "foo"; "foo-1.0.tar.gz"])
    with "/scratch/build/foo/foo-1.0.tar.gz".
  run.
  destruct (Fs.CopyFile fs "/tmp/pkgs/foo-1.0.tar.gz"
              "/scratch/build/foo/foo-1.0.tar.gz") as [fs' [msg|]] eqn:Hcopy;
    run; [discriminate|].
  intros _. apply CopyFile_ok in Hcopy as (c & Hc & ->); [|discriminate].
  rewrite Hsrc in Hc. injection Hc as <-.
  change (GoPath.Clean "/scratch/build/foo/foo-1.0.tar.gz")
    with "/scratch/build/foo/foo-1.0.tar.gz".
  unfold state_of. run. rewrite <- app_assoc. repeat split.
Qed.

Lemma Mkdir_ok (fs fs' : gmap string node) (p : string) :
  Fs.Mkdir fs p = (fs', None) -> fs' = <[GoPath.Clean p := Directory]> fs.
Proof.
  unfold Fs.Mkdir. destruct (GoPath.is_empty p); [discriminate|].
  destruct (Fs.lookup_clean fs (GoPath.Clean p)); [discriminate|].
  destruct (Fs.lookup_clean fs (GoPath.Dir (GoPath.Clean p))) as [[|]|];
    try discriminate.
  intros [= <-]. reflexivity.
Qed.

(** A directory made at the parent's place does not bring the child into
    being. *)
Lemma stat_insert_ne (fs : gmap string node) (q p : string) (n : node) :
  GoPath.Clean p <> q -> Fs.stat (<[q := n]> fs) p = Fs.stat fs p.
Proof.
  intros Hne. unfold Fs.stat, Fs.lookup_clean.
  destruct (GoPath.is_empty p); [reflexivity|].
  destruct (_ || _); [reflexivity|]. apply lookup_insert_ne. congruence.
Qed.

Lemma Mkdir_parent_dir (fs : gmap string node) (p : string) :
  GoPath.is_empty p = false ->
  Fs.PathExists fs p = false ->
  Fs.IsDir fs (GoPath.Dir (GoPath.Clean p)) = true ->
  GoPath.Clean (GoPath.Dir (GoPath.Clean p)) = GoPath.Dir (GoPath.Clean p) ->
  Fs.Mkdir fs p = (<[GoPath.Clean p := Directory]> fs, None).
Proof.
  unfold Fs.Mkdir, Fs.PathExists, Fs.IsDir, Fs.stat. intros -> Hp Hd Hc.
  destruct (Fs.lookup_clean fs (GoPath.Clean p)); [discriminate|].
  destruct (GoPath.is_empty (GoPath.Dir (GoPath.Clean p))); [discriminate|].
  rewrite Hc in Hd.
  destruct (Fs.lookup_clean fs (GoPath.Dir (GoPath.Clean p))) as [[|]|];
    try discriminate. reflexivity.
Qed.

(** C3. The descriptor is named bar, its URL is the git URL
    https://example.com/org/bar.git and [BuildDir] is /scratch/build.  The
    commands [Get] spawns are at most one: git clone of the URL, run in
    /scratch/build/bar, when nothing exists at /scratch/build/bar/bar, and
    git pull, run in /scratch/build/bar/bar, when something does; never the
    other one.  That command is spawned whenever git is found and the
    package directory exists or can be made, and in particular whenever
    [Get] returns nil; [SrcPath] and [SrcDir] are then both
    /scratch/build/bar/bar. *)
Theorem Get_git_scenario (s : state) :
  kinds_distinct ->
  Name (st_pkg s) = "bar" ->
  URL (st_pkg s) = "https://example.com/org/bar.git" ->
  BuildDir (st_env s) = "/scratch/build" ->
  DetectURLType (URL (st_pkg s)) = Ret GitURL ->
  let targetDir := "/scratch/build/bar" in
  let checkout := "/scratch/build/bar/bar" in
  let gitBin := fst (LookPath (st_fs s) "git") in
  let clone := EvRun (exec_Command gitBin ["clone"; URL (st_pkg s)] targetDir) in
  let pull := EvRun (exec_Command gitBin ["pull"] checkout) in
  let expected := if Fs.PathExists (st_fs s) checkout then pull else clone in
  let s' := state_of (Part000.Get s) in
  exists calls : list event,
    st_trace s' = st_trace s ++ calls
    /\ (spawned calls = [] \/ spawned calls = [expected])
    /\ (snd (LookPath (st_fs s) "git") = None ->
        Fs.PathExists (st_fs s) targetDir = true
        \/ Fs.IsDir (st_fs s) "/scratch/build" = true ->
        spawned calls = [expected])
    /\ (result_of (Part000.Get s) = Ret nil_error ->
        spawned calls = [expected]
        /\ SrcPath (st_env s') = checkout
        /\ SrcDir (st_env s') = checkout).
Proof.
  intros Hk Hname Hurl Hbuild Hgit.
  assert (Hne : GoPath.is_empty GitURL = false).
  { apply kinds_nonempty; [assumption|]. unfold url_kinds. set_solver. }
  open_state s. subst name url buildDir.
  unfold Part000.Get. run. rewrite Hgit, Hne, (git_not_file Hk), (git_not_http Hk), String.eqb_refl.
  change (GoPath.is_empty "https://example.com/org/bar.git") with false.
  unfold Part000.gitCheckout. run.
  change (GoPath.Join ["/scratch/build"; "bar"]) with "/scratch/build/bar".
  change (GoStrings.Replace (GoPath.Base "https://example.com/org/bar.git") ".git" "" 1) with "bar".
  change (GoPath.Join ["/scratch/build/bar"; "bar"]) with "/scratch/build/bar/bar".
  unfold state_of, result_of.
  destruct (LookPath fs "git") as [gitBin [msg|]] eqn:Hlook; run.
  { exists [EvLookPath "git"]. repeat split; auto; discriminate. }
  assert (Hstat : forall fs1, Fs.Mkdir fs "/scratch/build/bar" = (fs1, None) ->
            Fs.PathExists fs1 "/scratch/build/bar/bar"
            = Fs.PathExists fs "/scratch/build/bar/bar").
  { intros fs1 Hmk. apply Mkdir_ok in Hmk as ->. unfold Fs.PathExists.
    rewrite stat_insert_ne; [reflexivity|]. vm_compute. discriminate. }
  destruct (Fs.PathExists fs "/scratch/build/bar") eqn:Htd; run.
  - destruct (Fs.PathExists fs "/scratch/build/bar/bar") eqn:Hco; run;
      match goal with |- context [spawn ?c ?f] => destruct (spawn c f) as [fs2 [[msg|] out err]] end;
      run; eexists; (split; [rewrite <- !app_assoc; reflexivity|]);
      cbn; repeat split; auto; discriminate.
  - destruct (Fs.Mkdir fs "/scratch/build/bar") as [fs1 [msg|]] eqn:Hmk; run.
    + exists [EvLookPath "git"; EvStat "/scratch/build/bar"; EvMkdir "/scratch/build/bar"].
      rewrite <- !app_assoc. cbn. repeat split; auto; try discriminate.
      intros _ [Hex|Hdir]; [discriminate|].
      rewrite Mkdir_parent_dir in Hmk; try reflexivity; try assumption. discriminate.
    + rewrite (Hstat fs1 eq_refl).
      destruct (Fs.PathExists fs "/scratch/build/bar/bar") eqn:Hco; run;
      match goal with |- context [spawn ?c ?f] => destruct (spawn c f) as [fs2 [[msg|] out err]] end;
      run; eexists; (split; [rewrite <- !app_assoc; reflexivity|]);
      cbn; repeat split; auto; discriminate.
Qed.

Lemma lookup_clean_insert (fs : gmap string node) (q x : string) (n : node) :
  Fs.lookup_clean fs q = None ->
  Fs.lookup_clean fs x = Some n ->
  Fs.lookup_clean (<[q := Directory]> fs) x = Some n.
Proof.
  unfold Fs.lookup_clean. intros Hq Hx.
  destruct (String.eqb x "/" || String.eqb x "."); [assumption|].
  destruct (String.eqb q "/" || String.eqb q "."); [discriminate|].
  rewrite lookup_insert_ne; [assumption|]. intros ->. congruence.
Qed.

Lemma lookup_clean_insert_eq (fs : gmap string node) (q : string) :
  Fs.lookup_clean (<[q := Directory]> fs) q = Some Directory.
Proof.
  unfold Fs.lookup_clean. destruct (_ || _); [reflexivity|].
  apply lookup_insert_eq.
Qed.

(** [mkdir_chain] keeps what exists and leaves a directory at every path
    of the chain. *)
Lemma mkdir_chain_ok (chain : list string) :
  forall fs fs' : gmap string node,
    Fs.mkdir_chain fs chain = (fs', None) ->
    (forall x n, Fs.lookup_clean fs x = Some n -> Fs.lookup_clean fs' x = Some n)
    /\ (forall q, q ∈ chain -> Fs.lookup_clean fs' q = Some Directory).
Proof.
  induction chain as [|q rest IH]; intros fs fs' Hrun; cbn in Hrun.
  - injection Hrun as <-. split; [auto|]. intros q Hq. inversion Hq.
  - destruct (Fs.lookup_clean fs q) as [[c|]|] eqn:Hq; [discriminate| |].
    + destruct (IH _ _ Hrun) as [Hkeep Hmade]. split; [assumption|].
      intros x Hx. apply elem_of_cons in Hx as [->|Hx]; auto.
    + destruct (IH _ _ Hrun) as [Hkeep Hmade]. split.
      * intros x n Hx. apply Hkeep. apply lookup_clean_insert; assumption.
      * intros x Hx. apply elem_of_cons in Hx as [->|Hx]; [|auto].
        apply Hkeep. apply lookup_clean_insert_eq.
Qed.

Lemma MkdirAll_ok (fs fs' : gmap string node) (p : string) :
  Fs.MkdirAll fs p = (fs', None) ->
  Fs.IsDir fs' p = true
  /\ (forall x, Fs.PathExists fs x = true -> Fs.PathExists fs' x = true).
Proof.
  unfold Fs.MkdirAll, Fs.IsDir, Fs.PathExists, Fs.stat.
  destruct (GoPath.is_empty p); [discriminate|]. intros Hrun.
  apply mkdir_chain_ok in Hrun as [Hkeep Hmade]. split.
  - rewrite Hmade; [reflexivity|]. set_solver.
  - intros x. destruct (GoPath.is_empty x); [discriminate|].
    destruct (Fs.lookup_clean fs (GoPath.Clean x)) as [n|] eqn:Hx; [|discriminate].
    rewrite (Hkeep _ _ Hx). reflexivity.
Qed.

(** A step of [Init] on a path that exists only looks. *)
Lemma Init_ensure_present (what dir : string) (s : state) :
  Fs.PathExists (st_fs s) dir = true ->
  Init_ensure what dir s = (Ret nil_error, extend s [EvStat dir]).
Proof.
  intros Hp. destruct s as [e p fs tr]. cbn [st_fs] in Hp.
  unfold Init_ensure. run. rewrite Hp. reflexivity.
Qed.

(** A step of [Init] that returns nil leaves the path in place, keeps what
    existed and touches no field. *)
Lemma Init_ensure_ok (what dir : string) (s : state) :
  exists (err : error) (s' : state),
    Init_ensure what dir s = (Ret err, s')
    /\ st_env s' = st_env s
    /\ st_pkg s' = st_pkg s
    /\ (err = None ->
        Fs.PathExists (st_fs s') dir = true
        /\ forall x, Fs.PathExists (st_fs s) x = true -> Fs.PathExists (st_fs s') x = true).
Proof.
  destruct s as [e p fs tr]. unfold Init_ensure. run.
  destruct (Fs.PathExists fs dir) eqn:Hp; run.
  - eexists _, _. repeat split; auto.
  - destruct (Fs.MkdirAll fs dir) as [fs' [msg|]] eqn:Hmk; run.
    + eexists _, _. repeat split; discriminate.
    + apply MkdirAll_ok in Hmk as [Hdir Hkeep].
      eexists _, _. repeat split; auto. apply IsDir_PathExists, Hdir.
Qed.

(** C7. When a call of [Init] returns nil, the three directories exist and
    the build environment is the one given; a second call, on the state the
    first one left, returns nil as well after three looks at the file
    system, one per directory: it makes no directory and changes neither
    the file system nor any field. *)
Theorem Init_idempotent (s : state) :
  result_of (Init s) = Ret nil_error ->
  let s1 := state_of (Init s) in
  let env := st_env s in
  st_env s1 = env
  /\ st_pkg s1 = st_pkg s
  /\ Fs.PathExists (st_fs s1) (ScratchDir env) = true
  /\ Fs.PathExists (st_fs s1) (BuildDir env) = true
  /\ Fs.PathExists (st_fs s1) (InstallDir env) = true
  /\ Init s1 = (Ret nil_error,
                extend s1 [EvStat (ScratchDir env); EvStat (BuildDir env);
                           EvStat (InstallDir env)]).
Proof.
  unfold Init at 1 2. unfold result_of, state_of, bind, getEnv. cbv beta iota.
  destruct (Init_ensure_ok "scratch" (ScratchDir (st_env s)) s)
    as (e1 & s1 & -> & He1 & Hp1 & Hok1).
  destruct e1 as [msg|]; [discriminate|].
  destruct (Init_ensure_ok "build" (BuildDir (st_env s)) s1)
    as (e2 & s2 & -> & He2 & Hp2 & Hok2).
  destruct e2 as [msg|]; [discriminate|].
  destruct (Init_ensure_ok "build" (InstallDir (st_env s)) s2)
    as (e3 & s3 & -> & He3 & Hp3 & Hok3).
  destruct e3 as [msg|]; [discriminate|]. intros _. cbn [snd ret].
  destruct (Hok1 eq_refl) as [Hx1 Hk1]. destruct (Hok2 eq_refl) as [Hx2 Hk2].
  destruct (Hok3 eq_refl) as [Hx3 Hk3].
  assert (Henv : st_env s3 = st_env s) by congruence.
  assert (Hs : Fs.PathExists (st_fs s3) (ScratchDir (st_env s)) = true) by auto.
  assert (Hb : Fs.PathExists (st_fs s3) (BuildDir (st_env s)) = true) by auto.
  repeat split; try congruence.
  unfold Init, bind, getEnv. cbv beta iota. rewrite Henv.
  rewrite (Init_ensure_present _ _ s3 Hs). cbv beta iota delta [nil_error].
  rewrite (Init_ensure_present _ _ (extend s3 _) Hb). cbv beta iota delta [nil_error].
  rewrite (Init_ensure_present _ _ (extend (extend s3 _) _) Hx3).
  unfold extend, ret, nil_error. cbn [st_env st_pkg st_fs st_trace].
  rewrite <- !app_assoc. reflexivity.
Qed.

(** The names of a listing are pairwise distinct. *)
Lemma ReadDir_NoDup (fs : gmap string node) (p : string) (entries : list string) :
  Fs.ReadDir fs p = (entries, None) -> NoDup entries.
Proof.
  unfold Fs.ReadDir. destruct (Fs.stat fs p) as [[c|]|]; try discriminate.
  intros [= <-]. rewrite merge_sort_Permutation. apply NoDup_elements.
Qed.

(** The closing loop of [Unpack] in closed form. *)
Lemma Unpack_pick_find (entries : list string) :
  forall (e : Info) (p : app_Info) (fs : gmap string node) (tr : list event),
    Part000.Unpack_pick entries
      {| st_env := e; st_pkg := p; st_fs := fs; st_trace := tr |}
    = (Ret tt,
       {| st_env :=
            match List.find (fun n => negb (String.eqb n (GoPath.Base (SrcPath e)))) entries with
            | Some name => with_SrcDir (GoPath.Join [SrcDir e; name]) e
            | None => e
            end;
          st_pkg := p; st_fs := fs; st_trace := tr |}).
Proof.
  induction entries as [|n rest IH]; intros [sp sd sc ins bd en] p fs tr;
    cbn [Part000.Unpack_pick List.find].
  - reflexivity.
  - run. destruct (negb (String.eqb n (GoPath.Base sp))); [reflexivity|].
    apply (IH {| SrcPath := sp; SrcDir := sd; ScratchDir := sc; InstallDir := ins;
                 BuildDir := bd; Env := en |}).
Qed.

(** Of two distinct names one is not the tarball's. *)
Lemma find_other (base : string) (entries : list string) :
  NoDup entries -> length entries = 2 ->
  exists name, List.find (fun n => negb (String.eqb n base)) entries = Some name
               /\ name ∈ entries /\ name <> base.
Proof.
  intros Hnd Hlen. destruct entries as [|a [|b [|]]]; try discriminate.
  cbn [List.find]. destruct (String.eqb a base) eqn:Ha; cbn [negb].
  - apply String.eqb_eq in Ha. subst a.
    destruct (String.eqb b base) eqn:Hb; cbn [negb].
    + apply String.eqb_eq in Hb. subst b. apply NoDup_cons in Hnd as [Hnd _].
      exfalso. apply Hnd. set_solver.
    + apply String.eqb_neq in Hb. exists b. repeat split; [set_solver|assumption].
  - apply String.eqb_neq in Ha. exists a. repeat split; [set_solver|assumption].
Qed.

Lemma stat_file_nonempty (fs : gmap string node) (p c : string) :
  Fs.stat fs p = Some (File c) -> GoPath.is_empty p = false /\ Fs.IsDir fs p = false.
Proof.
  unfold Fs.IsDir, Fs.stat. destruct (GoPath.is_empty p); [discriminate|].
  intros ->. split; reflexivity.
Qed.

(** [Unpack] of part_000 once the tarball is extracted and the directory
    listed. *)
Lemma Unpack_extracted_part000 (s : state) (content tarPath : string)
    (fs1 : gmap string node) (res : Result) (entries : list string) :
  let env := st_env s in
  let tar := extraction tarPath env (SrcDir env) in
  let calls := [EvStat (SrcPath env); EvLookPath "tar"; EvRun tar; EvReadDir (SrcDir env)] in
  BuildDir env <> EmptyString ->
  Fs.stat (st_fs s) (SrcPath env) = Some (File content) ->
  DetectTarballFormat (SrcPath env) <> EmptyString ->
  LookPath (st_fs s) "tar" = (tarPath, None) ->
  GetTarArgs (DetectTarballFormat (SrcPath env)) <> EmptyString ->
  spawn tar (st_fs s) = (fs1, res) ->
  Err res = None ->
  Fs.ReadDir fs1 (SrcDir env) = (entries, None) ->
  Part000.Unpack s =
    if (length entries =? 2)%nat
    then (Ret nil_error,
          after s match List.find (not_tarball env) entries with
                  | Some name => with_SrcDir (GoPath.Join [SrcDir env; name]) env
                  | None => env
                  end fs1 calls)
    else (Ret (Some (Part000.Unpack_inconsistent (SrcDir env) entries)),
          after s env fs1 calls).
Proof.
  intros env tar calls Hb Hfile Hfmt Hlook Harg Hrun Herr Hlist.
  subst env tar calls. unfold extraction in *. 
  apply stat_file_nonempty in Hfile as [Hsp Hnd].
  apply is_empty_false in Hb, Hfmt, Harg.
  destruct res as [rerr rout rerrs]. cbn [Err] in Herr. subst rerr.
  open_state s. unfold Part000.Unpack. run.
  rewrite Hsp, Hb. run. rewrite Hnd. run. rewrite Hfmt. run.
  rewrite Hlook. run. rewrite Harg. run. rewrite Hrun. run.
  rewrite Hlist. run.
  destruct (length entries =? 2)%nat; run.
  - rewrite Unpack_pick_find. unfold after. run. rewrite <- !app_assoc. reflexivity.
  - unfold after. run. rewrite <- !app_assoc. reflexivity.
Qed.

(** [Unpack] of buildenv.go once the tarball is extracted and deleted and
    the directory listed. *)
Lemma Unpack_extracted_buildenv (s : state) (content tarPath : string)
    (fs1 fs2 : gmap string node) (res : Result) (entries : list string) :
  let env := st_env s in
  let tar := extraction tarPath env (BuildDir env) in
  let calls := [EvStat (SrcPath env); EvLookPath "tar"; EvRun tar;
                EvRemove (SrcPath env); EvReadDir (BuildDir env)] in
  BuildDir env <> EmptyString ->
  Fs.stat (st_fs s) (SrcPath env) = Some (File content) ->
  DetectTarballFormat (SrcPath env) <> EmptyString ->
  LookPath (st_fs s) "tar" = (tarPath, None) ->
  GetTarArgs (DetectTarballFormat (SrcPath env)) <> EmptyString ->
  spawn tar (st_fs s) = (fs1, res) ->
  Err res = None ->
  Fs.Remove fs1 (SrcPath env) = (fs2, None) ->
  Fs.ReadDir fs2 (BuildDir env) = (entries, None) ->
  Buildenv.Unpack s =
    match entries with
    | [name] =>
        (Ret nil_error, after s (with_SrcDir (GoPath.Join [BuildDir env; name]) env) fs2 calls)
    | _ =>
        (Ret (Some (Buildenv.Unpack_inconsistent (BuildDir env) entries)),
         after s env fs2 calls)
    end.
Proof.
  intros env tar calls Hb Hfile Hfmt Hlook Harg Hrun Herr Hrm Hlist.
  subst env tar calls. unfold extraction in *.
  apply stat_file_nonempty in Hfile as [Hsp Hnd].
  apply is_empty_false in Hb, Hfmt, Harg.
  destruct res as [rerr rout rerrs]. cbn [Err] in Herr. subst rerr.
  open_state s. unfold Buildenv.Unpack. run.
  rewrite Hsp, Hb. run. rewrite Hnd. run. rewrite Hfmt. run.
  rewrite Hlook. run. rewrite Harg. run. rewrite Hrun. run.
  rewrite Hrm. run. rewrite Hlist. run.
  destruct entries as [|entry [|other rest]]; cbn [length Nat.eqb negb]; run;
    unfold after; run; rewrite <- !app_assoc; reflexivity.
Qed.

(** C6, with the decision on the number of entries made explicit.
    [SrcPath] is a regular file whose archive format is recognised and has
    extraction arguments, [BuildDir] is not empty and tar is found.  Once the
    extraction has succeeded and the directory is listed, [Unpack] decides on
    the number of entries.

    In part_000, which keeps the tarball and lists [SrcDir]: with two
    entries it returns nil and [SrcDir] becomes the first entry whose name
    is not the tarball's, which is the other entry whenever the listing is
    the tarball and one more entry; with any other number it returns the
    inconsistent-directory error and [SrcDir] is what it was.

    In buildenv.go, which deletes the tarball and lists [BuildDir]: with
    one entry it returns nil and [SrcDir] becomes that entry; with any other
    number it returns the inconsistent-directory error and [SrcDir] is what
    it was. *)
Theorem Unpack_sets_SrcDir_from_listing (s : state) (content tarPath : string) :
  let env := st_env s in
  BuildDir env <> EmptyString ->
  Fs.stat (st_fs s) (SrcPath env) = Some (File content) ->
  DetectTarballFormat (SrcPath env) <> EmptyString ->
  LookPath (st_fs s) "tar" = (tarPath, None) ->
  GetTarArgs (DetectTarballFormat (SrcPath env)) <> EmptyString ->
  (forall (fs1 : gmap string node) (res : Result) (entries : list string),
      let tar := extraction tarPath env (SrcDir env) in
      let calls := [EvStat (SrcPath env); EvLookPath "tar"; EvRun tar;
                    EvReadDir (SrcDir env)] in
      spawn tar (st_fs s) = (fs1, res) ->
      Err res = None ->
      Fs.ReadDir fs1 (SrcDir env) = (entries, None) ->
      (length entries = 2 ->
       exists name,
         List.find (not_tarball env) entries = Some name
         /\ name ∈ entries
         /\ name <> GoPath.Base (SrcPath env)
         /\ (forall d, entries ≡ₚ [GoPath.Base (SrcPath env); d] -> name = d)
         /\ Part000.Unpack s =
              (Ret nil_error,
               after s (with_SrcDir (GoPath.Join [SrcDir env; name]) env) fs1 calls))
      /\ (length entries <> 2 ->
          Part000.Unpack s =
            (Ret (Some (Part000.Unpack_inconsistent (SrcDir env) entries)),
             after s env fs1 calls)))
  /\ (forall (fs1 fs2 : gmap string node) (res : Result) (entries : list string),
      let tar := extraction tarPath env (BuildDir env) in
      let calls := [EvStat (SrcPath env); EvLookPath "tar"; EvRun tar;
                    EvRemove (SrcPath env); EvReadDir (BuildDir env)] in
      spawn tar (st_fs s) = (fs1, res) ->
      Err res = None ->
      Fs.Remove fs1 (SrcPath env) = (fs2, None) ->
      Fs.ReadDir fs2 (BuildDir env) = (entries, None) ->
      (forall name, entries = [name] ->
         Buildenv.Unpack s =
           (Ret nil_error,
            after s (with_SrcDir (GoPath.Join [BuildDir env; name]) env) fs2 calls))
      /\ (length entries <> 1 ->
          Buildenv.Unpack s =
            (Ret (Some (Buildenv.Unpack_inconsistent (BuildDir env) entries)),
             after s env fs2 calls))).
Proof.
  intros env Hb Hfile Hfmt Hlook Harg. split.
  - intros fs1 res entries tar calls Hrun Herr Hlist.
    pose proof (Unpack_extracted_part000 s content tarPath fs1 res entries
                  Hb Hfile Hfmt Hlook Harg Hrun Herr Hlist) as Hu.
    fold env tar calls in Hu. split.
    + intros Hlen. rewrite Hlen in Hu. cbn [Nat.eqb] in Hu.
      destruct (find_other (GoPath.Base (SrcPath env)) entries
                  (ReadDir_NoDup _ _ _ Hlist) Hlen) as (name & Hfind & Hin & Hne).
      exists name. fold (not_tarball env) in Hfind. rewrite Hfind in Hu.
      repeat split; try assumption.
      intros d Hperm. rewrite Hperm in Hin.
      apply elem_of_cons in Hin as [Heq|Hin]; [contradiction|].
      apply elem_of_cons in Hin as [Heq|Hin]; [assumption|inversion Hin].
    + intros Hlen. apply Nat.eqb_neq in Hlen. rewrite Hlen in Hu. exact Hu.
  - intros fs1 fs2 res entries tar calls Hrun Herr Hrm Hlist.
    pose proof (Unpack_extracted_buildenv s content tarPath fs1 fs2 res entries
                  Hb Hfile Hfmt Hlook Harg Hrun Herr Hrm Hlist) as Hu.
    fold env tar calls in Hu. split.
    + intros name ->. exact Hu.
    + intros Hlen. destruct entries as [|a [|b rest]]; try exact Hu.
      cbn in Hlen. congruence.
Qed.

End Properties.

(** ** The properties on the sample host *)

Lemma sample_kinds_distinct : @kinds_distinct Sample.host.
Proof.
  unfold kinds_distinct, url_kinds. cbn.
  repeat (apply NoDup_cons; split; [rewrite ?elem_of_cons, elem_of_nil; intuition discriminate|]).
  apply NoDup_nil_2.
Qed.

(** C1 as stated fails when [BuildDir] is empty: the file is where the
    subdirectory and the base name of the URL place it, yet [Get] returns the
    error of the guard of [download] and sets neither [SrcPath] nor
    [Tarball]. *)
Lemma Get_http_empty_BuildDir_fails :
  @DetectURLType Sample.host (URL Sample.http_pkg) = Ret (@HttpURL Sample.host)
  /\ Fs.IsDir Sample.relative_fs (package_dir Sample.http_no_build) = true
  /\ Fs.FileExists Sample.relative_fs (target_file Sample.http_no_build) = true
  /\ @Part000.Get Sample.host Sample.http_no_build
     = (Ret (Some "impossible to download foo: invalid download() parameter(s)"),
        Sample.http_no_build)
  /\ SrcPath (st_env Sample.http_no_build) <> target_file Sample.http_no_build
  /\ Tarball (st_pkg Sample.http_no_build)
     <> GoPath.Base (target_file Sample.http_no_build).
Proof.
  repeat split; try (vm_compute; reflexivity); vm_compute; discriminate.
Qed.

Lemma Get_http_existing_target_witness :
  @Part000.Get Sample.host Sample.http_again
  = (Ret nil_error,
     {| st_env := with_SrcPath "/scratch/build/foo/foo-1.0.tar.gz"
                    (with_SrcDir "/scratch/build/foo" Sample.env0);
        st_pkg := with_Tarball "foo-1.0.tar.gz" Sample.http_pkg;
        st_fs := Sample.http_fs;
        st_trace := [EvStat "/scratch/build/foo";
                     EvStat "/scratch/build/foo/foo-1.0.tar.gz"] |}).
Proof.
  apply (@Get_http_existing_target Sample.host Sample.http_again).
  - exact sample_kinds_distinct.
  - discriminate.
  - reflexivity.
  - discriminate.
  - vm_compute; reflexivity.
  - vm_compute; reflexivity.
Defined.

(** The same descriptor in buildenv.go: the copy lands in [BuildDir]
    itself. *)
Lemma Buildenv_Get_local_file :
  SrcPath (st_env (state_of (@Buildenv.Get Sample.host Sample.file_first)))
  = "/scratch/build/foo-1.0.tar.gz".
Proof. vm_compute. reflexivity. Qed.

(** buildenv.go downloads even when the file is there. *)
Lemma Buildenv_Get_http_downloads :
  spawned (st_trace (state_of (@Buildenv.Get Sample.host Sample.http_again)))
  = [EvRun (exec_Command "/usr/bin/wget" ["http://example.com/foo-1.0.tar.gz"]
              "/scratch/build")].
Proof. vm_compute. reflexivity. Qed.

(** buildenv.go clones into [BuildDir] itself. *)
Lemma Buildenv_Get_git :
  spawned (st_trace (state_of (@Buildenv.Get Sample.host Sample.git_first)))
  = [EvRun (exec_Command "/usr/bin/git" ["clone"; "https://example.com/org/bar.git"]
              "/scratch/build")]
  /\ SrcPath (st_env (state_of (@Buildenv.Get Sample.host Sample.git_first)))
     = "/scratch/build/bar".
Proof. split; vm_compute; reflexivity. Qed.

Lemma Get_local_file_scenario_witness :
  SrcPath (st_env (state_of (@Part000.Get Sample.host Sample.file_first)))
  = "/scratch/build/foo/foo-1.0.tar.gz"
  /\ Tarball (st_pkg (state_of (@Part000.Get Sample.host Sample.file_first)))
     = "foo-1.0.tar.gz"
  /\ SrcDir (st_env (state_of (@Part000.Get Sample.host Sample.file_first)))
     = SrcDir (st_env Sample.file_first).
Proof.
  apply (@Get_local_file_scenario Sample.host Sample.file_first "archive").
  - exact sample_kinds_distinct.
  - reflexivity.
  - reflexivity.
  - reflexivity.
  - reflexivity.
  - reflexivity.
  - vm_compute; reflexivity.
  - vm_compute; reflexivity.
Defined.

Lemma Get_git_scenario_witness :
  exists calls : list event,
    st_trace (state_of (@Part000.Get Sample.host Sample.git_first)) = calls
    /\ spawned calls
       = [EvRun (exec_Command "/usr/bin/git" ["clone"; "https://example.com/org/bar.git"]
                   "/scratch/build/bar")]
    /\ SrcPath (st_env (state_of (@Part000.Get Sample.host Sample.git_first)))
       = "/scratch/build/bar/bar"
    /\ SrcDir (st_env (state_of (@Part000.Get Sample.host Sample.git_first)))
       = "/scratch/build/bar/bar".
Proof.
  destruct (@Get_git_scenario Sample.host Sample.git_first)
    as (calls & Htrace & _ & _ & Hok);
    [exact sample_kinds_distinct | reflexivity | reflexivity | reflexivity | reflexivity |].
  exists calls. split; [exact Htrace|].
  apply Hok. vm_compute. reflexivity.
Defined.

(** The scenario of the specification, a URL of seven bytes or more that
    is of no known kind: [Get] returns the classification error. *)
Lemma Get_ftp_URL_returns_error :
  @Part000.Get Sample.host Sample.ftp_first
  = (Ret (Some "impossible to detect type from URL ftp://host/file"), Sample.ftp_first)
  /\ @Buildenv.Get Sample.host Sample.ftp_first
     = (Ret (Some "impossible to detect type from URL ftp://host/file"), Sample.ftp_first).
Proof.
  destruct (@Get_unclassified_returns_error Sample.host Sample.ftp_first)
    as [(m1 & H1 & _) (m2 & H2 & _)].
  - right. exists EmptyString. split; [reflexivity|].
    change (EmptyString ∉ ["file"; "http"; "git"]).
    rewrite !elem_of_cons, elem_of_nil. intuition discriminate.
  - split.
    + rewrite H1. vm_compute in H1. congruence.
    + rewrite H2. vm_compute in H2. congruence.
Qed.

Lemma Get_short_URL_panics_witness :
  @Part000.Get Sample.host Demo.short_url
  = (Panic "slice bounds out of range [:7] with length 5", Demo.short_url)
  /\ @Buildenv.Get Sample.host Demo.short_url
     = (Panic "slice bounds out of range [:7] with length 5", Demo.short_url).
Proof.
  apply (@Get_short_URL_panics Sample.host Demo.short_url).
  - discriminate.
  - vm_compute. lia.
Defined.

Lemma IsInstalled_short_URL_panics_witness :
  @IsInstalled Sample.host Demo.no_url
  = (Panic "slice bounds out of range [:7] with length 0", Demo.no_url).
Proof.
  apply (@IsInstalled_short_URL_panics Sample.host Demo.no_url).
  vm_compute. lia.
Defined.

(** C5 as stated fails when [BuildDir] is empty: [SrcPath] is an existing
    directory, yet [Unpack] returns the error of its first guard, in both
    source files. *)
Lemma Unpack_directory_empty_BuildDir_fails :
  Fs.IsDir (st_fs Sample.checked_out_no_build)
    (SrcPath (st_env Sample.checked_out_no_build)) = true
  /\ @Part000.Unpack Sample.host Sample.checked_out_no_build
     = (Ret (Some "invalid parameter(s)"), Sample.checked_out_no_build)
  /\ @Buildenv.Unpack Sample.host Sample.checked_out_no_build
     = (Ret (Some "invalid parameter(s)"), Sample.checked_out_no_build).
Proof.
  repeat split; vm_compute; reflexivity.
Qed.

Lemma Unpack_directory_noop_witness :
  @Part000.Unpack Sample.host Sample.checked_out
  = (Ret nil_error, extend Sample.checked_out [EvStat "/scratch/build/bar/bar"])
  /\ @Buildenv.Unpack Sample.host Sample.checked_out
     = (Ret nil_error, extend Sample.checked_out [EvStat "/scratch/build/bar/bar"]).
Proof.
  destruct (@Unpack_directory_noop Sample.host Sample.checked_out)
    as [[H1 _] [H2 _]].
  - discriminate.
  - vm_compute; reflexivity.
  - split; [exact H1|exact H2].
Defined.

Lemma Install_empty_command_noop_witness :
  @Install Sample.host Sample.git_first = (Ret nil_error, Sample.git_first).
Proof.
  apply (@Install_empty_command_noop Sample.host Sample.git_first). reflexivity.
Defined.

Lemma lookPath_bare_PATH_panics_witness :
  lookPath "make" Sample.bare_PATH
  = (Panic "index out of range [1] with length 1", Sample.bare_PATH).
Proof.
  apply (lookPath_bare_PATH_panics "make" ["HOME=/root"] ["LANG=C"] Sample.bare_PATH).
  - reflexivity.
  - repeat constructor. vm_compute. discriminate.
Defined.

Lemma Init_idempotent_witness :
  result_of (Init Sample.fresh) = Ret nil_error
  /\ Init (state_of (Init Sample.fresh))
     = (Ret nil_error,
        extend (state_of (Init Sample.fresh))
          [EvStat "/scratch"; EvStat "/scratch/build"; EvStat "/scratch/install"]).
Proof.
  split; [vm_compute; reflexivity|].
  apply (Init_idempotent Sample.fresh). vm_compute; reflexivity.
Defined.

(** C6 as stated fails when [SrcDir] holds an older entry and the tarball
    lies elsewhere: the extraction succeeds and creates foo-1.0, the listing
    has two entries, none of them the tarball, and [Unpack] of part_000
    returns nil with [SrcDir] set to the older entry a-old, which sorts
    first. *)
Lemma Unpack_picks_older_entry :
  Fs.stat Sample.stale_fs (SrcPath Sample.env_stale) = Some (File "archive")
  /\ @DetectTarballFormat Sample.host (SrcPath Sample.env_stale) = "gz"
  /\ BuildDir Sample.env_stale <> EmptyString
  /\ Fs.PathExists Sample.stale_fs "/scratch/build/foo/a-old" = true
  /\ Fs.PathExists Sample.stale_fs "/scratch/build/foo/foo-1.0" = false
  /\ Fs.ReadDir (st_fs (state_of (@Part000.Unpack Sample.host Sample.stale)))
       "/scratch/build/foo" = (["a-old"; "foo-1.0"], None)
  /\ @Part000.Unpack Sample.host Sample.stale
     = (Ret nil_error,
        after Sample.stale (with_SrcDir "/scratch/build/foo/a-old" Sample.env_stale)
          (<["/scratch/build/foo/foo-1.0" := Directory]> Sample.stale_fs)
          [EvStat "/tmp/pkgs/foo-1.0.tar.gz"; EvLookPath "tar";
           EvRun (exec_Command "/usr/bin/tar" ["-xzf"; "/tmp/pkgs/foo-1.0.tar.gz"]
                    "/scratch/build/foo");
           EvReadDir "/scratch/build/foo"]).
Proof.
  repeat split; try (vm_compute; reflexivity). discriminate.
Qed.

(** In part_000 a tarball acquired from a local file is not unpacked: [Get]
    leaves [SrcDir] as it was, here empty, the extraction runs there and the
    listing of the empty path fails. *)
Lemma Unpack_after_local_file :
  result_of (@Part000.Unpack Sample.host
               (state_of (@Part000.Get Sample.host Sample.file_first)))
  = Ret (Some "failed to read directory /scratch/build: open : no such file or directory").
Proof. vm_compute. reflexivity. Qed.

Lemma Unpack_sets_SrcDir_from_listing_witness :
  SrcDir (st_env (state_of (@Part000.Unpack Sample.host Sample.downloaded)))
  = "/scratch/build/foo/foo-1.0"
  /\ SrcDir (st_env (state_of (@Buildenv.Unpack Sample.host Sample.downloaded)))
     = "/scratch/build/foo/foo-1.0".
Proof.
  destruct (@Unpack_sets_SrcDir_from_listing Sample.host Sample.downloaded
              "archive" "/usr/bin/tar") as [Hkeep Hdel];
    [discriminate | vm_compute; reflexivity | discriminate | reflexivity | discriminate |].
  split.
  - destruct (Hkeep (<["/scratch/build/foo/foo-1.0" := Directory]> Sample.http_fs)
                Sample.ok ["foo-1.0"; "foo-1.0.tar.gz"]) as [Htwo _];
      [vm_compute; reflexivity | reflexivity | vm_compute; reflexivity |].
    destruct (Htwo eq_refl) as (name & Hfind & _ & _ & _ & ->).
    vm_compute in Hfind. injection Hfind as <-. vm_compute. reflexivity.
  - destruct (Hdel (<["/scratch/build/foo/foo-1.0" := Directory]> Sample.http_fs)
                (delete "/scratch/build/foo/foo-1.0.tar.gz"
                   (<["/scratch/build/foo/foo-1.0" := Directory]> Sample.http_fs))
                Sample.ok ["foo-1.0"]) as [Hone _];
      [vm_compute; reflexivity | reflexivity | vm_compute; reflexivity
      | vm_compute; reflexivity |].
    rewrite (Hone "foo-1.0" eq_refl). vm_compute. reflexivity.
Defined.


(** ** Beyond the claims: the rest of the two files *)

Ltac run2 :=
  cbv beta iota zeta delta
    [bind ret panic getEnv getPkg getFs putEnv putPkg setSrcPath setSrcDir setTarball
     probe action util_PathExists util_IsDir util_FileExists util_DetectURLType
     ioutil_ReadDir
     exec_LookPath os_Mkdir os_MkdirAll os_Remove util_CopyFile cmd_Run
     advcmd_Run nil_error Errorf st_env st_pkg st_fs st_trace
     with_SrcPath with_SrcDir with_Tarball with_ScratchDir with_InstallDir with_BuildDir
     SrcPath SrcDir ScratchDir InstallDir BuildDir Env
     Name URL Tarball InstallCmd Err Stdout Stderr extend after];
  cbn [fst snd negb orb andb].

(** The bookkeeping that closes a case: the trace, the calls in it. *)
Ltac finish_calls :=
  rewrite <- ?app_assoc;
  repeat split; auto;
  try (cbn; lia); try (cbn; discriminate);
  try (repeat constructor; try discriminate; eauto).

(** Case analysis on the innermost scrutinee of the goal. *)
Ltac split_match :=
  match goal with
  | |- context [match ?x with _ => _ end] =>
      lazymatch x with
      | context [match _ with _ => _ end] => fail
      | _ => destruct x eqn:?
      end
  end.

Section More.
Context `{Host}.


Lemma RunMake_run_part000 (binPath manifest dir : string) (args : list string) (s : state) :
  Part000.RunMake_run binPath manifest dir args s =
    let cmd := {| BinPath := binPath; CmdArgs := args; ExecDir := dir;
                  ManifestName := manifest; ManifestDir := EmptyString;
                  CmdEnv := Env (st_env s) |} in
    (Ret (error_of (snd (spawn_adv cmd (st_fs s)))),
     after s (st_env s) (fst (spawn_adv cmd (st_fs s))) [EvAdvRun cmd]).
Proof.
  open_state s. unfold Part000.RunMake_run, error_of. run2.
  assert (He : (if (0 <? length envs)%nat then envs else []) = envs)
    by (destruct envs; reflexivity).
  rewrite He.
  destruct (spawn_adv _ fs) as [fs1 [[msg|] out err]]; reflexivity.
Qed.

Lemma RunMake_run_buildenv (binPath manifest : string) (args : list string) (s : state) :
  Buildenv.RunMake_run binPath manifest args s =
    let cmd := {| BinPath := binPath; CmdArgs := args; ExecDir := SrcDir (st_env s);
                  ManifestName := manifest; ManifestDir := EmptyString;
                  CmdEnv := Env (st_env s) |} in
    (Ret (error_of (snd (spawn_adv cmd (st_fs s)))),
     after s (st_env s) (fst (spawn_adv cmd (st_fs s))) [EvAdvRun cmd]).
Proof.
  open_state s. unfold Buildenv.RunMake_run, error_of. run2.
  assert (He : (if (0 <? length envs)%nat then envs else []) = envs)
    by (destruct envs; reflexivity).
  rewrite He.
  destruct (spawn_adv _ fs) as [fs1 [[msg|] out err]]; reflexivity.
Qed.

Lemma staged_args (args : list string) (stage : string) :
  "-j" :: (if negb (GoPath.is_empty stage) then args ++ [stage] else args)
  = make_args args stage.
Proof.
  unfold make_args. destruct (GoPath.is_empty stage); cbn [negb];
    [rewrite app_nil_r|]; reflexivity.
Qed.

Lemma staged_manifest (args : list string) (stage : string) :
  (if negb (GoPath.is_empty stage)
   then GoStrings.Join (if negb (GoPath.is_empty stage) then args ++ [stage] else args) "_"
   else "make")
  = make_manifest args stage.
Proof. unfold make_manifest. destruct (GoPath.is_empty stage); reflexivity. Qed.

(** X1. With an empty [SrcDir], [RunMake] returns its parameter error at
    once, whatever the other arguments: no binary is looked up, no command is
    spawned and the state is the one given.  In part_000 this holds although
    the command would not run in [SrcDir] but in the directory of the
    makefile. *)
Theorem RunMake_needs_SrcDir (sudo : bool) (stage makefilePath : string)
    (args : list string) (s : state) :
  SrcDir (st_env s) = EmptyString ->
  Part000.RunMake sudo stage makefilePath args s
  = (Ret (Some "invalid parameter(s)"), s)
  /\ Buildenv.RunMake sudo args stage s = (Ret (Some "invalid parameter(s)"), s).
Proof.
  intros Hs. open_state s. subst srcDir.
  unfold Part000.RunMake, Buildenv.RunMake. run2. split; reflexivity.
Qed.

(** X2. When sudo is asked for and cannot be found, [RunMake] returns an
    error after the look-up and spawns nothing, in both source files. *)
Theorem RunMake_without_sudo_binary (stage makefilePath found msg : string)
    (args : list string) (s : state) :
  SrcDir (st_env s) <> EmptyString ->
  LookPath (st_fs s) "sudo" = (found, Some msg) ->
  let failure := Ret (Some ("failed to find the sudo binary: " +:+ msg)) in
  Part000.RunMake true stage makefilePath args s
  = (failure, extend s [EvLookPath "sudo"])
  /\ Buildenv.RunMake true args stage s = (failure, extend s [EvLookPath "sudo"]).
Proof.
  intros Hs Hl failure. apply is_empty_false in Hs. open_state s.
  unfold Part000.RunMake, Buildenv.RunMake. run2. rewrite Hs, Hl. run2.
  split; reflexivity.
Qed.

(** X3. With a non-empty [SrcDir], [RunMake] of part_000 spawns exactly one
    command and returns that command's error, wrapped, or nil.  The command
    is make with -j first, then the caller's arguments in their order, then
    the stage if there is one; behind sudo the binary is the one found for
    sudo and make becomes the first argument.  It runs in the directory of
    the makefile path, not in [SrcDir], with [Env] as its environment; no
    field of the build environment changes. *)
Theorem RunMake_part000_command (sudo : bool) (stage makefilePath : string)
    (args : list string) (s : state) (sudoBin : string) :
  SrcDir (st_env s) <> EmptyString ->
  (sudo = true -> LookPath (st_fs s) "sudo" = (sudoBin, None)) ->
  let cmd := make_command (st_env s) (if sudo then Some sudoBin else None)
               (GoPath.Dir makefilePath) args stage in
  let looked := if sudo then [EvLookPath "sudo"] else [] in
  Part000.RunMake sudo stage makefilePath args s
  = (Ret (error_of (snd (spawn_adv cmd (st_fs s)))),
     after s (st_env s) (fst (spawn_adv cmd (st_fs s))) (looked ++ [EvAdvRun cmd])).
Proof.
  intros Hs Hl cmd looked. apply is_empty_false in Hs.
  unfold Part000.RunMake, bind at 1, getEnv. cbv beta iota. rewrite Hs.
  rewrite staged_args, staged_manifest. subst cmd looked.
  destruct sudo; cbn [negb].
  - unfold bind, exec_LookPath, probe. rewrite (Hl eq_refl). cbn [snd fst st_fs].
    rewrite RunMake_run_part000. open_state s. unfold after, make_command. run2.
    rewrite <- app_assoc. reflexivity.
  - rewrite RunMake_run_part000. reflexivity.
Qed.

(** X4. The same for buildenv.go, where the command runs in [SrcDir]. *)
Theorem RunMake_buildenv_command (sudo : bool) (stage : string)
    (args : list string) (s : state) (sudoBin : string) :
  SrcDir (st_env s) <> EmptyString ->
  (sudo = true -> LookPath (st_fs s) "sudo" = (sudoBin, None)) ->
  let cmd := make_command (st_env s) (if sudo then Some sudoBin else None)
               (SrcDir (st_env s)) args stage in
  let looked := if sudo then [EvLookPath "sudo"] else [] in
  Buildenv.RunMake sudo args stage s
  = (Ret (error_of (snd (spawn_adv cmd (st_fs s)))),
     after s (st_env s) (fst (spawn_adv cmd (st_fs s))) (looked ++ [EvAdvRun cmd])).
Proof.
  intros Hs Hl cmd looked. apply is_empty_false in Hs.
  unfold Buildenv.RunMake, bind at 1, getEnv. cbv beta iota. rewrite Hs.
  rewrite staged_args, staged_manifest. subst cmd looked.
  destruct sudo; cbn [negb].
  - unfold bind, exec_LookPath, probe. rewrite (Hl eq_refl). cbn [snd fst st_fs].
    rewrite RunMake_run_buildenv. open_state s. unfold after, make_command. run2.
    rewrite <- app_assoc. reflexivity.
  - rewrite RunMake_run_buildenv. reflexivity.
Qed.


(** X5. A [SrcPath] that is not a directory and has no recognised archive
    format is not unpacked, in either source file: [Unpack] returns nil after
    one look at [SrcPath], sets [SrcDir] to [BuildDir] and spawns nothing,
    whether the file exists or not.  A second call changes nothing more. *)
Theorem Unpack_unknown_format (s : state) :
  SrcPath (st_env s) <> EmptyString ->
  BuildDir (st_env s) <> EmptyString ->
  Fs.IsDir (st_fs s) (SrcPath (st_env s)) = false ->
  DetectTarballFormat (SrcPath (st_env s)) = EmptyString ->
  let env' := with_SrcDir (BuildDir (st_env s)) (st_env s) in
  let look := [EvStat (SrcPath (st_env s))] in
  let s1 := after s env' (st_fs s) look in
  (Part000.Unpack s = (Ret nil_error, s1)
   /\ Part000.Unpack s1 = (Ret nil_error, extend s1 look))
  /\ (Buildenv.Unpack s = (Ret nil_error, s1)
   /\ Buildenv.Unpack s1 = (Ret nil_error, extend s1 look)).
Proof.
  intros Hsp Hb Hd Hf. apply is_empty_false in Hsp, Hb.
  open_state s. cbv zeta. unfold Part000.Unpack, Buildenv.Unpack. run2.
  rewrite Hsp, Hb. run2. rewrite Hd. run2. rewrite Hf.
  change (GoPath.is_empty EmptyString) with true. run2.
  rewrite <- !app_assoc. repeat split.
Qed.


(** X7. When the extraction command fails, [Unpack] returns the command's
    error with its captured output and stops there, in both source files:
    [SrcDir] is what it was, the directory is not listed and, in buildenv.go,
    the tarball is not deleted. *)
Theorem Unpack_failed_extraction (s : state) (content tarPath msg : string) :
  let env := st_env s in
  let format := DetectTarballFormat (SrcPath env) in
  BuildDir env <> EmptyString ->
  Fs.stat (st_fs s) (SrcPath env) = Some (File content) ->
  format <> EmptyString ->
  LookPath (st_fs s) "tar" = (tarPath, None) ->
  GetTarArgs format <> EmptyString ->
  (forall fs1 res,
      let tar := extraction tarPath env (SrcDir env) in
      spawn tar (st_fs s) = (fs1, res) ->
      Err res = Some msg ->
      Part000.Unpack s
      = (Ret (Some (command_failed res msg)),
         after s env fs1 [EvStat (SrcPath env); EvLookPath "tar"; EvRun tar]))
  /\ (forall fs1 res,
      let tar := extraction tarPath env (BuildDir env) in
      spawn tar (st_fs s) = (fs1, res) ->
      Err res = Some msg ->
      Buildenv.Unpack s
      = (Ret (Some (command_failed res msg)),
         after s env fs1 [EvStat (SrcPath env); EvLookPath "tar"; EvRun tar])).
Proof.
  intros env format Hb Hfile Hfmt Hlook Harg. subst env format.
  apply stat_file_nonempty in Hfile as [Hsp Hnd].
  apply is_empty_false in Hb, Hfmt, Harg.
  split; intros fs1 res tar Hrun Herr; subst tar; unfold extraction in *;
    destruct res as [rerr rout rerrs]; cbn [Err] in Herr; subst rerr;
    open_state s; unfold Part000.Unpack, Buildenv.Unpack; run2;
    rewrite Hsp, Hb; run2; rewrite Hnd; run2; rewrite Hfmt; run2;
    rewrite Hlook; run2; rewrite Harg; run2; rewrite Hrun; run2;
    rewrite <- !app_assoc; reflexivity.
Qed.


Lemma Remove_ok (fs fs' : gmap string node) (p : string) :
  Fs.Remove fs p = (fs', None) -> fs' = delete (GoPath.Clean p) fs.
Proof.
  unfold Fs.Remove. destruct (Fs.stat fs p) as [[c|]|]; try discriminate.
  - intros [= <-]. reflexivity.
  - destruct (Fs.children fs (GoPath.Clean p)); [|discriminate].
    intros [= <-]. reflexivity.
Qed.

(** A path that held a regular file holds nothing once its key is
    deleted. *)
Lemma stat_delete_file (fs fs1 : gmap string node) (p c : string) :
  Fs.stat fs p = Some (File c) ->
  Fs.PathExists (delete (GoPath.Clean p) fs1) p = false.
Proof.
  unfold Fs.PathExists, Fs.stat, Fs.lookup_clean.
  destruct (GoPath.is_empty p); [reflexivity|].
  destruct (_ || _); [discriminate|]. intros _.
  rewrite lookup_delete_eq. reflexivity.
Qed.

(** X8. [Unpack] of buildenv.go consumes the tarball: when [SrcPath] is a
    regular file of a recognised format and [Unpack] returns nil, nothing is
    left at [SrcPath] in the file system it returns. *)
Theorem Unpack_buildenv_consumes_tarball (s : state) (content : string) :
  Fs.stat (st_fs s) (SrcPath (st_env s)) = Some (File content) ->
  DetectTarballFormat (SrcPath (st_env s)) <> EmptyString ->
  result_of (Buildenv.Unpack s) = Ret nil_error ->
  Fs.PathExists (st_fs (state_of (Buildenv.Unpack s))) (SrcPath (st_env s)) = false.
Proof.
  intros Hfile Hfmt. pose proof (stat_file_nonempty _ _ _ Hfile) as [Hsp Hnd].
  apply is_empty_false in Hfmt.
  open_state s. unfold result_of, state_of, Buildenv.Unpack. run2. rewrite Hsp. run2.
  destruct (GoPath.is_empty buildDir); run2; [discriminate|].
  rewrite Hnd. run2. rewrite Hfmt. run2.
  destruct (LookPath fs "tar") as [tarPath [msg|]]; run2; [discriminate|].
  destruct (GoPath.is_empty (GetTarArgs _)); run2; [discriminate|].
  destruct (spawn _ fs) as [fs1 [[msg|] out err]]; run2; [discriminate|].
  destruct (Fs.Remove fs1 srcPath) as [fs2 [msg|]] eqn:Hrm; run2; [discriminate|].
  apply Remove_ok in Hrm. subst fs2.
  destruct (Fs.ReadDir _ buildDir) as [entries [msg|]]; run2; [discriminate|].
  destruct entries as [|entry [|other rest]]; cbn [length Nat.eqb negb]; run2;
    try discriminate.
  intros _. cbn. apply (stat_delete_file fs fs1 srcPath content Hfile).
Qed.

(** X9. [Unpack] of part_000 never panics and never deletes, copies or
    creates anything itself: it spawns at most one command, the only one of
    its calls that can change the file system; without it the file system is
    the one given.  The descriptor is never touched. *)
Theorem Unpack_part000_keeps_files (s : state) :
  exists (err : error) (s' : state) (calls : list event),
    Part000.Unpack s = (Ret err, s')
    /\ st_trace s' = st_trace s ++ calls
    /\ st_pkg s' = st_pkg s
    /\ Forall (fun e => is_write e = true -> exists c, e = EvRun c) calls
    /\ length (spawned calls) <= 1
    /\ (spawned calls = [] -> st_fs s' = st_fs s).
Proof.
  open_state s. unfold Part000.Unpack. run2.
  destruct (GoPath.is_empty srcPath || GoPath.is_empty buildDir); run2.
  { eexists _, _, []. rewrite app_nil_r. repeat split; auto. }
  destruct (Fs.IsDir fs srcPath); run2.
  { eexists _, _, [_]. finish_calls. }
  destruct (GoPath.is_empty (DetectTarballFormat srcPath)); run2.
  { eexists _, _, [_]. finish_calls. }
  destruct (LookPath fs "tar") as [tarPath [msg|]]; run2.
  { eexists _, _, [_; _]. finish_calls. }
  destruct (GoPath.is_empty (GetTarArgs _)); run2.
  { eexists _, _, [_; _]. finish_calls. }
  destruct (spawn _ fs) as [fs1 [[msg|] out err]]; run2.
  { eexists _, _, [_; _; _]. finish_calls. }
  destruct (Fs.ReadDir fs1 srcDir) as [entries [msg|]]; run2.
  { eexists _, _, [_; _; _; _]. finish_calls. }
  destruct (length entries =? 2)%nat; run2.
  - rewrite Unpack_pick_find. run2.
    eexists _, _, [_; _; _; _]. finish_calls.
  - eexists _, _, [_; _; _; _]. finish_calls.
Qed.


Lemma slice_from_ok (n : nat) (u : string) :
  n <= String.length u -> slice_from n u = ret (GoStrings.drop n u).
Proof.
  intros Hn. unfold slice_from. apply Nat.leb_le in Hn. rewrite Hn. reflexivity.
Qed.

(** Once [util.DetectURLType] has returned, the URL is long enough for the
    slices that drop the scheme; [Get] of part_000 then returns unless it
    goes on to [download]. *)
Lemma Get_part000_returns (s : state) (k : string) :
  DetectURLType (URL (st_pkg s)) = Ret k ->
  k <> HttpURL ->
  exists err s', Part000.Get s = (Ret err, s').
Proof.
  intros Hk Hhttp. destruct (DetectURLType_returns _ _ Hk) as [Hlen _].
  apply String.eqb_neq in Hhttp. open_state s.
  unfold Part000.Get. run2.
  destruct (GoPath.is_empty url) eqn:Hu; run2; [eauto|].
  rewrite Hk. destruct (GoPath.is_empty k); run2; [eauto|].
  destruct (String.eqb k FileURL) eqn:Hf; run2.
  { rewrite (slice_from_ok 7 url Hlen). run2.
    destruct (Fs.IsDir fs _); run2.
    - unfold Part000.Get_copyDir. repeat (run2; split_match); run2; eauto.
    - unfold Part000.copyTarball. run2. rewrite Hu.
      destruct (GoPath.is_empty tarball); run2;
        rewrite (slice_from_ok 7 url Hlen);
        repeat (run2; split_match); run2; eauto. }
  rewrite Hhttp.
  destruct (String.eqb k GitURL); run2; [|eauto].
  unfold Part000.gitCheckout. repeat (run2; split_match); run2; eauto.
Qed.

(** [Get] of buildenv.go returns on every kind. *)
Lemma Get_buildenv_returns (s : state) (k : string) :
  DetectURLType (URL (st_pkg s)) = Ret k ->
  exists err s', Buildenv.Get s = (Ret err, s').
Proof.
  intros Hk. destruct (DetectURLType_returns _ _ Hk) as [Hlen _]. open_state s.
  unfold Buildenv.Get. run2.
  destruct (GoPath.is_empty url) eqn:Hu; run2; [eauto|].
  rewrite Hk. destruct (GoPath.is_empty k); run2; [eauto|].
  destruct (String.eqb k FileURL) eqn:Hf; run2.
  { unfold Buildenv.copyTarball. run2. rewrite Hu.
    destruct (GoPath.is_empty tarball); run2;
      rewrite (slice_from_ok 7 url Hlen);
      repeat (run2; split_match); run2; eauto. }
  destruct (String.eqb k HttpURL); run2.
  { unfold Buildenv.download. run2.
    destruct (GoPath.is_empty url || GoPath.is_empty buildDir); run2; [eauto|].
    destruct (LookPath fs "wget") as [wget [msg|]]; run2; [eauto|].
    destruct (spawn _ fs) as [fs1 [[msg|] out err]]; run2; [eauto|].
    destruct (Fs.ReadDir fs1 buildDir) as [files [msg|]]; run2; [eauto|].
    destruct files as [|f [|g rest]]; cbn [length Nat.eqb negb]; run2; eauto. }
  destruct (String.eqb k GitURL); run2; [|eauto].
  unfold Buildenv.gitCheckout. repeat (run2; split_match); run2; eauto.
Qed.

(** X10. Where [Get] panics.  In buildenv.go it does in exactly one
    situation: the URL is not empty and shorter than the seven bytes
    [util.DetectURLType] takes; the slices that drop the scheme of a file URL
    never fail.  In part_000 the same holds for every URL that is not
    classified as HTTP(S). *)
Theorem Get_panics_only_on_short_URL (s : state) :
  let short :=
    URL (st_pkg s) <> EmptyString /\ String.length (URL (st_pkg s)) < 7 in
  ((exists msg s', Buildenv.Get s = (Panic msg, s')) <-> short)
  /\ (DetectURLType (URL (st_pkg s)) <> Ret HttpURL ->
      ((exists msg s', Part000.Get s = (Panic msg, s')) <-> short)).
Proof.
  intros short. subst short.
  assert (Hempty : URL (st_pkg s) = EmptyString ->
            (exists e, Part000.Get s = (Ret e, s))
            /\ (exists e, Buildenv.Get s = (Ret e, s))).
  { intros Hu. unfold Part000.Get, Buildenv.Get, bind, getPkg. rewrite Hu.
    split; eexists; reflexivity. }
  assert (Hshort : URL (st_pkg s) <> EmptyString ->
            String.length (URL (st_pkg s)) < 7 ->
            (exists msg, Part000.Get s = (Panic msg, s))
            /\ (exists msg, Buildenv.Get s = (Panic msg, s))).
  { intros Hu Hlen. apply is_empty_false in Hu.
    unfold Part000.Get, Buildenv.Get, bind, getPkg, util_DetectURLType.
    rewrite Hu, (DetectURLType_short _ Hlen). split; eexists; reflexivity. }
  assert (Hcases : URL (st_pkg s) = EmptyString
                   \/ (URL (st_pkg s) <> EmptyString
                       /\ String.length (URL (st_pkg s)) < 7)
                   \/ exists k, DetectURLType (URL (st_pkg s)) = Ret k).
  { destruct (decide (URL (st_pkg s) = EmptyString)) as [|Hu]; [auto|].
    destruct (DetectURLType (URL (st_pkg s))) as [k|msg] eqn:Hk; [eauto|].
    right. left. split; [exact Hu|]. unfold DetectURLType in Hk.
    destruct (Nat.ltb_spec (String.length (URL (st_pkg s))) 7); [lia | discriminate]. }
  split; [|intros Hhttp]; split.
  - intros (msg & s' & Hp). destruct Hcases as [Hu|[Hs|(k & Hk)]]; [|exact Hs|].
    + destruct (Hempty Hu) as [_ (e & Hr)]. congruence.
    + destruct (Get_buildenv_returns s k Hk) as (e & s1 & Hr). congruence.
  - intros (Hu & Hlen). destruct (Hshort Hu Hlen) as [_ (msg & Hp)]. eauto.
  - intros (msg & s' & Hp). destruct Hcases as [Hu|[Hs|(k & Hk)]]; [|exact Hs|].
    + destruct (Hempty Hu) as [(e & Hr) _]. congruence.
    + assert (Hne : k <> HttpURL) by (intros ->; contradiction).
      destruct (Get_part000_returns s k Hk Hne) as (e & s1 & Hr). congruence.
  - intros (Hu & Hlen). destruct (Hshort Hu Hlen) as [(msg & Hp) _]. eauto.
Qed.

(** A copy that succeeded has left a regular file with the content of the
    source at the destination. *)
Lemma CopyFile_exists (fs fs' : gmap string node) (src dst : string) :
  src <> dst ->
  Fs.CopyFile fs src dst = (fs', None) ->
  exists c, Fs.stat fs src = Some (File c)
            /\ fs' = <[GoPath.Clean dst := File c]> fs
            /\ Fs.stat fs' dst = Some (File c).
Proof.
  intros Hne Hc. pose proof Hc as Hc2.
  apply CopyFile_ok in Hc2 as (c & Hs & ->); [|exact Hne].
  exists c. split; [assumption|]. split; [reflexivity|].
  unfold Fs.CopyFile in Hc. apply String.eqb_neq in Hne. rewrite Hne, Hs in Hc.
  unfold Fs.stat. destruct (GoPath.is_empty dst); [discriminate|].
  unfold Fs.lookup_clean in *.
  destruct (String.eqb (GoPath.Clean dst) "/" || String.eqb (GoPath.Clean dst) ".");
    [discriminate|].
  apply lookup_insert_eq.
Qed.

(** A path copied onto itself: nothing is done and nothing looked at. *)
Lemma CopyFile_same (fs : gmap string node) (p : string) :
  Fs.CopyFile fs p p = (fs, None).
Proof. unfold Fs.CopyFile. rewrite String.eqb_refl. reflexivity. Qed.

(** A regular file sits in the map at its clean path. *)
Lemma stat_file_lookup (fs : gmap string node) (p c : string) :
  Fs.stat fs p = Some (File c) -> fs !! GoPath.Clean p = Some (File c).
Proof.
  unfold Fs.stat, Fs.lookup_clean. destruct (GoPath.is_empty p); [discriminate|].
  destruct (_ || _); [discriminate | auto].
Qed.

(** The copy of a regular file, whether onto another path or onto itself. *)
Lemma CopyFile_of_file (fs fs' : gmap string node) (src dst c : string) :
  Fs.stat fs src = Some (File c) ->
  Fs.CopyFile fs src dst = (fs', None) ->
  fs' = <[GoPath.Clean dst := File c]> fs /\ Fs.stat fs' dst = Some (File c).
Proof.
  intros Hsrc Hcopy. destruct (decide (src = dst)) as [<-|Hne].
  - rewrite CopyFile_same in Hcopy. injection Hcopy as <-.
    split; [|exact Hsrc]. symmetry. apply insert_id, stat_file_lookup, Hsrc.
  - apply CopyFile_exists in Hcopy as (c' & Hc & -> & Hnew); [|exact Hne].
    rewrite Hsrc in Hc. injection Hc as <-. auto.
Qed.

(** X11. [Get] of part_000 on a file URL that names a regular file: when it
    returns nil, the file has been copied, without any command, to the
    package-named subdirectory of [BuildDir] under the name the descriptor
    carried or, by default, the base name of the URL; the copy exists and has
    the content of the source, [SrcPath] is its path, [Tarball] its name, and
    [SrcDir] is what it was. *)
Theorem Get_file_copies_part000 (s : state) (content : string) :
  kinds_distinct ->
  DetectURLType (URL (st_pkg s)) = Ret FileURL ->
  7 <= String.length (URL (st_pkg s)) ->
  Fs.stat (st_fs s) (local_path (st_pkg s)) = Some (File content) ->
  result_of (Part000.Get s) = Ret nil_error ->
  let target :=
    GoPath.Join [BuildDir (st_env s); Name (st_pkg s); tarball_name (st_pkg s)] in
  let s' := state_of (Part000.Get s) in
  s' = {| st_env := with_SrcPath target (st_env s);
          st_pkg := with_Tarball (tarball_name (st_pkg s)) (st_pkg s);
          st_fs := <[GoPath.Clean target := File content]> (st_fs s);
          st_trace := st_trace s ++ [EvStat (local_path (st_pkg s));
                                     EvCopyFile (local_path (st_pkg s)) target] |}
  /\ Fs.stat (st_fs s') (SrcPath (st_env s')) = Some (File content).
Proof.
  intros Hk Hf Hlen Hsrc.
  assert (Hne : GoPath.is_empty FileURL = false).
  { apply kinds_nonempty; [assumption|]. unfold url_kinds. set_solver. }
  assert (Hu : GoPath.is_empty (URL (st_pkg s)) = false).
  { apply is_empty_false. intros Hu. rewrite Hu in Hlen. cbn in Hlen. lia. }
  unfold local_path, tarball_name in *. open_state s.
  unfold result_of, state_of, Part000.Get. run2.
  rewrite Hu, Hf, Hne, String.eqb_refl, (slice_from_ok 7 url Hlen). run2.
  unfold Fs.IsDir. rewrite Hsrc. run2.
  unfold Part000.copyTarball. run2. rewrite Hu.
  destruct (GoPath.is_empty tarball); run2; rewrite (slice_from_ok 7 url Hlen); run2;
    match goal with
    | |- context [Fs.CopyFile fs ?a ?b] =>
        destruct (Fs.CopyFile fs a b) as [fs' [msg|]] eqn:Hcopy
    end; run2; try discriminate; intros _;
    destruct (CopyFile_of_file _ _ _ _ _ Hsrc Hcopy) as [-> Hnew];
    rewrite <- app_assoc; (split; [reflexivity|exact Hnew]).
Qed.

Lemma Get_file_buildenv_state (s : state) :
  kinds_distinct ->
  DetectURLType (URL (st_pkg s)) = Ret FileURL ->
  result_of (Buildenv.Get s) = Ret nil_error ->
  let target := GoPath.Join [BuildDir (st_env s); tarball_name (st_pkg s)] in
  exists fs',
    Fs.CopyFile (st_fs s) (local_path (st_pkg s)) target = (fs', None)
    /\ state_of (Buildenv.Get s)
       = {| st_env := with_SrcPath target (st_env s);
            st_pkg := with_Tarball (tarball_name (st_pkg s)) (st_pkg s);
            st_fs := fs';
            st_trace := st_trace s ++ [EvCopyFile (local_path (st_pkg s)) target] |}.
Proof.
  intros Hk Hf. destruct (DetectURLType_returns _ _ Hf) as [Hlen _].
  assert (Hne : GoPath.is_empty FileURL = false).
  { apply kinds_nonempty; [assumption|]. unfold url_kinds. set_solver. }
  assert (Hu : GoPath.is_empty (URL (st_pkg s)) = false).
  { apply is_empty_false. intros Hu. rewrite Hu in Hlen. cbn in Hlen. lia. }
  unfold local_path, tarball_name in *. open_state s.
  unfold result_of, state_of, Buildenv.Get. run2.
  rewrite Hu, Hf, Hne, String.eqb_refl.
  unfold Buildenv.copyTarball. run2. rewrite Hu.
  destruct (GoPath.is_empty tarball); run2; rewrite (slice_from_ok 7 url Hlen); run2;
    match goal with
    | |- context [Fs.CopyFile fs ?a ?b] =>
        destruct (Fs.CopyFile fs a b) as [fs' [msg|]] eqn:Hcopy
    end; run2; try discriminate; intros _;
    exists fs'; split; reflexivity.
Qed.

(** X12. [Get] of buildenv.go on a file URL, when it returns nil: one call
    of [util.CopyFile] was made, from the local path to [BuildDir] joined
    with the name the descriptor carried or, by default, the base name of the
    URL; [SrcPath] is that path and [Tarball] that name.  When the two paths
    differ as strings, the source was a regular file and the copy exists
    with its content.  When they are the same string nothing was copied and
    nothing looked at: the file system is the one given, whether a file is
    there or not. *)
Theorem Get_file_copies_buildenv (s : state) :
  kinds_distinct ->
  DetectURLType (URL (st_pkg s)) = Ret FileURL ->
  result_of (Buildenv.Get s) = Ret nil_error ->
  let source := local_path (st_pkg s) in
  let target := GoPath.Join [BuildDir (st_env s); tarball_name (st_pkg s)] in
  let s' := state_of (Buildenv.Get s) in
  st_env s' = with_SrcPath target (st_env s)
  /\ st_pkg s' = with_Tarball (tarball_name (st_pkg s)) (st_pkg s)
  /\ st_trace s' = st_trace s ++ [EvCopyFile source target]
  /\ (source <> target ->
      exists content,
        Fs.stat (st_fs s) source = Some (File content)
        /\ st_fs s' = <[GoPath.Clean target := File content]> (st_fs s)
        /\ Fs.stat (st_fs s') target = Some (File content))
  /\ (source = target -> st_fs s' = st_fs s).
Proof.
  intros Hk Hf Hok source target s'.
  destruct (Get_file_buildenv_state s Hk Hf Hok) as (fs' & Hcopy & Hs').
  subst s'. rewrite Hs'. cbn [st_env st_pkg st_fs st_trace].
  fold source target in Hcopy |- *.
  split; [reflexivity|]. split; [reflexivity|]. split; [reflexivity|]. split.
  - intros Hne. apply CopyFile_exists in Hcopy as (c & Hc & -> & Hnew); [|exact Hne].
    exists c. auto.
  - intros Heq. rewrite Heq, CopyFile_same in Hcopy. congruence.
Qed.

(** X13. In buildenv.go acquisition and installed-check agree on a local
    file that is copied from elsewhere: after a [Get] that returned nil on a
    file URL whose local path is not the target path itself, for a
    descriptor that carried no tarball name, [IsInstalled] finds the copy in
    [BuildDir] and returns true after a single look. *)
Theorem IsInstalled_after_Get_file_buildenv (s : state) :
  kinds_distinct ->
  DetectURLType (URL (st_pkg s)) = Ret FileURL ->
  Tarball (st_pkg s) = EmptyString ->
  local_path (st_pkg s) <> GoPath.Join [BuildDir (st_env s); GoPath.Base (URL (st_pkg s))] ->
  result_of (Buildenv.Get s) = Ret nil_error ->
  let s' := state_of (Buildenv.Get s) in
  IsInstalled s' = (Ret true, extend s' [EvStat (SrcPath (st_env s'))]).
Proof.
  intros Hk Hf Htar Hne Hok.
  destruct (Get_file_buildenv_state s Hk Hf Hok) as (fs' & Hcopy & Hs').
  cbv zeta in *. rewrite Hs' in *. clear Hs' Hok.
  unfold tarball_name in *. open_state s. subst tarball.
  change (GoPath.is_empty EmptyString) with true in *. cbv iota in *.
  apply CopyFile_exists in Hcopy as (c & _ & -> & Hnew); [|exact Hne].
  assert (Hfile : Fs.FileExists (<[GoPath.Clean (GoPath.Join [buildDir; GoPath.Base url])
                                   := File c]> fs)
                    (GoPath.Join [buildDir; GoPath.Base url]) = true).
  { unfold Fs.FileExists. rewrite Hnew. reflexivity. }
  unfold IsInstalled. run2. rewrite Hf, String.eqb_refl.
  rewrite (FileExists_found _ _ Hfile), Hfile. reflexivity.
Qed.

(** X14. In part_000 they do not: [Get] keeps a download in the
    package-named subdirectory, [IsInstalled] looks for it in [BuildDir]
    itself.  After the [Get] of C1, which found the file in the subdirectory
    and returned nil, [IsInstalled] returns false unless a file of that name
    lies in [BuildDir] too; it panics if [os.Stat] on the path in [BuildDir]
    fails with ENOTDIR. *)
Theorem IsInstalled_after_Get_http_part000 (s : state) :
  kinds_distinct ->
  URL (st_pkg s) <> EmptyString ->
  DetectURLType (URL (st_pkg s)) = Ret HttpURL ->
  BuildDir (st_env s) <> EmptyString ->
  Fs.IsDir (st_fs s) (package_dir s) = true ->
  Fs.FileExists (st_fs s) (target_file s) = true ->
  let probed := GoPath.Join [BuildDir (st_env s); GoPath.Base (URL (st_pkg s))] in
  Part000.Get s = (Ret nil_error, acquired s)
  /\ IsInstalled (acquired s)
     = (if Fs.stat_ENOTDIR (st_fs s) probed
        then Panic "invalid memory address or nil pointer dereference"
        else Ret (Fs.FileExists (st_fs s) probed),
        extend (acquired s) [EvStat probed]).
Proof.
  intros Hk Hu Hh Hb Hd Ht probed. split.
  - apply Get_http_skips_download; assumption.
  - subst probed. unfold acquired. open_state s.
    unfold IsInstalled. run2. rewrite Hh, (http_not_file Hk), String.eqb_refl.
    reflexivity.
Qed.

(** X15. [Get] of part_000 on an HTTP(S) URL with a non-empty [BuildDir]:
    whatever comes of it, nil, an error or a panic, [SrcDir] has been set to
    the package-named subdirectory and [BuildDir] is what it was: a download
    that fails leaves [SrcDir] changed.  And [Get] does panic when the
    subdirectory path names something and [os.Stat] on the target file fails
    with ENOTDIR, as it does when a regular file lies where the subdirectory
    should be: [util.FileExists] is called without a look at what kind of
    thing the subdirectory is. *)
Theorem Get_http_sets_SrcDir_first (s : state) :
  kinds_distinct ->
  URL (st_pkg s) <> EmptyString ->
  DetectURLType (URL (st_pkg s)) = Ret HttpURL ->
  BuildDir (st_env s) <> EmptyString ->
  (exists (o : outcome error) (s' : state),
     Part000.Get s = (o, s')
     /\ SrcDir (st_env s') = package_dir s
     /\ BuildDir (st_env s') = BuildDir (st_env s))
  /\ (Fs.PathExists (st_fs s) (package_dir s) = true ->
      Fs.stat_ENOTDIR (st_fs s) (target_file s) = true ->
      Part000.Get s
      = (Panic "invalid memory address or nil pointer dereference",
         after s (with_SrcDir (package_dir s) (st_env s)) (st_fs s)
           [EvStat (package_dir s); EvStat (target_file s)])).
Proof.
  intros Hk Hu Hh Hb.
  assert (Hne : GoPath.is_empty HttpURL = false).
  { apply kinds_nonempty; [assumption|]. unfold url_kinds. set_solver. }
  apply is_empty_false in Hu, Hb. unfold target_file, package_dir. open_state s.
  unfold Part000.Get. run2. rewrite Hu, Hh, Hne, (http_not_file Hk), String.eqb_refl.
  unfold Part000.download. run2. rewrite Hu, Hb. run2. split.
  - repeat (run2; split_match); run2; eexists _, _; repeat split; reflexivity.
  - intros Hd Ht. rewrite Hd. run2. rewrite Ht. rewrite <- app_assoc. reflexivity.
Qed.


(** X17. A download in buildenv.go is judged by the listing of [BuildDir]:
    once wget has succeeded and the directory is listed, a single entry makes
    [Get] return nil with [Tarball] set to that entry, whatever its name, and
    [SrcPath] to its path; any other number of entries makes [Get] fail with
    the inconsistent-directory error, [Tarball] and [SrcPath] untouched. *)
Theorem Get_http_downloads_buildenv (s : state) (wget : string)
    (fs1 : gmap string node) (res : Result) (files : list string) :
  kinds_distinct ->
  URL (st_pkg s) <> EmptyString ->
  DetectURLType (URL (st_pkg s)) = Ret HttpURL ->
  BuildDir (st_env s) <> EmptyString ->
  LookPath (st_fs s) "wget" = (wget, None) ->
  let dir := BuildDir (st_env s) in
  let cmd := exec_Command wget [URL (st_pkg s)] dir in
  let calls := [EvLookPath "wget"; EvRun cmd; EvReadDir dir] in
  spawn cmd (st_fs s) = (fs1, res) ->
  Err res = None ->
  Fs.ReadDir fs1 dir = (files, None) ->
  (forall name, files = [name] ->
     Buildenv.Get s =
       (Ret nil_error,
        {| st_env := with_SrcPath (GoPath.Join [dir; name]) (st_env s);
           st_pkg := with_Tarball name (st_pkg s);
           st_fs := fs1;
           st_trace := st_trace s ++ calls |}))
  /\ (length files <> 1 ->
      Buildenv.Get s =
        (Ret (Some ("impossible to download " +:+ Name (st_pkg s) +:+ ": "
                    +:+ Buildenv.download_inconsistent dir files)),
         after s (st_env s) fs1 calls)).
Proof.
  intros Hk Hu Hh Hb Hl dir cmd calls Hrun Herr Hlist. subst dir cmd calls.
  assert (Hne : GoPath.is_empty HttpURL = false).
  { apply kinds_nonempty; [assumption|]. unfold url_kinds. set_solver. }
  apply is_empty_false in Hu, Hb.
  destruct res as [rerr rout rerrs]. cbn [Err] in Herr. subst rerr. open_state s.
  unfold Buildenv.Get. run2. rewrite Hu, Hh, Hne, (http_not_file Hk), String.eqb_refl.
  unfold Buildenv.download. run2. rewrite Hu, Hb. run2. rewrite Hl. run2.
  rewrite Hrun. run2. rewrite Hlist. run2. split.
  - intros entry ->. cbn [length Nat.eqb negb]. run2. rewrite <- !app_assoc. reflexivity.
  - intros Hlen. destruct files as [|f [|g rest]]; cbn [length Nat.eqb negb]; run2;
      try (cbn in Hlen; congruence); rewrite <- !app_assoc; reflexivity.
Qed.


Lemma Get_git_part000_state (s : state) :
  kinds_distinct ->
  URL (st_pkg s) <> EmptyString ->
  DetectURLType (URL (st_pkg s)) = Ret GitURL ->
  result_of (Part000.Get s) = Ret nil_error ->
  let checkout := GoPath.Join [package_dir s; repo_name (st_pkg s)] in
  exists fs' calls,
    state_of (Part000.Get s)
    = after s (with_SrcDir checkout (with_SrcPath checkout (st_env s))) fs' calls
    /\ length (spawned calls) = 1.
Proof.
  intros Hk Hu Hg.
  assert (Hne : GoPath.is_empty GitURL = false).
  { apply kinds_nonempty; [assumption|]. unfold url_kinds. set_solver. }
  apply is_empty_false in Hu. unfold package_dir, repo_name. open_state s.
  unfold result_of, state_of, Part000.Get. run2.
  rewrite Hu, Hg, Hne, (git_not_file Hk), (git_not_http Hk), String.eqb_refl.
  unfold Part000.gitCheckout. run2.
  destruct (LookPath fs "git") as [git [msg|]]; run2; [discriminate|].
  destruct (Fs.PathExists fs _); run2;
    [|destruct (Fs.Mkdir fs _) as [fs0 [msg|]]; run2; [discriminate|]];
    (destruct (Fs.PathExists _ _); run2;
     match goal with |- context [spawn ?c ?f] =>
       destruct (spawn c f) as [fs2 [[msg|] out err]] end;
     run2; try discriminate; intros _; eexists _, _;
     rewrite <- !app_assoc; split; reflexivity).
Qed.

Lemma Get_git_buildenv_state (s : state) :
  kinds_distinct ->
  URL (st_pkg s) <> EmptyString ->
  DetectURLType (URL (st_pkg s)) = Ret GitURL ->
  result_of (Buildenv.Get s) = Ret nil_error ->
  let checkout := GoPath.Join [BuildDir (st_env s); repo_name (st_pkg s)] in
  exists fs' calls,
    state_of (Buildenv.Get s)
    = after s (with_SrcDir checkout (with_SrcPath checkout (st_env s))) fs' calls
    /\ length (spawned calls) = 1.
Proof.
  intros Hk Hu Hg.
  assert (Hne : GoPath.is_empty GitURL = false).
  { apply kinds_nonempty; [assumption|]. unfold url_kinds. set_solver. }
  apply is_empty_false in Hu. unfold repo_name. open_state s.
  unfold result_of, state_of, Buildenv.Get. run2.
  rewrite Hu, Hg, Hne, (git_not_file Hk), (git_not_http Hk), String.eqb_refl.
  unfold Buildenv.gitCheckout. run2.
  destruct (LookPath fs "git") as [git [msg|]]; run2; [discriminate|].
  destruct (Fs.PathExists _ _); run2;
    match goal with |- context [spawn ?c ?f] =>
      destruct (spawn c f) as [fs2 [[msg|] out err]] end;
    run2; try discriminate; intros _; eexists _, _;
    rewrite <- !app_assoc; split; reflexivity.
Qed.

(** X18. For any git URL, name and [BuildDir]: a [Get] that returns nil has
    spawned exactly one command and set [SrcPath] and [SrcDir] both to the
    checkout path, which is the repository name (the base name of the URL
    without its first .git) under the package-named subdirectory in part_000
    and under [BuildDir] itself in buildenv.go.  If the checkout is then a
    directory and [BuildDir] is not empty, the [Unpack] that follows is the
    no-op the code intends: one look, nil, nothing changed. *)
Theorem Get_git_then_Unpack (s : state) :
  kinds_distinct ->
  URL (st_pkg s) <> EmptyString ->
  DetectURLType (URL (st_pkg s)) = Ret GitURL ->
  BuildDir (st_env s) <> EmptyString ->
  (result_of (Part000.Get s) = Ret nil_error ->
   let checkout := GoPath.Join [package_dir s; repo_name (st_pkg s)] in
   let s' := state_of (Part000.Get s) in
   SrcPath (st_env s') = checkout /\ SrcDir (st_env s') = checkout
   /\ (exists calls, st_trace s' = st_trace s ++ calls /\ length (spawned calls) = 1)
   /\ (Fs.IsDir (st_fs s') checkout = true ->
       Part000.Unpack s' = (Ret nil_error, extend s' [EvStat checkout])))
  /\ (result_of (Buildenv.Get s) = Ret nil_error ->
   let checkout := GoPath.Join [BuildDir (st_env s); repo_name (st_pkg s)] in
   let s' := state_of (Buildenv.Get s) in
   SrcPath (st_env s') = checkout /\ SrcDir (st_env s') = checkout
   /\ (exists calls, st_trace s' = st_trace s ++ calls /\ length (spawned calls) = 1)
   /\ (Fs.IsDir (st_fs s') checkout = true ->
       Buildenv.Unpack s' = (Ret nil_error, extend s' [EvStat checkout]))).
Proof.
  intros Hk Hu Hg Hb. split; intros Hok checkout s'.
  - destruct (Get_git_part000_state s Hk Hu Hg Hok) as (fs' & calls & Hs' & Hn).
    subst s'. rewrite Hs'. repeat split; eauto.
    intros Hd.
    exact (Unpack_directory_part000
             (after s (with_SrcDir checkout (with_SrcPath checkout (st_env s))) fs' calls)
             Hb Hd).
  - destruct (Get_git_buildenv_state s Hk Hu Hg Hok) as (fs' & calls & Hs' & Hn).
    subst s'. rewrite Hs'. repeat split; eauto.
    intros Hd.
    exact (Unpack_directory_buildenv
             (after s (with_SrcDir checkout (with_SrcPath checkout (st_env s))) fs' calls)
             Hb Hd).
Qed.

(** X19. [Get] of part_000 on a file URL that names a directory: when it
    returns nil, it has looked at the directory and at the package-named
    subdirectory of [BuildDir], made the latter if nothing was there, found
    cp, and spawned one command: the binary [exec.LookPath] gave for cp, with
    the arguments -rf, the directory and the subdirectory.  That command
    reported no error, the file system is the one it left, and [SrcPath] and
    [SrcDir] are both the subdirectory joined with the base name of the URL;
    the descriptor is untouched.  If that path is then a directory and
    [BuildDir] is not empty, the [Unpack] that follows is a no-op. *)
Theorem Get_directory_then_Unpack (s : state) :
  kinds_distinct ->
  DetectURLType (URL (st_pkg s)) = Ret FileURL ->
  Fs.IsDir (st_fs s) (local_path (st_pkg s)) = true ->
  BuildDir (st_env s) <> EmptyString ->
  result_of (Part000.Get s) = Ret nil_error ->
  let copy := GoPath.Join [package_dir s; GoPath.Base (URL (st_pkg s))] in
  let fs0 := with_package_dir s in
  let cmd := copy_command (fst (LookPath fs0 "cp")) s in
  let s' := state_of (Part000.Get s) in
  snd (LookPath fs0 "cp") = None
  /\ Err (snd (spawn_adv cmd fs0)) = None
  /\ s' = {| st_env := with_SrcDir copy (with_SrcPath copy (st_env s));
             st_pkg := st_pkg s;
             st_fs := fst (spawn_adv cmd fs0);
             st_trace :=
               st_trace s
               ++ [EvStat (local_path (st_pkg s)); EvStat (package_dir s)]
               ++ (if Fs.PathExists (st_fs s) (package_dir s) then []
                   else [EvMkdirAll (package_dir s)])
               ++ [EvLookPath "cp"; EvAdvRun cmd] |}
  /\ (Fs.IsDir (st_fs s') copy = true ->
      Part000.Unpack s' = (Ret nil_error, extend s' [EvStat copy])).
Proof.
  intros Hk Hf Hd Hb. destruct (DetectURLType_returns _ _ Hf) as [Hlen _].
  assert (Hne : GoPath.is_empty FileURL = false).
  { apply kinds_nonempty; [assumption|]. unfold url_kinds. set_solver. }
  assert (Hu : GoPath.is_empty (URL (st_pkg s)) = false).
  { apply is_empty_false. intros Hu. rewrite Hu in Hlen. cbn in Hlen. lia. }
  unfold local_path, with_package_dir, copy_command, package_dir in *. open_state s.
  unfold result_of, state_of, Part000.Get. run2.
  rewrite Hu, Hf, Hne, String.eqb_refl, (slice_from_ok 7 url Hlen). run2.
  rewrite Hd. run2. unfold Part000.Get_copyDir. run2.
  destruct (Fs.PathExists fs _); run2;
    [|destruct (Fs.MkdirAll fs _) as [fs0 [msg|]]; run2; [discriminate|]];
    (match goal with |- context [LookPath ?f "cp"] =>
       destruct (LookPath f "cp") as [cp [msg|]] end; run2; try discriminate;
     match goal with |- context [spawn_adv ?c ?f] =>
       destruct (spawn_adv c f) as [fs2 [[msg|] out err]] end;
     run2; try discriminate; intros _;
     (split; [reflexivity|]); (split; [reflexivity|]);
     (split; [rewrite <- !app_assoc; reflexivity|]);
     intros Hdir;
     match goal with |- Part000.Unpack ?st = _ =>
       exact (Unpack_directory_part000 st Hb Hdir) end).
Qed.

Lemma HasPrefix_empty (s : string) : GoStrings.HasPrefix s EmptyString = true.
Proof. destruct s; reflexivity. Qed.






(** X21. The search is confined to [Env]: when no entry has PATH as its
    first component, [lookPath] returns the name as it is, without a single
    call, whatever the file system holds. *)
Theorem lookPath_without_PATH (bin : string) (s : state) :
  Forall (fun e => hd EmptyString (GoStrings.Split e "=") <> "PATH") (Env (st_env s)) ->
  lookPath bin s = (Ret bin, s).
Proof.
  intros Hno. unfold lookPath, bind at 1, getEnv. unfold bind.
  rewrite <- (app_nil_r (Env (st_env s))).
  rewrite (lookPath_entries_skip bin _ [] s Hno). reflexivity.
Qed.

Lemma append_empty_r (a : string) : a +:+ EmptyString = a.
Proof.
  induction a as [|c a IH]; [reflexivity|].
  change (String c (a +:+ EmptyString) = String c a). rewrite IH. reflexivity.
Qed.

(** Splitting at a byte that the front part of the string does not contain
    leaves the front part on the first component. *)
Lemma split_go_free (c : ascii) (a w : string) :
  has_byte c a = false ->
  GoStrings.split_go (String c EmptyString) 0 (a +:+ w)
  = match GoStrings.split_go (String c EmptyString) 0 w with
    | h :: t => (a +:+ h) :: t
    | [] => [a]
    end.
Proof.
  induction a as [|d a IH]; cbn [has_byte]; intros Hfree.
  - change (EmptyString +:+ w) with w.
    destruct (GoStrings.split_go (String c EmptyString) 0 w) eqn:Hs; [|reflexivity].
    exfalso. exact (split_go_nonempty _ _ _ Hs).
  - apply orb_false_iff in Hfree as [Hd Ha].
    change (String d a +:+ w) with (String d (a +:+ w)).
    cbn [GoStrings.split_go GoStrings.HasPrefix]. rewrite Hd. cbn [andb].
    rewrite (IH Ha).
    destruct (GoStrings.split_go (String c EmptyString) 0 w); reflexivity.
Qed.

(** The components of an entry PATH=dir:more at the equal sign, and of its
    value at the colons. *)
Lemma Split_PATH_entry (dir more : string) :
  has_byte "=" dir = false ->
  exists (tail_ : string) (others : list string),
    GoStrings.Split ("PATH=" +:+ dir +:+ ":" +:+ more) "="
    = "PATH" :: (dir +:+ ":" +:+ tail_) :: others.
Proof.
  intros Hfree. unfold GoStrings.Split. cbn [String.eqb].
  change ("PATH=" +:+ dir +:+ ":" +:+ more)
    with ("PATH" +:+ ("=" +:+ dir +:+ ":" +:+ more)).
  rewrite (split_go_free "=" "PATH" _ eq_refl).
  change ("=" +:+ dir +:+ ":" +:+ more) with (String "=" (dir +:+ ":" +:+ more)).
  cbn [GoStrings.split_go GoStrings.HasPrefix Ascii.eqb Bool.eqb andb].
  rewrite HasPrefix_empty. cbn [String.length Nat.sub].
  rewrite (split_go_free "=" dir _ Hfree).
  change (":" +:+ more) with (String ":" more).
  cbn [GoStrings.split_go GoStrings.HasPrefix Ascii.eqb Bool.eqb andb].
  pose proof (split_go_nonempty "=" more 0) as Hne.
  destruct (GoStrings.split_go "=" 0 more) as [|h t]; [contradiction|].
  cbn [GoStrings.push]. exists h, t. reflexivity.
Qed.

Lemma Split_PATH_value (dir tail_ : string) :
  has_byte ":" dir = false ->
  GoStrings.Split (dir +:+ ":" +:+ tail_) ":"
  = dir :: GoStrings.split_go ":" 0 tail_.
Proof.
  intros Hfree. unfold GoStrings.Split. cbn [String.eqb].
  rewrite (split_go_free ":" dir _ Hfree).
  change (":" +:+ tail_) with (String ":" tail_).
  cbn [GoStrings.split_go GoStrings.HasPrefix Ascii.eqb Bool.eqb andb].
  rewrite HasPrefix_empty. cbn [String.length Nat.sub].
  rewrite append_empty_r. reflexivity.
Qed.


(** [mkdir_chain] keeps what exists, also when it fails half way. *)
Lemma mkdir_chain_keeps (chain : list string) :
  forall (fs : gmap string node) (x : string) (n : node),
    Fs.lookup_clean fs x = Some n ->
    Fs.lookup_clean (fst (Fs.mkdir_chain fs chain)) x = Some n.
Proof.
  induction chain as [|q rest IH]; intros fs x n Hx; cbn [Fs.mkdir_chain fst]; [exact Hx|].
  destruct (Fs.lookup_clean fs q) as [[c|]|] eqn:Hq; cbn [fst]; auto.
  apply IH. apply lookup_clean_insert; assumption.
Qed.

Lemma kept_refl (fs : gmap string node) : kept fs fs.
Proof. intros p n Hp. exact Hp. Qed.

Lemma kept_trans (a b c : gmap string node) : kept a b -> kept b c -> kept a c.
Proof. intros Hab Hbc p n Hp. apply Hbc, Hab, Hp. Qed.

Lemma MkdirAll_keeps (fs : gmap string node) (p : string) :
  kept fs (fst (Fs.MkdirAll fs p)).
Proof.
  unfold Fs.MkdirAll. destruct (GoPath.is_empty p); [apply kept_refl|].
  intros x n. unfold Fs.stat. destruct (GoPath.is_empty x); [discriminate|].
  apply mkdir_chain_keeps.
Qed.

Lemma kept_PathExists (fs fs' : gmap string node) (p : string) :
  kept fs fs' -> Fs.PathExists fs p = true -> Fs.PathExists fs' p = true.
Proof.
  unfold Fs.PathExists. intros Hk. destruct (Fs.stat fs p) as [n|] eqn:Hp; [|discriminate].
  rewrite (Hk _ _ Hp). reflexivity.
Qed.

Lemma kept_IsDir (fs fs' : gmap string node) (p : string) :
  kept fs fs' -> Fs.IsDir fs p = true -> Fs.IsDir fs' p = true.
Proof.
  unfold Fs.IsDir. intros Hk. destruct (Fs.stat fs p) as [[c|]|] eqn:Hp; try discriminate.
  rewrite (Hk _ _ Hp). reflexivity.
Qed.

Lemma lookup_clean_insert_inv (fs : gmap string node) (q x : string) (n : node) :
  Fs.lookup_clean (<[q := Directory]> fs) x = Some n ->
  Fs.lookup_clean fs x = Some n \/ n = Directory.
Proof.
  unfold Fs.lookup_clean. destruct (String.eqb x "/" || String.eqb x "."); [auto|].
  destruct (decide (q = x)) as [->|Hne].
  - rewrite lookup_insert_eq. intros [= <-]. right. reflexivity.
  - rewrite lookup_insert_ne by assumption. auto.
Qed.

Lemma mkdir_chain_adds_directories (chain : list string) :
  forall (fs : gmap string node) (x : string) (n : node),
    Fs.lookup_clean (fst (Fs.mkdir_chain fs chain)) x = Some n ->
    Fs.lookup_clean fs x = Some n \/ n = Directory.
Proof.
  induction chain as [|q rest IH]; intros fs x n; cbn [Fs.mkdir_chain fst]; [auto|].
  destruct (Fs.lookup_clean fs q) as [[c|]|] eqn:Hq; cbn [fst]; auto.
  intros Hx. apply IH in Hx as [Hx|Hx]; [|auto].
  exact (lookup_clean_insert_inv _ _ _ _ Hx).
Qed.

Lemma only_directories_added_refl (fs : gmap string node) :
  only_directories_added fs fs.
Proof. intros p n Hp. left. exact Hp. Qed.

Lemma only_directories_added_trans (a b c : gmap string node) :
  only_directories_added a b -> only_directories_added b c ->
  only_directories_added a c.
Proof. intros Hab Hbc p n Hp. apply Hbc in Hp as [Hp|Hp]; auto. Qed.

Lemma MkdirAll_adds_directories (fs : gmap string node) (p : string) :
  only_directories_added fs (fst (Fs.MkdirAll fs p)).
Proof.
  unfold Fs.MkdirAll. destruct (GoPath.is_empty p); [apply only_directories_added_refl|].
  intros x n. unfold Fs.stat. destruct (GoPath.is_empty x); [discriminate|].
  apply mkdir_chain_adds_directories.
Qed.

Lemma added_is_directory (fs fs' : gmap string node) (p : string) :
  only_directories_added fs fs' ->
  Fs.PathExists fs p = false -> Fs.PathExists fs' p = true -> Fs.IsDir fs' p = true.
Proof.
  unfold Fs.PathExists, Fs.IsDir. intros Hadd Hno Hyes.
  destruct (Fs.stat fs' p) as [n|] eqn:Hp; [|discriminate].
  apply Hadd in Hp as [Hp| ->]; [|reflexivity]. rewrite Hp in Hno. discriminate.
Qed.

(** One step of [Init]: it looks, makes the directory when nothing is
    there, and keeps everything else. *)
Lemma Init_ensure_adds (what dir : string) (s : state) :
  exists (err : error) (fs' : gmap string node) (calls : list event),
    Init_ensure what dir s = (Ret err, after s (st_env s) fs' calls)
    /\ kept (st_fs s) fs'
    /\ only_directories_added (st_fs s) fs'
    /\ spawned calls = []
    /\ (err = None -> Fs.PathExists fs' dir = true).
Proof.
  destruct s as [e p fs tr]. unfold Init_ensure. run2.
  destruct (Fs.PathExists fs dir) eqn:Hp; run2.
  - exists None, fs, [EvStat dir].
    repeat split; auto using kept_refl, only_directories_added_refl.
  - pose proof (MkdirAll_keeps fs dir) as Hk.
    pose proof (MkdirAll_adds_directories fs dir) as Ha.
    destruct (Fs.MkdirAll fs dir) as [fs' [msg|]] eqn:Hmk; run2; cbn [fst] in Hk, Ha.
    + eexists _, fs', [EvStat dir; EvMkdirAll dir].
      rewrite <- app_assoc. repeat split; auto; discriminate.
    + apply MkdirAll_ok in Hmk as [Hdir _].
      exists None, fs', [EvStat dir; EvMkdirAll dir].
      rewrite <- app_assoc. split; [reflexivity|]. split; [exact Hk|].
      split; [exact Ha|]. split; [reflexivity|].
      intros _. apply IsDir_PathExists, Hdir.
Qed.

(** X24. [Init] only ever adds directories.  It always returns, changes no
    field and runs no command; whatever a path named before the call it
    names after it, and whatever is new is a directory, also when [Init]
    fails half way; and when it returns nil, each of [ScratchDir],
    [BuildDir] and [InstallDir] exists, those that were missing as
    directories. *)
Theorem Init_only_adds_directories (s : state) :
  exists (err : error) (fs' : gmap string node) (calls : list event),
    Init s = (Ret err, after s (st_env s) fs' calls)
    /\ kept (st_fs s) fs'
    /\ only_directories_added (st_fs s) fs'
    /\ spawned calls = []
    /\ (err = None ->
        forall d, d ∈ [ScratchDir (st_env s); BuildDir (st_env s); InstallDir (st_env s)] ->
          Fs.PathExists fs' d = true
          /\ (Fs.PathExists (st_fs s) d = false -> Fs.IsDir fs' d = true)).
Proof.
  unfold Init, bind at 1, getEnv. unfold bind at 1.
  destruct (Init_ensure_adds "scratch" (ScratchDir (st_env s)) s)
    as (e1 & fs1 & c1 & -> & Hk1 & Ha1 & Hs1 & Hok1).
  destruct e1 as [msg|]; cbn [ret Errorf].
  { exists (Some msg), fs1, c1. repeat split; auto; discriminate. }
  specialize (Hok1 eq_refl).
  unfold bind at 1.
  destruct (Init_ensure_adds "build" (BuildDir (st_env s)) (after s (st_env s) fs1 c1))
    as (e2 & fs2 & c2 & -> & Hk2 & Ha2 & Hs2 & Hok2).
  cbn [after st_env st_fs st_pkg st_trace] in *.
  destruct e2 as [msg|]; cbn [ret Errorf].
  { exists (Some msg), fs2, (c1 ++ c2). unfold after; cbn. rewrite <- app_assoc.
    repeat split; eauto using kept_trans, only_directories_added_trans; try discriminate.
    unfold spawned in *. rewrite List.filter_app, Hs1, Hs2. reflexivity. }
  specialize (Hok2 eq_refl).
  unfold bind at 1.
  match goal with
  | |- context [Init_ensure "build" ?d ?st] =>
      destruct (Init_ensure_adds "build" d st)
        as (e3 & fs3 & c3 & -> & Hk3 & Ha3 & Hs3 & Hok3)
  end.
  cbn [after st_env st_fs st_pkg st_trace] in *.
  assert (Hspawn : spawned (c1 ++ c2 ++ c3) = []).
  { unfold spawned in *. rewrite !List.filter_app, Hs1, Hs2, Hs3. reflexivity. }
  assert (Hkept : kept (st_fs s) fs3) by eauto using kept_trans.
  assert (Hadd : only_directories_added (st_fs s) fs3)
    by eauto using only_directories_added_trans.
  destruct e3 as [msg|]; cbn [ret Errorf nil_error].
  { exists (Some msg), fs3, (c1 ++ c2 ++ c3). unfold after; cbn. rewrite <- !app_assoc.
    repeat split; auto; discriminate. }
  specialize (Hok3 eq_refl).
  exists None, fs3, (c1 ++ c2 ++ c3). unfold after; cbn. rewrite <- !app_assoc.
  split; [reflexivity|]. split; [exact Hkept|]. split; [exact Hadd|].
  split; [exact Hspawn|].
  intros _ d Hd.
  assert (Hex : Fs.PathExists fs3 d = true).
  { rewrite !elem_of_cons, elem_of_nil in Hd.
    destruct Hd as [->|[->|[->|[]]]]; eauto using kept_PathExists, kept_trans. }
  split; [exact Hex|]. intros Hno. exact (added_is_directory _ _ _ Hadd Hno Hex).
Qed.

(** X25. [Init] asks only whether the three paths exist, not what they
    are: when each of them names something, be it a regular file, [Init]
    returns nil after three looks and leaves everything as it is. *)
Theorem Init_accepts_any_existing_path (s : state) :
  Fs.PathExists (st_fs s) (ScratchDir (st_env s)) = true ->
  Fs.PathExists (st_fs s) (BuildDir (st_env s)) = true ->
  Fs.PathExists (st_fs s) (InstallDir (st_env s)) = true ->
  Init s
  = (Ret nil_error,
     extend s [EvStat (ScratchDir (st_env s)); EvStat (BuildDir (st_env s));
               EvStat (InstallDir (st_env s))]).
Proof.
  intros Hs Hb Hi. unfold Init, bind, getEnv. cbv beta iota.
  rewrite (Init_ensure_present _ _ s Hs). cbv beta iota delta [nil_error].
  rewrite (Init_ensure_present _ _ (extend s _) Hb). cbv beta iota delta [nil_error].
  rewrite (Init_ensure_present _ _ (extend (extend s _) _) Hi).
  unfold extend, ret, nil_error. cbn [st_env st_pkg st_fs st_trace].
  rewrite <- !app_assoc. reflexivity.
Qed.

(** X26. When [ScratchDir] and [BuildDir] exist and [InstallDir] cannot be
    made, the error of [Init] speaks of the build directory, with the path
    of [InstallDir] and the error of [os.MkdirAll] behind it. *)
Theorem Init_InstallDir_failure_message
    (s : state) (fs' : gmap string node) (msg : string) :
  Fs.PathExists (st_fs s) (ScratchDir (st_env s)) = true ->
  Fs.PathExists (st_fs s) (BuildDir (st_env s)) = true ->
  Fs.PathExists (st_fs s) (InstallDir (st_env s)) = false ->
  Fs.MkdirAll (st_fs s) (InstallDir (st_env s)) = (fs', Some msg) ->
  Init s
  = (Ret (Some ("failed to create build directory " +:+ InstallDir (st_env s)
                +:+ ": " +:+ msg)),
     after s (st_env s) fs'
       [EvStat (ScratchDir (st_env s)); EvStat (BuildDir (st_env s));
        EvStat (InstallDir (st_env s)); EvMkdirAll (InstallDir (st_env s))]).
Proof.
  intros Hs Hb Hi Hmk. unfold Init, bind, getEnv. cbv beta iota.
  rewrite (Init_ensure_present _ _ s Hs). cbv beta iota delta [nil_error].
  rewrite (Init_ensure_present _ _ (extend s _) Hb). cbv beta iota delta [nil_error].
  unfold Init_ensure, bind, util_PathExists, probe, os_MkdirAll, action.
  cbn [extend st_env st_pkg st_fs st_trace fst snd]. rewrite Hi. cbn [negb].
  cbn [st_env st_pkg st_fs st_trace]. rewrite Hmk.
  unfold after, ret, Errorf. cbn [st_env st_pkg st_fs st_trace fst snd].
  rewrite <- !app_assoc. reflexivity.
Qed.

Lemma Mkdir_fresh (fs fs' : gmap string node) (p : string) :
  Fs.Mkdir fs p = (fs', None) -> fresh_directory fs fs' p.
Proof.
  unfold Fs.Mkdir, fresh_directory, Fs.PathExists, Fs.stat.
  destruct (GoPath.is_empty p); [discriminate|].
  destruct (Fs.lookup_clean fs (GoPath.Clean p)); [discriminate|].
  destruct (Fs.lookup_clean fs (GoPath.Dir (GoPath.Clean p))) as [[|]|];
    try discriminate.
  intros [= <-]. auto.
Qed.

Lemma Mkdir_failed (fs fs' : gmap string node) (p msg : string) :
  Fs.Mkdir fs p = (fs', Some msg) -> fs' = fs.
Proof.
  unfold Fs.Mkdir. destruct (GoPath.is_empty p); [congruence|].
  destruct (Fs.lookup_clean fs (GoPath.Clean p)); [congruence|].
  destruct (Fs.lookup_clean fs (GoPath.Dir (GoPath.Clean p))) as [[|]|]; congruence.
Qed.

Lemma fresh_directory_IsDir (fs fs' : gmap string node) (d : string) :
  fresh_directory fs fs' d -> Fs.IsDir fs' d = true.
Proof.
  intros (Hne & _ & ->). unfold Fs.IsDir, Fs.stat. rewrite Hne.
  rewrite lookup_clean_insert_eq. reflexivity.
Qed.

Lemma fresh_directory_kept (fs fs' : gmap string node) (d : string) :
  fresh_directory fs fs' d -> kept fs fs'.
Proof.
  intros (Hne & Hno & ->) p n. unfold Fs.PathExists, Fs.stat in *. rewrite Hne in Hno.
  destruct (GoPath.is_empty p); [discriminate|].
  apply lookup_clean_insert.
  destruct (Fs.lookup_clean fs (GoPath.Clean d)); [discriminate | reflexivity].
Qed.

Lemma fresh_directory_adds (fs fs' : gmap string node) (d : string) :
  fresh_directory fs fs' d -> only_directories_added fs fs'.
Proof.
  intros (_ & _ & ->) p n. unfold Fs.stat.
  destruct (GoPath.is_empty p); [discriminate|]. apply lookup_clean_insert_inv.
Qed.

End More.

Section MoreHostEnv.
Context `{Host} `{Process}.

(** The loop of [ioutil.TempDir]: it ends, and either it made one new
    directory, named by the prefix and a number in decimal, or it made
    nothing and returns the empty string with an error. *)
Lemma TempDir_loop_spec (dir prefix : string) (fuel : nat) :
  forall (i : nat) (s : state),
    exists (made : string) (err : error) (fs' : gmap string node) (calls : list event),
      TempDir_loop dir prefix i fuel s
      = (Ret (made, err), after s (st_env s) fs' calls)
      /\ spawned calls = []
      /\ match err with
         | None => fresh_directory (st_fs s) fs' made
                   /\ exists n : N, made = prefix +:+ pretty n
         | Some _ => made = EmptyString /\ fs' = st_fs s
         end.
Proof.
  induction fuel as [|k IH]; intros i s; cbn [TempDir_loop].
  - eexists EmptyString, (Some _), (st_fs s), []. unfold after, ret.
    rewrite app_nil_r. destruct s. repeat split.
  - destruct s as [e p fs tr]. run2.
    destruct (Fs.Mkdir fs (prefix +:+ pretty (nextRandom fs i)))
      as [fs1 [msg|]] eqn:Hmk; run2.
    + apply Mkdir_failed in Hmk. subst fs1.
      destruct (Fs.PathExists fs (prefix +:+ pretty (nextRandom fs i))).
      * destruct (IH (S i)
                    {| st_env := e; st_pkg := p; st_fs := fs;
                       st_trace := tr ++ [EvMkdir (prefix +:+ pretty (nextRandom fs i))] |})
          as (made & err & fs' & calls & -> & Hsp & Hspec).
        exists made, err, fs', (EvMkdir (prefix +:+ pretty (nextRandom fs i)) :: calls).
        unfold after. cbn [st_env st_pkg st_fs st_trace] in *. rewrite <- app_assoc.
        repeat split; auto.
      * destruct (Fs.lookup_clean fs
                    (GoPath.Dir (GoPath.Clean (prefix +:+ pretty (nextRandom fs i)))));
          run2.
        { eexists EmptyString, (Some msg), fs, [_]. repeat split. }
        destruct (Fs.PathExists fs dir); run2;
          eexists EmptyString, (Some _), fs, [_; _]; rewrite <- app_assoc; repeat split.
    + apply Mkdir_fresh in Hmk.
      eexists _, None, fs1, [_]. repeat split; try apply Hmk. eauto.
Qed.

Lemma ioutil_TempDir_spec (dir pattern : string) (s : state) :
  let root := if GoPath.is_empty dir then TempRoot else dir in
  exists (made : string) (err : error) (fs' : gmap string node) (calls : list event),
    ioutil_TempDir dir pattern s = (Ret (made, err), after s (st_env s) fs' calls)
    /\ spawned calls = []
    /\ match err with
       | None => fresh_directory (st_fs s) fs' made
                 /\ exists n : N, made = joinPath root pattern +:+ pretty n
       | Some _ => made = EmptyString /\ fs' = st_fs s
       end.
Proof.
  intros root. unfold ioutil_TempDir. fold root.
  apply TempDir_loop_spec.
Qed.

(** [createHostEnvCfg], step by step. *)
Lemma createHostEnvCfg_cases (s : state) :
  let env := st_env s in
  let root := if GoPath.is_empty (ScratchDir env) then TempRoot else ScratchDir env in
  exists (err : error) (env' : Info) (fs' : gmap string node) (calls : list event),
    createHostEnvCfg s = (Ret err, after s env' fs' calls)
    /\ spawned calls = []
    /\ kept (st_fs s) fs'
    /\ only_directories_added (st_fs s) fs'
    /\ (SrcPath env' = SrcPath env /\ SrcDir env' = SrcDir env /\ Env env' = Env env)
    /\ match err with
       | None =>
           (exists b i t : N,
              BuildDir env' = joinPath root "build" +:+ pretty b
              /\ InstallDir env' = joinPath root "install" +:+ pretty i
              /\ ScratchDir env' = joinPath root "scratch" +:+ pretty t)
           /\ exists fs1 fs2,
                fresh_directory (st_fs s) fs1 (BuildDir env')
                /\ fresh_directory fs1 fs2 (InstallDir env')
                /\ fresh_directory fs2 fs' (ScratchDir env')
       | Some _ =>
           EmptyString ∈ [BuildDir env'; InstallDir env'; ScratchDir env']
       end.
Proof.
  intros env root. open_state s. subst env root.
  set (root := if GoPath.is_empty scratchDir then TempRoot else scratchDir).
  unfold createHostEnvCfg. run2.
  match goal with
  | |- context [ioutil_TempDir scratchDir "build" ?st] =>
      destruct (ioutil_TempDir_spec scratchDir "build" st)
        as (d1 & e1 & fs1 & c1 & -> & Hs1 & Hspec1)
  end.
  fold root in Hspec1. run2. cbn [st_fs] in Hspec1.
  destruct e1 as [msg|]; run2.
  { destruct Hspec1 as [-> ->]. eexists _, _, fs, c1.
    split; [reflexivity|]. cbn.
    repeat split; auto using kept_refl, only_directories_added_refl.
    rewrite !elem_of_cons. auto. }
  destruct Hspec1 as [Hf1 (b & Hb)].
  match goal with
  | |- context [ioutil_TempDir scratchDir "install" ?st] =>
      destruct (ioutil_TempDir_spec scratchDir "install" st)
        as (d2 & e2 & fs2 & c2 & -> & Hs2 & Hspec2)
  end.
  fold root in Hspec2. run2. cbn [st_fs] in Hspec2.
  destruct e2 as [msg|]; run2.
  { destruct Hspec2 as [-> ->]. eexists _, _, fs1, (c1 ++ c2).
    rewrite <- app_assoc. split; [reflexivity|]. cbn.
    repeat split; eauto using fresh_directory_kept, fresh_directory_adds.
    - unfold spawned in *. rewrite List.filter_app, Hs1, Hs2. reflexivity.
    - rewrite !elem_of_cons. auto. }
  destruct Hspec2 as [Hf2 (i & Hi)].
  match goal with
  | |- context [ioutil_TempDir scratchDir "scratch" ?st] =>
      destruct (ioutil_TempDir_spec scratchDir "scratch" st)
        as (d3 & e3 & fs3 & c3 & -> & Hs3 & Hspec3)
  end.
  fold root in Hspec3. run2. cbn [st_fs] in Hspec3.
  assert (Hsp : spawned (c1 ++ c2 ++ c3) = []).
  { unfold spawned in *. rewrite !List.filter_app, Hs1, Hs2, Hs3. reflexivity. }
  destruct e3 as [msg|]; run2.
  { destruct Hspec3 as [-> ->]. eexists _, _, fs2, (c1 ++ c2 ++ c3).
    rewrite <- !app_assoc. split; [reflexivity|]. cbn.
    repeat split;
      eauto using fresh_directory_kept, fresh_directory_adds, kept_trans,
                  only_directories_added_trans.
    rewrite !elem_of_cons. auto. }
  destruct Hspec3 as [Hf3 (t & Ht)].
  eexists None, _, fs3, (c1 ++ c2 ++ c3).
  rewrite <- !app_assoc. split; [reflexivity|]. cbn.
  split; [exact Hsp|].
  split.
  { apply (kept_trans _ fs1); [exact (fresh_directory_kept _ _ _ Hf1)|].
    apply (kept_trans _ fs2); eapply fresh_directory_kept; eassumption. }
  split.
  { apply (only_directories_added_trans _ fs1); [exact (fresh_directory_adds _ _ _ Hf1)|].
    apply (only_directories_added_trans _ fs2); eapply fresh_directory_adds; eassumption. }
  split; [auto|]. split.
  - exists b, i, t. auto.
  - exists fs1, fs2. auto.
Qed.

Lemma kept_missing (fs fs' : gmap string node) (d : string) :
  kept fs fs' -> Fs.PathExists fs' d = false -> Fs.PathExists fs d = false.
Proof.
  intros Hk Hno. destruct (Fs.PathExists fs d) eqn:Hd; [|reflexivity].
  rewrite (kept_PathExists _ _ _ Hk Hd) in Hno. discriminate.
Qed.

(** X27. When [createHostEnvCfg] returns nil, [BuildDir], [InstallDir] and
    [ScratchDir] are three different paths, none of which named anything
    before the call and each of which is a directory after it.  Each is the
    [ScratchDir] the call started with (the temporary directory of the
    system when that was empty), as it is written, then a separator unless
    it ends in one, then build, install or scratch, then a number in
    decimal.  Nothing that existed is touched, and the other fields and the
    descriptor are as before. *)
Theorem createHostEnvCfg_fresh_directories (s : state) :
  result_of (createHostEnvCfg s) = Ret nil_error ->
  let s' := state_of (createHostEnvCfg s) in
  let root := if GoPath.is_empty (ScratchDir (st_env s)) then TempRoot
              else ScratchDir (st_env s) in
  let made := [BuildDir (st_env s'); InstallDir (st_env s'); ScratchDir (st_env s')] in
  NoDup made
  /\ (forall d, d ∈ made ->
        Fs.PathExists (st_fs s) d = false /\ Fs.IsDir (st_fs s') d = true)
  /\ (exists b i t : N,
        BuildDir (st_env s') = joinPath root "build" +:+ pretty b
        /\ InstallDir (st_env s') = joinPath root "install" +:+ pretty i
        /\ ScratchDir (st_env s') = joinPath root "scratch" +:+ pretty t)
  /\ kept (st_fs s) (st_fs s')
  /\ only_directories_added (st_fs s) (st_fs s')
  /\ SrcPath (st_env s') = SrcPath (st_env s)
  /\ SrcDir (st_env s') = SrcDir (st_env s)
  /\ Env (st_env s') = Env (st_env s)
  /\ st_pkg s' = st_pkg s.
Proof.
  destruct (createHostEnvCfg_cases s)
    as (err & env' & fs' & calls & Hrun & _ & Hkept & Hadd & (Hp & Hd & He) & Hspec).
  rewrite Hrun. unfold result_of, state_of. cbn [fst snd after st_env st_fs st_pkg].
  intros [= ->]. destruct Hspec as [Hnames (fs1 & fs2 & Hf1 & Hf2 & Hf3)].
  pose proof (fresh_directory_kept _ _ _ Hf1) as Hk1.
  pose proof (fresh_directory_kept _ _ _ Hf2) as Hk2.
  pose proof (fresh_directory_kept _ _ _ Hf3) as Hk3.
  pose proof (fresh_directory_IsDir _ _ _ Hf1) as Hd1.
  pose proof (fresh_directory_IsDir _ _ _ Hf2) as Hd2.
  pose proof (fresh_directory_IsDir _ _ _ Hf3) as Hd3.
  destruct Hf1 as (_ & Hn1 & _), Hf2 as (_ & Hn2 & _), Hf3 as (_ & Hn3 & _).
  assert (Hb2 : Fs.IsDir fs2 (BuildDir env') = true) by eauto using kept_IsDir.
  split.
  { repeat constructor; rewrite ?elem_of_cons, ?elem_of_nil.
    - intros [Heq|[Heq|[]]].
      + rewrite <- Heq in Hn2. apply IsDir_PathExists in Hd1. congruence.
      + rewrite <- Heq in Hn3. apply IsDir_PathExists in Hb2. congruence.
    - intros [Heq|[]]. rewrite <- Heq in Hn3. apply IsDir_PathExists in Hd2. congruence.
    - intros []. }
  split.
  { intros d Hin. rewrite !elem_of_cons, elem_of_nil in Hin.
    destruct Hin as [->|[->|[->|[]]]]; split;
      eauto using kept_IsDir, kept_missing, kept_trans. }
  repeat split; auto.
Qed.

(** X28. [Init] after a [createHostEnvCfg] that returned nil finds the three
    directories in place: it returns nil after three looks and makes
    nothing. *)
Theorem Init_after_createHostEnvCfg (s : state) :
  result_of (createHostEnvCfg s) = Ret nil_error ->
  let s' := state_of (createHostEnvCfg s) in
  Init s'
  = (Ret nil_error,
     extend s' [EvStat (ScratchDir (st_env s')); EvStat (BuildDir (st_env s'));
                EvStat (InstallDir (st_env s'))]).
Proof.
  destruct (createHostEnvCfg_cases s)
    as (err & env' & fs' & calls & Hrun & _ & _ & _ & _ & Hspec).
  rewrite Hrun. unfold result_of, state_of. cbn [fst snd].
  intros [= ->]. set (s' := after s env' fs' calls).
  destruct Hspec as [_ (fs1 & fs2 & Hf1 & Hf2 & Hf3)].
  pose proof (fresh_directory_kept _ _ _ Hf2) as Hk2.
  pose proof (fresh_directory_kept _ _ _ Hf3) as Hk3.
  assert (Hs : Fs.PathExists (st_fs s') (ScratchDir (st_env s')) = true)
    by (apply IsDir_PathExists; exact (fresh_directory_IsDir _ _ _ Hf3)).
  assert (Hb : Fs.PathExists (st_fs s') (BuildDir (st_env s')) = true).
  { apply IsDir_PathExists. apply (kept_IsDir fs2); [exact Hk3|].
    apply (kept_IsDir fs1); [exact Hk2|]. exact (fresh_directory_IsDir _ _ _ Hf1). }
  assert (Hi : Fs.PathExists (st_fs s') (InstallDir (st_env s')) = true).
  { apply IsDir_PathExists. apply (kept_IsDir fs2); [exact Hk3|].
    exact (fresh_directory_IsDir _ _ _ Hf2). }
  clearbody s'.
  unfold Init, bind, getEnv. cbv beta iota.
  rewrite (Init_ensure_present _ _ s' Hs). cbv beta iota delta [nil_error].
  rewrite (Init_ensure_present _ _ (extend s' _) Hb). cbv beta iota delta [nil_error].
  rewrite (Init_ensure_present _ _ (extend (extend s' _) _) Hi).
  unfold extend, ret, nil_error. cbn [st_env st_pkg st_fs st_trace].
  rewrite <- !app_assoc. reflexivity.
Qed.

(** X29. [createHostEnvCfg] always returns and runs no command; it touches
    nothing that existed and adds nothing but directories; it changes
    neither [SrcPath], [SrcDir], [Env] nor the descriptor.  When it returns
    an error, one of [BuildDir], [InstallDir] and [ScratchDir] is left
    empty: the field it was about to fill is overwritten all the same. *)
Theorem createHostEnvCfg_failure_clears_field (s : state) :
  exists (err : error) (env' : Info) (fs' : gmap string node) (calls : list event),
    createHostEnvCfg s = (Ret err, after s env' fs' calls)
    /\ spawned calls = []
    /\ kept (st_fs s) fs'
    /\ only_directories_added (st_fs s) fs'
    /\ SrcPath env' = SrcPath (st_env s)
    /\ SrcDir env' = SrcDir (st_env s)
    /\ Env env' = Env (st_env s)
    /\ (err <> None ->
        EmptyString ∈ [BuildDir env'; InstallDir env'; ScratchDir env']).
Proof.
  destruct (createHostEnvCfg_cases s)
    as (err & env' & fs' & calls & Hrun & Hsp & Hkept & Hadd & (Hp & Hd & He) & Hspec).
  exists err, env', fs', calls. repeat split; auto.
  intros Herr. destruct err as [msg|]; [exact Hspec | contradiction].
Qed.

(** X22. [GetEnvPath] and [lookPath] fit together: when the first entry of
    [Env] sets PATH to the string [GetEnvPath] returns, a binary installed
    in the bin directory of [InstallDir] is what [lookPath] resolves a name
    to, after a single look, whatever the PATH of the process holds behind
    it.  The directory must hold neither an equal sign nor a colon. *)
Theorem lookPath_finds_installed_binary
    (bin value : string) (others : list string) (s : state) :
  let dir := GoPath.Join [InstallDir (st_env s); "bin"] in
  has_byte "=" dir = false ->
  has_byte ":" dir = false ->
  result_of (GetEnvPath s) = Ret value ->
  Env (st_env s) = ("PATH=" +:+ value) :: others ->
  Fs.FileExists (st_fs s) (GoPath.Join [dir; bin]) = true ->
  lookPath bin s
  = (Ret (GoPath.Join [dir; bin]), extend s [EvStat (GoPath.Join [dir; bin])]).
Proof.
  intros dir Heq Hcolon Hvalue Henv Hfile.
  assert (Hv : value = dir +:+ ":" +:+ Getenv "PATH").
  { unfold result_of, GetEnvPath, bind, getEnv, ret in Hvalue.
    injection Hvalue as <-. reflexivity. }
  subst value. clearbody dir.
  unfold lookPath, bind at 1, getEnv. unfold bind at 1. rewrite Henv.
  cbn [lookPath_entries].
  destruct (Split_PATH_entry dir (Getenv "PATH") Heq) as (tail_ & rest & ->).
  unfold bind at 1. cbn [index lookup list_lookup ret String.eqb Ascii.eqb Bool.eqb].
  unfold bind at 1. cbn [index lookup list_lookup ret].
  rewrite (Split_PATH_value dir tail_ Hcolon).
  unfold bind at 1. cbn [lookPath_tokens].
  unfold bind at 1.
  rewrite (util_FileExists_returns _ _ (FileExists_found _ _ Hfile)), Hfile.
  reflexivity.
Qed.

End MoreHostEnv.

(** ** The rest of the code on the sample hosts *)

Lemma failing_kinds_distinct : @kinds_distinct Demo.host_failing.
Proof. exact sample_kinds_distinct. Qed.

Lemma RunMake_needs_SrcDir_witness :
  @Part000.RunMake Sample.host true "install" "/scratch/build/foo/foo-1.0/Makefile" []
    Demo.not_unpacked
  = (Ret (Some "invalid parameter(s)"), Demo.not_unpacked)
  /\ @Buildenv.RunMake Sample.host true [] "install" Demo.not_unpacked
     = (Ret (Some "invalid parameter(s)"), Demo.not_unpacked).
Proof.
  apply (@RunMake_needs_SrcDir Sample.host true "install"
           "/scratch/build/foo/foo-1.0/Makefile" [] Demo.not_unpacked).
  reflexivity.
Defined.

Lemma RunMake_without_sudo_binary_witness :
  let failure :=
    Ret (Some "failed to find the sudo binary: exec: sudo: executable file not found in $PATH") in
  @Part000.RunMake Demo.host_no_sudo true "install" "/scratch/build/foo/foo-1.0/Makefile" []
    Demo.built
  = (failure, extend Demo.built [EvLookPath "sudo"])
  /\ @Buildenv.RunMake Demo.host_no_sudo true [] "install" Demo.built
     = (failure, extend Demo.built [EvLookPath "sudo"]).
Proof.
  apply (@RunMake_without_sudo_binary Demo.host_no_sudo "install"
           "/scratch/build/foo/foo-1.0/Makefile" EmptyString
           "exec: sudo: executable file not found in $PATH" [] Demo.built).
  - discriminate.
  - reflexivity.
Defined.

Lemma RunMake_part000_command_witness :
  @Part000.RunMake Sample.host true "install" "/scratch/build/foo/foo-1.0/Makefile"
    ["V=1"] Demo.built
  = (Ret nil_error,
     extend Demo.built
       [EvLookPath "sudo";
        EvAdvRun {| BinPath := "/usr/bin/sudo";
                    CmdArgs := ["make"; "-j"; "V=1"; "install"];
                    ExecDir := "/scratch/build/foo/foo-1.0";
                    ManifestName := "V=1_install"; ManifestDir := EmptyString;
                    CmdEnv := ["CC=gcc"] |}]).
Proof.
  apply (@RunMake_part000_command Sample.host true "install"
           "/scratch/build/foo/foo-1.0/Makefile" ["V=1"] Demo.built "/usr/bin/sudo").
  - discriminate.
  - reflexivity.
Defined.

Lemma RunMake_buildenv_command_witness :
  @Buildenv.RunMake Sample.host false ["V=1"] EmptyString Demo.built
  = (Ret nil_error,
     extend Demo.built
       [EvAdvRun {| BinPath := "make"; CmdArgs := ["-j"; "V=1"];
                    ExecDir := "/scratch/build/foo/foo-1.0";
                    ManifestName := "make"; ManifestDir := EmptyString;
                    CmdEnv := ["CC=gcc"] |}]).
Proof.
  apply (@RunMake_buildenv_command Sample.host false EmptyString ["V=1"] Demo.built
           EmptyString).
  - discriminate.
  - discriminate.
Defined.

Lemma Unpack_unknown_format_witness :
  let s1 := after Demo.single (with_SrcDir "/scratch/build" Demo.env_single)
              (st_fs Demo.single) [EvStat "/scratch/build/hello.c"] in
  (@Part000.Unpack Sample.host Demo.single = (Ret nil_error, s1)
   /\ @Part000.Unpack Sample.host s1
      = (Ret nil_error, extend s1 [EvStat "/scratch/build/hello.c"]))
  /\ (@Buildenv.Unpack Sample.host Demo.single = (Ret nil_error, s1)
   /\ @Buildenv.Unpack Sample.host s1
      = (Ret nil_error, extend s1 [EvStat "/scratch/build/hello.c"])).
Proof.
  apply (@Unpack_unknown_format Sample.host Demo.single).
  - discriminate.
  - discriminate.
  - vm_compute; reflexivity.
  - vm_compute; reflexivity.
Defined.


Lemma Unpack_failed_extraction_witness :
  let tar := @extraction Demo.host_failing "/usr/bin/tar" Sample.env_tarball
               "/scratch/build/foo" in
  let s1 := extend Sample.downloaded
              [EvStat "/scratch/build/foo/foo-1.0.tar.gz"; EvLookPath "tar"; EvRun tar] in
  @Part000.Unpack Demo.host_failing Sample.downloaded
  = (Ret (Some (command_failed Demo.failed "exit status 2")), s1)
  /\ @Buildenv.Unpack Demo.host_failing Sample.downloaded
     = (Ret (Some (command_failed Demo.failed "exit status 2")), s1).
Proof.
  destruct (@Unpack_failed_extraction Demo.host_failing Sample.downloaded "archive"
              "/usr/bin/tar" "exit status 2") as [Hpart Hbuild].
  - discriminate.
  - vm_compute; reflexivity.
  - vm_compute; discriminate.
  - reflexivity.
  - vm_compute; discriminate.
  - split.
    + apply (Hpart (st_fs Sample.downloaded) Demo.failed); reflexivity.
    + apply (Hbuild (st_fs Sample.downloaded) Demo.failed); reflexivity.
Defined.

Lemma Unpack_buildenv_consumes_tarball_witness :
  result_of (@Buildenv.Unpack Sample.host Sample.downloaded) = Ret nil_error
  /\ Fs.PathExists (st_fs (state_of (@Buildenv.Unpack Sample.host Sample.downloaded)))
       "/scratch/build/foo/foo-1.0.tar.gz" = false.
Proof.
  assert (Hok : result_of (@Buildenv.Unpack Sample.host Sample.downloaded) = Ret nil_error)
    by (vm_compute; reflexivity).
  split; [exact Hok|].
  apply (@Unpack_buildenv_consumes_tarball Sample.host Sample.downloaded "archive").
  - vm_compute; reflexivity.
  - vm_compute; discriminate.
  - exact Hok.
Defined.

Lemma Get_panics_only_on_short_URL_witness :
  (exists msg s', @Buildenv.Get Sample.host Demo.short_url = (Panic msg, s'))
  /\ (exists msg s', @Part000.Get Sample.host Demo.short_url = (Panic msg, s'))
  /\ ~ (exists msg s', @Part000.Get Sample.host Sample.file_first = (Panic msg, s')).
Proof.
  destruct (@Get_panics_only_on_short_URL Sample.host Demo.short_url) as [Hbuild Hpart].
  destruct (@Get_panics_only_on_short_URL Sample.host Sample.file_first) as [_ Hfile].
  assert (Hshort : URL (st_pkg Demo.short_url) <> EmptyString
                   /\ String.length (URL (st_pkg Demo.short_url)) < 7).
  { split; [discriminate|]. vm_compute. lia. }
  split; [apply Hbuild, Hshort|]. split.
  - apply Hpart; [discriminate | exact Hshort].
  - intros Hpanic. apply Hfile in Hpanic as [_ Hlen]; [|discriminate].
    vm_compute in Hlen. lia.
Defined.

Lemma Get_file_copies_part000_witness :
  let target := "/scratch/build/foo/foo-1.0.tar.gz" in
  let s' := state_of (@Part000.Get Sample.host Sample.file_first) in
  s' = {| st_env := with_SrcPath target Sample.env0;
          st_pkg := with_Tarball "foo-1.0.tar.gz" Sample.file_pkg;
          st_fs := <[target := File "archive"]> Sample.file_fs;
          st_trace := [EvStat "/tmp/pkgs/foo-1.0.tar.gz";
                       EvCopyFile "/tmp/pkgs/foo-1.0.tar.gz" target] |}
  /\ Fs.stat (st_fs s') (SrcPath (st_env s')) = Some (File "archive").
Proof.
  apply (@Get_file_copies_part000 Sample.host Sample.file_first "archive").
  - exact sample_kinds_distinct.
  - reflexivity.
  - vm_compute. lia.
  - vm_compute; reflexivity.
  - vm_compute; reflexivity.
Defined.

Lemma Get_file_copies_buildenv_witness :
  let target := "/scratch/build/foo-1.0.tar.gz" in
  let s' := state_of (@Buildenv.Get Sample.host Sample.file_first) in
  st_env s' = with_SrcPath target Sample.env0
  /\ st_pkg s' = with_Tarball "foo-1.0.tar.gz" Sample.file_pkg
  /\ st_trace s' = [EvCopyFile "/tmp/pkgs/foo-1.0.tar.gz" target]
  /\ st_fs s' = <[target := File "archive"]> Sample.file_fs.
Proof.
  destruct (@Get_file_copies_buildenv Sample.host Sample.file_first)
    as (Henv & Hpkg & Htrace & Hcopy & _).
  - exact sample_kinds_distinct.
  - reflexivity.
  - vm_compute; reflexivity.
  - split; [exact Henv|]. split; [exact Hpkg|]. split; [exact Htrace|].
    destruct Hcopy as (content & Hsrc & Hfs & _); [discriminate|].
    vm_compute in Hsrc. injection Hsrc as <-. exact Hfs.
Defined.

(** The other case: the URL names the target path itself.  [Get] of
    buildenv.go returns nil although no file lies there, and [IsInstalled]
    then returns false. *)
Lemma Buildenv_Get_ghost :
  result_of (@Buildenv.Get Sample.host Demo.ghost) = Ret nil_error
  /\ Fs.PathExists (st_fs Demo.ghost) "/scratch/build/ghost.tar.gz" = false
  /\ result_of (@IsInstalled Sample.host (state_of (@Buildenv.Get Sample.host Demo.ghost)))
     = Ret false.
Proof. repeat split; vm_compute; reflexivity. Qed.

Lemma IsInstalled_after_Get_file_buildenv_witness :
  let s' := state_of (@Buildenv.Get Sample.host Sample.file_first) in
  @IsInstalled Sample.host s'
  = (Ret true, extend s' [EvStat "/scratch/build/foo-1.0.tar.gz"]).
Proof.
  apply (@IsInstalled_after_Get_file_buildenv Sample.host Sample.file_first).
  - exact sample_kinds_distinct.
  - reflexivity.
  - reflexivity.
  - vm_compute; discriminate.
  - vm_compute; reflexivity.
Defined.

Lemma IsInstalled_after_Get_http_part000_witness :
  @Part000.Get Sample.host Sample.http_again = (Ret nil_error, acquired Sample.http_again)
  /\ @IsInstalled Sample.host (acquired Sample.http_again)
     = (Ret false,
        extend (acquired Sample.http_again) [EvStat "/scratch/build/foo-1.0.tar.gz"]).
Proof.
  apply (@IsInstalled_after_Get_http_part000 Sample.host Sample.http_again).
  - exact sample_kinds_distinct.
  - discriminate.
  - reflexivity.
  - discriminate.
  - vm_compute; reflexivity.
  - vm_compute; reflexivity.
Defined.

Lemma Get_http_sets_SrcDir_first_witness :
  (exists o s',
     @Part000.Get Demo.host_failing Demo.http_first = (o, s')
     /\ SrcDir (st_env s') = "/scratch/build/foo"
     /\ BuildDir (st_env s') = "/scratch/build")
  /\ @Part000.Get Sample.host Demo.pkgdir_is_file
     = (Panic "invalid memory address or nil pointer dereference",
        after Demo.pkgdir_is_file (with_SrcDir "/scratch/build/foo" Sample.env0)
          (st_fs Demo.pkgdir_is_file)
          [EvStat "/scratch/build/foo"; EvStat "/scratch/build/foo/foo-1.0.tar.gz"]).
Proof.
  split.
  - apply (@Get_http_sets_SrcDir_first Demo.host_failing Demo.http_first).
    + exact failing_kinds_distinct.
    + discriminate.
    + reflexivity.
    + discriminate.
  - apply (@Get_http_sets_SrcDir_first Sample.host Demo.pkgdir_is_file).
    + exact sample_kinds_distinct.
    + discriminate.
    + reflexivity.
    + discriminate.
    + vm_compute; reflexivity.
    + vm_compute; reflexivity.
Defined.


Lemma Get_http_downloads_buildenv_witness :
  let cmd := exec_Command "/usr/bin/wget" ["http://example.com/foo-1.0.tar.gz"]
               "/scratch/build" in
  @Buildenv.Get Sample.host Sample.http_again
  = (Ret nil_error,
     {| st_env := with_SrcPath "/scratch/build/foo" Sample.env0;
        st_pkg := with_Tarball "foo" Sample.http_pkg;
        st_fs := Sample.http_fs;
        st_trace := [EvLookPath "wget"; EvRun cmd; EvReadDir "/scratch/build"] |}).
Proof.
  destruct (@Get_http_downloads_buildenv Sample.host Sample.http_again "/usr/bin/wget"
              Sample.http_fs Sample.ok ["foo"]) as [Hone _].
  - exact sample_kinds_distinct.
  - discriminate.
  - reflexivity.
  - discriminate.
  - reflexivity.
  - reflexivity.
  - reflexivity.
  - vm_compute; reflexivity.
  - apply (Hone "foo"). reflexivity.
Defined.

Lemma Get_git_then_Unpack_witness :
  let s' := state_of (@Part000.Get Sample.host Sample.git_first) in
  SrcPath (st_env s') = "/scratch/build/bar/bar"
  /\ SrcDir (st_env s') = "/scratch/build/bar/bar"
  /\ @Part000.Unpack Sample.host s'
     = (Ret nil_error, extend s' [EvStat "/scratch/build/bar/bar"]).
Proof.
  destruct (@Get_git_then_Unpack Sample.host Sample.git_first) as [Hpart _].
  - exact sample_kinds_distinct.
  - discriminate.
  - reflexivity.
  - discriminate.
  - destruct Hpart as (Hp & Hd & _ & Hunpack); [vm_compute; reflexivity|].
    split; [exact Hp|]. split; [exact Hd|].
    apply Hunpack. vm_compute; reflexivity.
Defined.

Lemma Get_directory_then_Unpack_witness :
  let cmd := {| BinPath := "/usr/bin/cp";
                CmdArgs := ["-rf"; "/src/foo"; "/scratch/build/foo"];
                ExecDir := EmptyString; ManifestName := EmptyString;
                ManifestDir := EmptyString; CmdEnv := [] |} in
  let s' := state_of (@Part000.Get Sample.host Demo.dir_first) in
  s' = {| st_env := with_SrcDir "/scratch/build/foo/foo"
                      (with_SrcPath "/scratch/build/foo/foo" Sample.env0);
          st_pkg := st_pkg Demo.dir_first;
          st_fs := <["/scratch/build/foo" := Directory]> (st_fs Demo.dir_first);
          st_trace := [EvStat "/src/foo"; EvStat "/scratch/build/foo";
                       EvMkdirAll "/scratch/build/foo"; EvLookPath "cp"; EvAdvRun cmd] |}
  /\ (Fs.IsDir (st_fs s') "/scratch/build/foo/foo" = true ->
      @Part000.Unpack Sample.host s'
      = (Ret nil_error, extend s' [EvStat "/scratch/build/foo/foo"])).
Proof.
  destruct (@Get_directory_then_Unpack Sample.host Demo.dir_first)
    as (_ & _ & Hstate & Hunpack).
  - exact sample_kinds_distinct.
  - reflexivity.
  - vm_compute; reflexivity.
  - discriminate.
  - vm_compute; reflexivity.
  - split; [|exact Hunpack]. rewrite Hstate. vm_compute. reflexivity.
Defined.


(** A PATH that leads through a regular file makes [lookPath] panic, and
    [Install] with it. *)
Lemma lookPath_through_file_panics :
  result_of (lookPath "make" Demo.PATH_through_file)
  = Panic "invalid memory address or nil pointer dereference"
  /\ result_of (@Install Sample.host Demo.PATH_through_file)
     = Panic "invalid memory address or nil pointer dereference".
Proof. split; vm_compute; reflexivity. Qed.

Lemma lookPath_without_PATH_witness :
  lookPath "make" Demo.built = (Ret "make", Demo.built).
Proof.
  apply (lookPath_without_PATH "make" Demo.built).
  repeat constructor. vm_compute. discriminate.
Defined.

Lemma lookPath_finds_installed_binary_witness :
  lookPath "make" Demo.installed
  = (Ret "/scratch/install/bin/make",
     extend Demo.installed [EvStat "/scratch/install/bin/make"]).
Proof.
  apply (@lookPath_finds_installed_binary Demo.process "make"
           "/scratch/install/bin:/usr/bin:/bin" ["HOME=/root"] Demo.installed).
  - vm_compute; reflexivity.
  - vm_compute; reflexivity.
  - vm_compute; reflexivity.
  - reflexivity.
  - vm_compute; reflexivity.
Defined.


Lemma Init_accepts_any_existing_path_witness :
  Fs.FileExists (st_fs Demo.odd) (ScratchDir (st_env Demo.odd)) = true
  /\ Init Demo.odd
     = (Ret nil_error,
        extend Demo.odd
          [EvStat "/scratch.txt"; EvStat "/scratch/build"; EvStat "/scratch/install"]).
Proof.
  split; [vm_compute; reflexivity|].
  apply (Init_accepts_any_existing_path Demo.odd); vm_compute; reflexivity.
Defined.

Lemma Init_InstallDir_failure_message_witness :
  Init Demo.blocked
  = (Ret (Some "failed to create build directory /scratch.txt/install: mkdir /scratch.txt: not a directory"),
     extend Demo.blocked
       [EvStat "/scratch"; EvStat "/scratch/build"; EvStat "/scratch.txt/install";
        EvMkdirAll "/scratch.txt/install"]).
Proof.
  apply (Init_InstallDir_failure_message Demo.blocked (st_fs Demo.blocked)
           "mkdir /scratch.txt: not a directory"); vm_compute; reflexivity.
Defined.

Lemma createHostEnvCfg_fresh_directories_witness :
  let s' := state_of (@createHostEnvCfg Demo.process Demo.scratch_only) in
  BuildDir (st_env s') = "/scratch/build1"
  /\ InstallDir (st_env s') = "/scratch/install2"
  /\ ScratchDir (st_env s') = "/scratch/scratch3"
  /\ NoDup [BuildDir (st_env s'); InstallDir (st_env s'); ScratchDir (st_env s')]
  /\ kept (st_fs Demo.scratch_only) (st_fs s').
Proof.
  destruct (@createHostEnvCfg_fresh_directories Demo.process Demo.scratch_only)
    as (Hdistinct & _ & _ & Hkept & _).
  - vm_compute; reflexivity.
  - split; [vm_compute; reflexivity|]. split; [vm_compute; reflexivity|].
    split; [vm_compute; reflexivity|]. split; [exact Hdistinct | exact Hkept].
Defined.

Lemma Init_after_createHostEnvCfg_witness :
  let s' := state_of (@createHostEnvCfg Demo.process Demo.scratch_only) in
  Init s'
  = (Ret nil_error,
     extend s' [EvStat "/scratch/scratch3"; EvStat "/scratch/build1";
                EvStat "/scratch/install2"]).
Proof.
  apply (@Init_after_createHostEnvCfg Demo.process Demo.scratch_only).
  vm_compute; reflexivity.
Defined.
